(** * flat-sale-announcements: the scraping engine, embedded in Rocq

    Sources embedded here:
    - [src/pageScraper/scraper.ts]: class [Scraper] (older revision, method
      names [scrapeAnnouncements], [getAnnouncements]) followed by the OLX
      site functions ([getOlxUrlsToNextPages], [parseOlxPageAds],
      [parseOlxAdTime], ...);
    - the later revision of class [Scraper] (method names [scrapeOffers],
      [scrapeSiteOffers], [getSiteOffers], [getPage], [loadPage]).

    The development is layered like the program: a model of the JavaScript
    run-time pieces the code relies on (strings as UTF-16 code units,
    [parseInt], unary [+], [Date]), then the OLX date normaliser and page
    extractor, then the page loader, the per-site crawl loop and the
    orchestrator. *)

From Stdlib Require Import String Ascii DecimalString.
From Stdlib Require Import ZArith NArith QArith Qround Bool Lia List.
Import ListNotations.

Local Open Scope Z_scope.

(* ================================================================== *)
(** * Part I.  JavaScript run-time model *)
(* ================================================================== *)

(** ** Exceptions and synchronous results *)

Inductive JSError : Type :=
| TypeError (what : string)
| Error (message : list N).

Inductive result (A : Type) : Type :=
| Ok (a : A)
| Throw (e : JSError).
Arguments Ok {A} a.
Arguments Throw {A} e.

(** ** Strings: sequences of UTF-16 code units *)

Module JSString.

Definition char := N.
Definition jstring := list char.

Fixpoint js (s : string) : jstring :=
  match s with
  | EmptyString => []
  | String c s' => N_of_ascii c :: js s'
  end.

Definition eqb (a b : jstring) : bool :=
  if list_eq_dec N.eq_dec a b then true else false.

(** [s.split(sep)] for a one-code-unit separator: the pieces between
    separators, empty pieces included; [''.split(sep)] is [['']]. *)
Fixpoint split_acc (sep : char) (cur : jstring) (s : jstring) : list jstring :=
  match s with
  | [] => [rev cur]
  | c :: s' => if N.eqb c sep then rev cur :: split_acc sep [] s'
               else split_acc sep (c :: cur) s'
  end.
Definition split (sep : char) (s : jstring) : list jstring := split_acc sep [] s.

Definition nonempty (s : jstring) : bool :=
  match s with [] => false | _ => true end.

(** [s.substr(0, n)] *)
Definition substr0 (n : nat) (s : jstring) : jstring := firstn n s.

Fixpoint isPrefixOf (p s : jstring) : bool :=
  match p, s with
  | [], _ => true
  | a :: p', b :: s' => N.eqb a b && isPrefixOf p' s'
  | _ :: _, [] => false
  end.

(** does [p] occur somewhere in [s] (an unanchored literal regexp) *)
Fixpoint occursIn (p s : jstring) : bool :=
  isPrefixOf p s ||
  match s with
  | [] => false
  | _ :: s' => occursIn p s'
  end.

(** WhiteSpace and LineTerminator code units, as [trim], [parseInt] and
    string-to-number conversion strip them. *)
Definition isWhiteSpace (c : char) : bool :=
  let c := Z.of_N c in
  ((9 <=? c) && (c <=? 13)) || (c =? 32) || (c =? 160) || (c =? 5760)
  || ((8192 <=? c) && (c <=? 8202)) || (c =? 8232) || (c =? 8233)
  || (c =? 8239) || (c =? 8287) || (c =? 12288) || (c =? 65279).

Fixpoint trimStart (s : jstring) : jstring :=
  match s with
  | c :: s' => if isWhiteSpace c then trimStart s' else s
  | [] => []
  end.
Definition trimEnd (s : jstring) : jstring := rev (trimStart (rev s)).
Definition trim (s : jstring) : jstring := trimEnd (trimStart s).

(** decimal digits of a non-negative integer, as [String(i)] prints it *)
Definition ofNat (n : nat) : jstring :=
  js (NilZero.string_of_uint (Nat.to_uint n)).

(** [String(z)] for an integer *)
Definition ofInt (z : Z) : jstring :=
  (if (z <? 0)%Z then [45%N] else []) ++ ofNat (Z.abs_nat z).

Definition space : char := 32%N.
Definition colon : char := 58%N.

End JSString.
Import JSString.

(** ** Numbers: IEEE-754 binary64 values, held by their exact value *)

Module JSNumber.

Local Open Scope Q_scope.

(** The sign of zero is not kept: nothing in the code observes it. *)
Inductive number : Type :=
| NaN
| Inf (negative : bool)
| Fin (q : Q).

Definition ofZ (z : Z) : number := Fin (inject_Z z).

Definition pow2 (e : Z) : Q :=
  if (0 <=? e)%Z then inject_Z (2 ^ e) else / inject_Z (2 ^ (- e)).

Definition Qltb (a b : Q) : bool := negb (Qle_bool b a).

(** round-to-nearest, ties-to-even, of a positive rational *)
Definition roundPos (q : Q) : number :=
  let e0 := (Z.log2 (Qnum q) - Z.log2 (Zpos (Qden q)) - 52)%Z in
  let m0 := Qfloor (q * pow2 (- e0)) in
  let e1 := if (m0 <? 2 ^ 52)%Z then (e0 - 1)%Z
            else if (2 ^ 53 <=? m0)%Z then (e0 + 1)%Z else e0 in
  let e := Z.max e1 (-1074) in
  let x := q * pow2 (- e) in
  let m := Qfloor x in
  let r := x - inject_Z m in
  let m' := if Qltb (1 # 2) r then (m + 1)%Z
            else if Qeq_bool r (1 # 2) then (if Z.even m then m else (m + 1)%Z)
            else m in
  let v := inject_Z m' * pow2 e in
  if Qle_bool (inject_Z (2 ^ 1024)) v then Inf false else Fin (Qred v).

Definition fl64 (q : Q) : number :=
  if Qeq_bool q 0 then Fin 0
  else if Qltb q 0 then
         match roundPos (- q) with
         | Fin v => Fin (Qred (- v))
         | Inf _ => Inf true
         | NaN => NaN
         end
       else roundPos q.

Definition isNaN (x : number) : bool :=
  match x with NaN => true | _ => false end.

(** [a === b] on two numbers *)
Definition strictEq (a b : number) : bool :=
  match a, b with
  | Fin p, Fin q => Qeq_bool p q
  | Inf s, Inf t => Bool.eqb s t
  | _, _ => false
  end.

(** [a < b] on two numbers *)
Definition lt (a b : number) : bool :=
  match a, b with
  | NaN, _ | _, NaN => false
  | Fin p, Fin q => Qltb p q
  | Fin _, Inf neg => negb neg
  | Inf neg, Fin _ => neg
  | Inf s, Inf t => s && negb t
  end.

(** ToIntegerOrInfinity restricted to its finite results *)
Definition toInteger (x : number) : option Z :=
  match x with
  | Fin q => Some (if Qle_bool 0 q then Qfloor q else Qceiling q)
  | _ => None
  end.

(** *** Reading numerals *)

Definition digitValue (c : char) : option Z :=
  let z := Z.of_N c in
  if ((48 <=? z) && (z <=? 57))%Z then Some (z - 48)%Z else None.

(** longest run of decimal digits at the front: its value, its length in
    digits, and the rest *)
Fixpoint spanDigits (acc : Z) (len : nat) (s : jstring) : Z * nat * jstring :=
  match s with
  | c :: s' =>
      match digitValue c with
      | Some d => spanDigits (10 * acc + d)%Z (S len) s'
      | None => (acc, len, s)
      end
  | [] => (acc, len, [])
  end.

Definition radixDigitValue (radix : Z) (c : char) : option Z :=
  let z := Z.of_N c in
  let v := if ((48 <=? z) && (z <=? 57))%Z then (z - 48)%Z
           else if ((97 <=? z) && (z <=? 122))%Z then (z - 87)%Z
           else if ((65 <=? z) && (z <=? 90))%Z then (z - 55)%Z
           else 99%Z in
  if (v <? radix)%Z then Some v else None.

(** a whole string of digits in [radix], or nothing *)
Fixpoint allRadixDigits (radix : Z) (acc : Z) (s : jstring) : option Z :=
  match s with
  | [] => Some acc
  | c :: s' =>
      match radixDigitValue radix c with
      | Some d => allRadixDigits radix (radix * acc + d)%Z s'
      | None => None
      end
  end.

(** [parseInt(s, 10)] on a string *)
Definition parseInt10 (s : jstring) : number :=
  let s := trimStart s in
  let '(negative, s) :=
    match s with
    | 45%N :: s' => (true, s')
    | 43%N :: s' => (false, s')
    | _ => (false, s)
    end in
  match spanDigits 0 0 s with
  | (_, O, _) => NaN
  | (v, _, _) => fl64 (inject_Z (if negative then (- v)%Z else v))
  end.

(** [parseInt(x, 10)] where [x] may be [undefined]: the argument is first
    turned into the string ['undefined'], which has no digits. *)
Definition parseInt (x : option jstring) : number :=
  match x with
  | Some s => parseInt10 s
  | None => NaN
  end.

(** the ExponentPart of a decimal literal, which must end the string *)
Definition readExponent (s : jstring) : option Z :=
  match s with
  | [] => Some 0%Z
  | c :: s' =>
      if (N.eqb c 101 || N.eqb c 69)%bool then
        let '(negative, s'') :=
          match s' with
          | 45%N :: t => (true, t)
          | 43%N :: t => (false, t)
          | _ => (false, s')
          end in
        match spanDigits 0 0 s'' with
        | (_, O, _) => None
        | (v, _, []) => Some (if negative then (- v)%Z else v)
        | _ => None
        end
      else None
  end.

Definition pow10 (e : Z) : Q :=
  if (0 <=? e)%Z then inject_Z (10 ^ e) else / inject_Z (10 ^ (- e)).

(** StrUnsignedDecimalLiteral other than [Infinity]: its exact value *)
Definition readUnsignedDecimal (s : jstring) : option Q :=
  let '(ip, ilen, rest) := spanDigits 0 0 s in
  match rest with
  | 46%N :: rest' =>
      let '(fp, flen, rest'') := spanDigits 0 0 rest' in
      match ilen, flen with
      | O, O => None
      | _, _ =>
          match readExponent rest'' with
          | Some e =>
              Some ((inject_Z ip + inject_Z fp * pow10 (- Z.of_nat flen)) * pow10 e)
          | None => None
          end
      end
  | _ =>
      match ilen with
      | O => None
      | _ =>
          match readExponent rest with
          | Some e => Some (inject_Z ip * pow10 e)
          | None => None
          end
      end
  end.

Definition Infinity_lit : jstring := js "Infinity".

(** NonDecimalIntegerLiteral: [0x], [0o], [0b] in either case *)
Definition readNonDecimal (s : jstring) : option Z :=
  match s with
  | 48%N :: p :: ((_ :: _) as ds) =>
      if (N.eqb p 120 || N.eqb p 88)%bool then allRadixDigits 16 0 ds
      else if (N.eqb p 111 || N.eqb p 79)%bool then allRadixDigits 8 0 ds
      else if (N.eqb p 98 || N.eqb p 66)%bool then allRadixDigits 2 0 ds
      else None
  | _ => None
  end.

(** StringToNumber: what unary [+] computes on a string *)
Definition StringToNumber (s : jstring) : number :=
  let s := trim s in
  match s with
  | [] => Fin 0
  | _ =>
      match readNonDecimal s with
      | Some v => fl64 (inject_Z v)
      | None =>
          let '(negative, u) :=
            match s with
            | 45%N :: s' => (true, s')
            | 43%N :: s' => (false, s')
            | _ => (false, s)
            end in
          if JSString.eqb u Infinity_lit then Inf negative
          else match readUnsignedDecimal u with
               | Some q => fl64 (if negative then - q else q)
               | None => NaN
               end
      end
  end.

(** unary [+x] where [x] is a string or [undefined] *)
Definition ToNumber (x : option jstring) : number :=
  match x with
  | Some s => StringToNumber s
  | None => NaN
  end.

End JSNumber.
Import JSNumber.

(** ** Dates: time values in milliseconds since the epoch

    The definitions follow the ECMAScript abstract operations of the same
    names.  A [Date] object is its time value; [None] is the invalid date
    (time value [NaN]).  Local time is UTC shifted by a constant offset
    [LocalTZA], in milliseconds: a zone whose offset does not change.  In
    a zone with daylight-saving time the time value of a local date can be
    an hour off this one, so the general statements about a date the code
    builds are put in terms of [newDate] and of calendar fields, not of a
    count of milliseconds; the sample values are for a fixed offset. *)

Module JSDate.

Definition msPerDay : Z := 86400000.
Definition msPerHour : Z := 3600000.
Definition msPerMinute : Z := 60000.

Definition Day (t : Z) : Z := t / msPerDay.
Definition TimeWithinDay (t : Z) : Z := t mod msPerDay.

Definition isLeap (y : Z) : bool :=
  ((y mod 4 =? 0) && negb (y mod 100 =? 0)) || (y mod 400 =? 0).
Definition DaysInYear (y : Z) : Z := if isLeap y then 366 else 365.

Definition DayFromYear (y : Z) : Z :=
  365 * (y - 1970) + (y - 1969) / 4 - (y - 1901) / 100 + (y - 1601) / 400.
Definition TimeFromYear (y : Z) : Z := msPerDay * DayFromYear y.

(** the largest [y] with [TimeFromYear y <= t]: an estimate from the mean
    year length, then one correction either way *)
Definition YearFromDay (d : Z) : Z :=
  let y := 1970 + (400 * d) / 146097 in
  if DayFromYear (y + 1) <=? d then y + 1
  else if DayFromYear y <=? d then y
  else y - 1.
Definition YearFromTime (t : Z) : Z := YearFromDay (Day t).

Definition InLeapYear (t : Z) : Z :=
  if isLeap (YearFromTime t) then 1 else 0.
Definition DayWithinYear (t : Z) : Z := Day t - DayFromYear (YearFromTime t).

(** day number within the year on which month [m] (0..11) starts *)
Definition monthStart (leap : Z) (m : Z) : Z :=
  match m with
  | 0 => 0
  | 1 => 31
  | 2 => 59 + leap
  | 3 => 90 + leap
  | 4 => 120 + leap
  | 5 => 151 + leap
  | 6 => 181 + leap
  | 7 => 212 + leap
  | 8 => 243 + leap
  | 9 => 273 + leap
  | 10 => 304 + leap
  | 11 => 334 + leap
  | _ => 365 + leap
  end.

Definition MonthFromTime (t : Z) : Z :=
  let d := DayWithinYear t in
  let l := InLeapYear t in
  if d <? 31 then 0
  else if d <? 59 + l then 1
  else if d <? 90 + l then 2
  else if d <? 120 + l then 3
  else if d <? 151 + l then 4
  else if d <? 181 + l then 5
  else if d <? 212 + l then 6
  else if d <? 243 + l then 7
  else if d <? 273 + l then 8
  else if d <? 304 + l then 9
  else if d <? 334 + l then 10
  else 11.

Definition DateFromTime (t : Z) : Z :=
  DayWithinYear t - monthStart (InLeapYear t) (MonthFromTime t) + 1.

Definition MakeTime (hour min sec ms : Z) : Z :=
  hour * msPerHour + min * msPerMinute + sec * 1000 + ms.

Definition MakeDay (year month date : Z) : Z :=
  let ym := year + month / 12 in
  let mn := month mod 12 in
  DayFromYear ym + monthStart (if isLeap ym then 1 else 0) mn + date - 1.

Definition MakeDate (day time : Z) : Z := day * msPerDay + time.

Definition TimeClip (t : Z) : option Z :=
  if Z.abs t <=? 8640000000000000 then Some t else None.

Definition Date := option Z.

Section LocalTime.
Variable LocalTZA : Z.

Definition LocalTime (t : Z) : Z := t + LocalTZA.
Definition UTC (t : Z) : Z := t - LocalTZA.

(** [new Date(year, month, date, hours, minutes)]; a year 0..99 means
    1900 + year; an argument that is not finite makes the date invalid *)
Definition newDate (year month : Z) (date hours minutes : number) : Date :=
  match toInteger date, toInteger hours, toInteger minutes with
  | Some dt, Some h, Some mi =>
      let yr := if (0 <=? year) && (year <=? 99) then 1900 + year else year in
      TimeClip (UTC (MakeDate (MakeDay yr month dt) (MakeTime h mi 0 0)))
  | _, _, _ => None
  end.

Definition getFullYear (t : Z) : Z := YearFromTime (LocalTime t).
Definition getMonth (t : Z) : Z := MonthFromTime (LocalTime t).
Definition getDate (t : Z) : Z := DateFromTime (LocalTime t).
Definition getHours (t : Z) : Z := TimeWithinDay (LocalTime t) / msPerHour.
Definition getMinutes (t : Z) : Z :=
  (TimeWithinDay (LocalTime t) mod msPerHour) / msPerMinute.
End LocalTime.

(** [d.getTime()] *)
Definition getTime (d : Date) : number :=
  match d with
  | Some t => ofZ t
  | None => NaN
  end.

End JSDate.
Import JSDate.

(* ================================================================== *)
(** * Part II.  The OLX site functions (scraper.ts, second half) *)
(* ================================================================== *)

Module Olx.

(** ** The clock

    [new Date()] and [Date.now()] read the system clock.  The [k]-th
    reading of a run is [clock env k]; the computations below thread the
    number of readings made so far, and may fail with an exception. *)

Record Env : Type := { clock : nat -> Z; LocalTZA : Z }.

Definition M (A : Type) : Type := Env -> nat -> result A * nat.

Definition ret {A} (a : A) : M A := fun _ k => (Ok a, k).
Definition throw {A} (e : JSError) : M A := fun _ k => (Throw e, k).
Definition bind {A B} (c : M A) (f : A -> M B) : M B :=
  fun env k =>
    match c env k with
    | (Ok a, k') => f a env k'
    | (Throw e, k') => (Throw e, k')
    end.
Definition Date_now : M Z := fun env k => (Ok (clock env k), S k).
Definition tz : M Z := fun env k => (Ok (LocalTZA env), k).

Notation "x <- c ;; f" := (bind c (fun x => f))
  (at level 61, c at next level, right associativity).

(** Modelled from the spec: the constant [DAY_MS] of [../constants], which
    is not among the sources; the spec gives the window as 24 h. *)
Definition DAY_MS : Z := 24 * 60 * 60 * 1000.

(** [Date | string] *)
Inductive DateOrString : Type :=
| IsDate (d : Date)
| IsString (s : jstring).

Definition undefined_str : jstring := js "undefined".
Definition ToString (x : option jstring) : jstring :=
  match x with Some s => s | None => undefined_str end.

Definition dzisiaj : jstring := js "dzisiaj".
Definition wczoraj : jstring := js "wczoraj".

(** ** mapMonthPrefixToMonth *)

Definition month_sty : jstring := js "sty".
Definition month_lut : jstring := js "lut".
Definition month_mar : jstring := js "mar".
Definition month_kwi : jstring := js "kwi".
Definition month_maj : jstring := js "maj".
Definition month_cze : jstring := js "cze".
Definition month_lip : jstring := js "lip".
Definition month_sie : jstring := js "sie".
Definition month_wrz : jstring := js "wrz".
(** ['paź']: the last code unit is U+017A *)
Definition month_paz_pl : jstring := js "pa" ++ [378%N].
Definition month_paz : jstring := js "paz".
Definition month_lis : jstring := js "lis".
Definition month_gru : jstring := js "gru".

(** the full month names, with their non-ASCII letters as code units *)
Definition name_styczen : jstring := js "stycze" ++ [324%N].
Definition name_luty : jstring := js "luty".
Definition name_marzec : jstring := js "marzec".
Definition name_kwiecien : jstring := js "kwiecie" ++ [324%N].
Definition name_maj : jstring := js "maj".
Definition name_czerwiec : jstring := js "czerwiec".
Definition name_lipiec : jstring := js "lipiec".
Definition name_sierpien : jstring := js "sierpie" ++ [324%N].
Definition name_wrzesien : jstring := js "wrzesie" ++ [324%N].
Definition name_pazdziernik : jstring := js "pa" ++ [378%N] ++ js "dziernik".
Definition name_listopad : jstring := js "listopad".
Definition name_grudzien : jstring := js "grudzie" ++ [324%N].

(** the [case] labels, in source order, with what each returns *)
Definition monthTable : list (jstring * (Z * jstring)) :=
  [ (month_sty, (0, name_styczen));
    (month_lut, (1, name_luty));
    (month_mar, (2, name_marzec));
    (month_kwi, (3, name_kwiecien));
    (month_maj, (4, name_maj));
    (month_cze, (5, name_czerwiec));
    (month_lip, (6, name_lipiec));
    (month_sie, (7, name_sierpien));
    (month_wrz, (8, name_wrzesien));
    (month_paz_pl, (9, name_pazdziernik));
    (month_paz, (9, name_pazdziernik));
    (month_lis, (10, name_listopad));
    (month_gru, (11, name_grudzien)) ].

Fixpoint switch {V} (cases : list (jstring * V)) (x : jstring) : option V :=
  match cases with
  | [] => None
  | (label, v) :: rest => if JSString.eqb x label then Some v else switch rest x
  end.

(** the return type [string | number], decided by [asNumber] *)
Definition mapMonthPrefixToMonth (monthPrefix : jstring) (asNumber : bool)
  : result (if asNumber then Z else jstring) :=
  match switch monthTable monthPrefix with
  | Some (n, name) =>
      Ok (if asNumber as b return (if b then Z else jstring) then n else name)
  | None => Throw (Error (js "Unrecognized month prefix"))
  end.

Definition lift {A} (r : result A) : M A := fun _ k => (r, k).

(** ** parseOlxAdDateWithMontPrefix *)

Definition parseOlxAdDateWithMontPrefix (monthPrefix day : option jstring)
  : M DateOrString :=
  match monthPrefix with
  | None => throw (TypeError "Cannot read properties of undefined (reading 'substr')")
  | Some monthPrefix =>
      let monthPrefix := substr0 3 monthPrefix in
      currentDate <- Date_now ;;
      let dayNum := parseInt day in
      if isNaN dayNum || negb (strictEq (ToNumber day) dayNum) then
        ret (IsString (ToString day ++ [space] ++ monthPrefix))
      else
        LocalTZA <- tz ;;
        let year := getFullYear LocalTZA currentDate in
        monthNum <- lift (mapMonthPrefixToMonth monthPrefix true) ;;
        let year :=
          if monthNum =? 11 then
            if lt (ofZ (getDate LocalTZA currentDate)) dayNum then year - 1 else year
          else year in
        let adDate := newDate LocalTZA year monthNum dayNum (ofZ 0) (ofZ 0) in
        ret (IsDate adDate)
  end.

(** ** parseOlxAdTimeWithTodayYesterday *)

Definition parseOlxAdTimeWithTodayYesterday (daySynonym : jstring)
  (time : option jstring) : M DateOrString :=
  match time with
  | None => throw (TypeError "Cannot read properties of undefined (reading 'split')")
  | Some time =>
      let timeArr := split colon time in
      let hour := parseInt (nth_error timeArr 0) in
      let minutes := parseInt (nth_error timeArr 1) in
      if isNaN hour || isNaN minutes
         || negb (strictEq hour (ToNumber (nth_error timeArr 0)))
         || negb (strictEq minutes (ToNumber (nth_error timeArr 1)))
      then ret (IsString (daySynonym ++ [space] ++ time))
      else
        currentDate <- Date_now ;;
        LocalTZA <- tz ;;
        let adDate :=
          newDate LocalTZA
            (getFullYear LocalTZA currentDate)
            (getMonth LocalTZA currentDate)
            (ofZ (getDate LocalTZA currentDate
                  + (if JSString.eqb daySynonym wczoraj then -1 else 0)))
            hour minutes in
        ret (IsDate adDate)
  end.

(** ** parseOlxAdTime *)

Definition parseOlxAdTime (olxTime : jstring) : M DateOrString :=
  let olxTimeArr := filter nonempty (split space olxTime) in
  if (2 <? List.length olxTimeArr)%nat then ret (IsString olxTime)
  else
    match nth_error olxTimeArr 0 with
    | Some t0 =>
        if JSString.eqb t0 dzisiaj || JSString.eqb t0 wczoraj then
          parseOlxAdTimeWithTodayYesterday t0 (nth_error olxTimeArr 1)
        else parseOlxAdDateWithMontPrefix (nth_error olxTimeArr 1) (Some t0)
    | None => parseOlxAdDateWithMontPrefix (nth_error olxTimeArr 1) None
    end.

(** ** The staleness test

    The condition of the [if] inside [parseOlxPageAds]:
    [Date.now() - (DAY_MS + 1000 * 30) >
       parsedDate.getTime() - (isTodayOrYesterday ? 0 : DAY_MS)],
    with [now] the reading of [Date.now()].  A comparison with the time
    value of an invalid date is false. *)
Definition isStale (now : Z) (parsedDate : Date) (isTodayOrYesterday : bool) : bool :=
  let currentDate := now - (DAY_MS + 1000 * 30) in
  match parsedDate with
  | Some t => currentDate >? t - (if isTodayOrYesterday then 0 else DAY_MS)
  | None => false
  end.

(** ** Pages and advertisements

    What the selectors of the code read from a parsed page.  For one
    listing entry: the text next to the clock icon, the text and [href] of
    the title link, the price text and the [src] of the photo; an absent
    attribute is [undefined]. *)

Record AdElement : Type := {
  clockText : jstring;
  titleLinkText : jstring;
  titleLinkHref : option jstring;
  priceStrongText : jstring;
  photoSrc : option jstring
}.

(** a parsed page: how many pager links the selector of
    [getOlxUrlsToNextPages] matches, and the entries of the offers table in
    document order *)
Record OlxPage : Type := {
  pagerLinks : nat;
  offersTable : list AdElement
}.

(** [announcement.dt]: the date printed by [toLocaleString] with the
    date-and-time or the date-only parameters of the configuration (which
    is not among the sources, so the print is kept symbolic), or the text
    the normaliser gave back *)
Inductive AdDate : Type :=
| toLocaleString (d : Date) (withTime : bool)
| rawText (s : jstring).

Record DebugInfo : Type := { url_ : jstring; idx : nat }.

Record Announcement : Type := {
  dt : AdDate;
  title : jstring;
  url : option jstring;
  price : jstring;
  imgUrl : option jstring;
  description : jstring;
  _debugInfo : DebugInfo
}.

(** [.replace(/[\n]/gi, '').trim()] *)
Definition cleanTitle (s : jstring) : jstring :=
  trim (filter (fun c => negb (N.eqb c 10)) s).

(** [.replace(/[^\d\.,]/gi, '').replace(/,/g, '.')] *)
Definition cleanPrice (s : jstring) : jstring :=
  map (fun c => if N.eqb c 44 then 46%N else c)
      (filter (fun c => match digitValue c with
                        | Some _ => true
                        | None => N.eqb c 46 || N.eqb c 44
                        end) s).

(** the part of the loop body after the date has been settled *)
Definition makeAnnouncement (debugUrl : jstring) (i : nat) (ad : AdElement)
  (adDate : AdDate) : Announcement :=
  {| dt := adDate;
     title := cleanTitle (titleLinkText ad);
     url := titleLinkHref ad;
     price := cleanPrice (priceStrongText ad);
     imgUrl := photoSrc ad;
     description := [];
     _debugInfo := {| url_ := debugUrl; idx := i |} |}.

(** [/(dzisiaj|wczoraj)/.test(dt)] *)
Definition testTodayOrYesterday (dt : jstring) : bool :=
  occursIn dzisiaj dt || occursIn wczoraj dt.

(** ** parseOlxPageAds

    The [for] loop over [$ads], from entry number [i] on, with the
    announcements pushed so far. *)
Fixpoint parseOlxPageAds_loop (debugUrl : jstring) (i : nat)
  (announcements : list Announcement) (ads : list AdElement)
  : M (list Announcement * bool) :=
  match ads with
  | [] => ret (announcements, false)
  | ad :: rest =>
      let dt := clockText ad in
      parsedDate <- parseOlxAdTime dt ;;
      match parsedDate with
      | IsDate parsedDate =>
          let isTodayOrYesterday := testTodayOrYesterday dt in
          now <- Date_now ;;
          if isStale now parsedDate isTodayOrYesterday then
            ret (announcements, true)
          else
            let adDate := toLocaleString parsedDate isTodayOrYesterday in
            parseOlxPageAds_loop debugUrl (S i)
              (announcements ++ [makeAnnouncement debugUrl i ad adDate]) rest
      | IsString parsedDate =>
          let adDate := rawText parsedDate in
          parseOlxPageAds_loop debugUrl (S i)
            (announcements ++ [makeAnnouncement debugUrl i ad adDate]) rest
      end
  end.

Definition parseOlxPageAds (debugUrl : jstring) (ads : list AdElement)
  : M (list Announcement * bool) :=
  parseOlxPageAds_loop debugUrl 0 [] ads.

(** ** getOlxUrlsToNextPages *)

Section Pagination.
(** [Urls.Olx], from [../constants], which is not among the sources *)
Variable Urls_Olx : jstring.

(** the [for (let i = 2; i < pagesCount; i++)] loop; [fuel] bounds the
    number of iterations *)
Fixpoint pagesLoop (fuel : nat) (i pagesCount : nat) (pagesUrls : list jstring)
  : list jstring :=
  match fuel with
  | O => pagesUrls
  | S fuel' =>
      if (i <? pagesCount)%nat then
        pagesLoop fuel' (S i) pagesCount
          (pagesUrls ++ [Urls_Olx ++ js "&page=" ++ ofNat i])
      else pagesUrls
  end.

Definition getOlxUrlsToNextPages (page : OlxPage) : list jstring :=
  let pagesCount := pagerLinks page in
  pagesLoop pagesCount 2 pagesCount [].
End Pagination.

End Olx.

(* ================================================================== *)
(** * Part III.  class Scraper *)
(* ================================================================== *)

Module Scraper.

Definition SiteName := string.
Definition url := jstring.

(** ** Promises and the log *)

(** How an awaited promise ends; [Pending] is a promise that never
    settles. *)
Inductive Promise (A : Type) : Type :=
| Fulfilled (a : A)
| Rejected (e : JSError)
| Pending.
Arguments Fulfilled {A} a.
Arguments Rejected {A} e.
Arguments Pending {A}.

(** the fields of an offer that [validateOffers] reads *)
Record IOffer : Type := {
  id : jstring;
  title : jstring;
  price : jstring;
  offerUrl : jstring;
  dt : jstring;
  imgUrl : jstring
}.

(** The observable effects, in the order they happen: the lines handed to
    the logger [l] (one constructor per call site), sleeps, closed pages
    and written files. *)
Inductive Event : Type :=
| info_AboutToScrape (site : SiteName)
| info_AboutToSave (site : SiteName)
| error_FailToSave (site : SiteName) (err : JSError)
| info_ScrapedPagesCount (site : SiteName) (scrapedPagesCount : nat)
| info_NumberOfOffers (site : SiteName) (count : nat)
| warn_MissingData (site : SiteName)
| debug_SettingRetry (site : SiteName) (retries : nat) (timeout : Z)
| sleep (timeout : Z)
| page_close (attempt : nat)
| fileWritten (site : SiteName) (offers : list IOffer).

Definition message (e : JSError) : jstring :=
  match e with
  | Error m => m
  | TypeError m => js m
  end.

(** ** PageLoader: loadPage and getPage *)

(** what [page.goto(url)] does on one attempt *)
Inductive GotoResult : Type :=
| gotoThrows (err : JSError)
| gotoNoResponse
| gotoStatus (status : Z).

(** a loop that is still running when the fuel is spent *)
Inductive Attempted (A : Type) : Type :=
| Settled (r : result A)
| StillRetrying.
Arguments Settled {A} r.
Arguments StillRetrying {A}.

Section PageLoader.
Variable Page : Type.
(** [browser.newPage()] on the [n]-th attempt *)
Variable newPage : nat -> Page.
(** [page.goto(url)] on the [n]-th attempt *)
Variable goto : nat -> GotoResult.
(** the readings of [Date.now()] in [getPage], in order *)
Variable clock : nat -> Z.
(** [config.scrapeSiteTimeout] *)
Variable scrapeSiteTimeout : Z.
Variable serviceName : SiteName.

Definition wrongStatus (status : Z) : JSError :=
  Error (js "Wrong response status ( " ++ ofInt status ++ js " ) .").

Definition unableToLoad (u : url) (err : JSError) : JSError :=
  Error (js "Unable to correctly load page:" ++ [10%N; 34%N] ++ u
         ++ [34%N; 10%N] ++ js "due to following error: " ++ [10%N; 32%N]
         ++ message err).

(** [loadPage]: the inner [try] throws on a failed navigation, a missing
    response or a status other than 200; the [catch] closes the page and
    throws the wrapping error *)
Definition loadPage (attempt : nat) (u : url) : list Event * result Page :=
  let page := newPage attempt in
  let inner : result unit :=
    match goto attempt with
    | gotoThrows err => Throw err
    | gotoNoResponse => Throw (Error (js "Could not get response the page."))
    | gotoStatus responseStatus =>
        if negb (responseStatus =? 200) then Throw (wrongStatus responseStatus)
        else Ok tt
    end in
  match inner with
  | Throw err => ([page_close attempt], Throw (unableToLoad u err))
  | Ok _ => ([], Ok page)
  end.

(** the error built, and dropped, when the budget is exceeded *)
Definition exceeded : JSError :=
  Error (js "[" ++ js serviceName ++ js "] Scraping exceeded "
         ++ ofInt scrapeSiteTimeout ++ js " min.").

(** the [do ... while (true)] loop of [getPage]; [k] counts the clock
    readings made so far *)
Fixpoint getPage_loop (fuel : nat) (u : url) (startTime : Z)
  (retries : nat) (k : nat) : list Event * Attempted Page :=
  match fuel with
  | O => ([], StillRetrying)
  | S fuel' =>
      match loadPage retries u with
      | (ev, Ok page) => (ev, Settled (Ok page))
      | (ev, Throw err) =>
          let _ := if clock k - startTime >? scrapeSiteTimeout
                   then Some exceeded else None in
          let retries := S retries in
          let timeout := Z.of_nat (if (retries <? 15)%nat then retries else 15%nat) * 1000 in
          let '(ev', r) := getPage_loop fuel' u startTime retries (S k) in
          (ev ++ [debug_SettingRetry serviceName retries timeout; sleep timeout] ++ ev',
           r)
      end
  end.

Definition getPage (fuel : nat) (u : url) : list Event * Attempted Page :=
  let retries := 0%nat in
  let startTime := clock 0 in
  getPage_loop fuel u startTime retries 1.

End PageLoader.

(** ** Site scrapers *)

Inductive ScraperDataType : Type := Html | Object.

(** [ISiteScraper]: [getPageAds] takes the parsed content or the page,
    [getUrlsToNextPages] the parsed content or the URL, by
    [scrapperDataType]; [Page] is a loaded browser page and [Root] its parsed
    content *)
Record ISiteScraper (Page Root : Type) : Type := {
  serviceName : SiteName;
  scrapperDataType : ScraperDataType;
  getPageAds : Root + Page -> Promise (list IOffer * bool);
  getUrlsToNextPages : Root + url -> list url
}.
Arguments serviceName {Page Root} _.
Arguments scrapperDataType {Page Root} _.
Arguments getPageAds {Page Root} _ _.
Arguments getUrlsToNextPages {Page Root} _ _.

(** What class [Scraper] runs against: the configuration, the site scraper
    factory, the browser as [getPage] sees it, the page parser and the file
    system. *)
Record World : Type := {
  Page : Type;
  Root : Type;
  (** [config.urls] and [config.isDev] *)
  config_urls : SiteName -> url;
  config_isDev : bool;
  makeSiteScraper : SiteName -> ISiteScraper Page Root;
  (** how [this.getPage(browser, url, siteScraper)] ends when it is called
      for the page number [n] (from 0) of a site's crawl *)
  getPageOutcome : ISiteScraper Page Root -> nat -> url -> list Event * Promise Page;
  (** [cheerio.load(await page.content())], for pages whose content can be
      read.  A rejection of [page.content()] is left out of the model: the
      call is outside the [try] of [getSiteOffers], so it would make
      [getSiteOffers] throw as a failed extraction does. *)
  getPageContent : Page -> Root;
  (** [ensurePathExists] and [writeFile] *)
  ensurePathExists : SiteName -> result unit;
  writeFile : SiteName -> list IOffer -> result unit
}.


Section Crawl.
Variable W : World.

(** the site scrapers of this world *)
Definition SiteScraper : Type := ISiteScraper (Page W) (Root W).

Definition getScraperPageAds (siteScraper : SiteScraper)
  (currentPage_content : Root W) (currentPage : Page W)
  : Promise (list IOffer * bool) :=
  match scrapperDataType siteScraper with
  | Html => getPageAds siteScraper (inl currentPage_content)
  | Object => getPageAds siteScraper (inr currentPage)
  end.

(** *** getSiteOffers ([getAnnouncements] in the older revision)

    The state of the [do ... while] loop at the top of its body.  The
    queue [pageUrls] is not empty there (it starts with one URL and the
    loop goes on only while [pageUrls.length > 0]), so it is held as its
    first URL and the rest. *)
Record CrawlSession : Type := {
  offers : list IOffer;
  pageUrl : url;
  pending : list url;
  scrapedPagesCount : nat
}.

Definition Crawled : Type := list Event * Promise (list IOffer * option JSError).

Inductive Iteration : Type :=
| Return (r : Crawled)
| Again (ev : list Event) (next : CrawlSession).

Definition nextPages (siteScraper : SiteScraper) (content : Root W) (u : url)
  : list url :=
  match scrapperDataType siteScraper with
  | Html => getUrlsToNextPages siteScraper (inl content)
  | Object => getUrlsToNextPages siteScraper (inr u)
  end.

(** one pass through the body of the loop, and its [while] test *)
Definition iteration (siteScraper : SiteScraper) (st : CrawlSession) : Iteration :=
  let u := pageUrl st in
  match getPageOutcome W siteScraper (scrapedPagesCount st) u with
  | (ev, Rejected err) => Return (ev, Fulfilled (offers st, Some err))
  | (ev, Pending) => Return (ev, Pending)
  | (ev, Fulfilled currentPage) =>
      let content := getPageContent W currentPage in
      match getScraperPageAds siteScraper content currentPage with
      | Rejected e => Return (ev, Rejected e)
      | Pending => Return (ev, Pending)
      | Fulfilled (pageOffers, isDone) =>
          let offers' := offers st ++ pageOffers in
          let count := S (scrapedPagesCount st) in
          let pageUrls := pending st in
          let pageUrls :=
            if negb isDone && (count =? 1)%nat then
              pageUrls ++ nextPages siteScraper content u
            else pageUrls in
          let finished : Crawled :=
            (ev ++ [info_ScrapedPagesCount (serviceName siteScraper) count],
             Fulfilled (offers', None)) in
          match pageUrls with
          | next :: rest =>
              if negb isDone then
                Again ev {| offers := offers'; pageUrl := next;
                            pending := rest; scrapedPagesCount := count |}
              else Return finished
          | [] => Return finished
          end
      end
  end.

Definition prepend {A} (ev : list Event) (r : list Event * A) : list Event * A :=
  (ev ++ fst r, snd r).

Fixpoint getSiteOffers_loop (fuel : nat) (siteScraper : SiteScraper)
  (st : CrawlSession) : option Crawled :=
  match fuel with
  | O => None
  | S fuel' =>
      match iteration siteScraper st with
      | Return r => Some r
      | Again ev st' =>
          option_map (prepend ev) (getSiteOffers_loop fuel' siteScraper st')
      end
  end.

Definition initial (siteScraper : SiteScraper) : CrawlSession :=
  {| offers := []; pageUrl := config_urls W (serviceName siteScraper);
     pending := []; scrapedPagesCount := 0 |}.

(** enough passes for any crawl: the first page, then one per URL queued
    after it *)
Definition crawlFuel (siteScraper : SiteScraper) : nat :=
  match iteration siteScraper (initial siteScraper) with
  | Return _ => 1
  | Again _ st' => 2 + List.length (pending st')
  end.

Definition getSiteOffers (siteScraper : SiteScraper) : Crawled :=
  match getSiteOffers_loop (crawlFuel siteScraper) siteScraper
          (initial siteScraper) with
  | Some r => r
  | None => ([], Pending)
  end.

(** [Reaches s hist st]: the loop for [s] comes to the top of its body in
    state [st] after as many passes as [hist] is long, each of which loaded
    its page, extracted the offers listed in [hist] and was not done *)
Inductive Reaches (siteScraper : SiteScraper)
  : list (list IOffer) -> CrawlSession -> Prop :=
| reaches_initial : Reaches siteScraper [] (initial siteScraper)
| reaches_again hist st ev currentPage pageOffers st' :
    Reaches siteScraper hist st ->
    getPageOutcome W siteScraper (scrapedPagesCount st) (pageUrl st)
    = (ev, Fulfilled currentPage) ->
    getScraperPageAds siteScraper (getPageContent W currentPage) currentPage
    = Fulfilled (pageOffers, false) ->
    iteration siteScraper st = Again ev st' ->
    Reaches siteScraper (hist ++ [pageOffers]) st'.

(** *** saveSiteOffers, validateOffers, scrapeSiteOffers *)

Definition saveSiteOffers (siteName : SiteName) (offers : list IOffer)
  : list Event * result unit :=
  match ensurePathExists W siteName with
  | Throw err => ([error_FailToSave siteName err], Throw err)
  | Ok _ =>
      match writeFile W siteName offers with
      | Throw err =>
          ([info_AboutToSave siteName; error_FailToSave siteName err], Throw err)
      | Ok _ =>
          ([info_AboutToSave siteName; fileWritten siteName offers],
           Ok tt)
      end
  end.

Definition isEmpty (s : jstring) : bool :=
  match s with [] => true | _ => false end.

Definition missingData (x : IOffer) : bool :=
  isEmpty (id x) || isEmpty (title x) || isEmpty (price x)
  || isEmpty (offerUrl x) || isEmpty (dt x) || isEmpty (imgUrl x).

Definition validateOffers (offers : list IOffer) (siteName : SiteName)
  : list Event :=
  if config_isDev W then
    let withMissingData := filter missingData offers in
    if (0 <? List.length withMissingData)%nat then [warn_MissingData siteName]
    else []
  else [].

(** the value of [error] is bound and never read.  The older revision's
    [scrapeSiteAnnouncements] has the same steps under other names. *)
Definition scrapeSiteOffers (siteName : SiteName) : list Event * Promise unit :=
  let siteScraper := makeSiteScraper W siteName in
  match getSiteOffers siteScraper with
  | (ev, Pending) => (ev, Pending)
  | (ev, Rejected e) => (ev, Rejected e)
  | (ev, Fulfilled (todayOffers, error)) =>
      match saveSiteOffers (serviceName siteScraper) todayOffers with
      | (ev', Throw err) => (ev ++ ev', Rejected err)
      | (ev', Ok _) =>
          (ev ++ ev'
             ++ validateOffers todayOffers (serviceName siteScraper)
             ++ [info_NumberOfOffers (serviceName siteScraper)
                   (List.length todayOffers)],
           Fulfilled tt)
      end
  end.

(** *** Orchestrator: scrapeOffers and scrapeAnnouncements *)

(** one started call of [scrapeSiteOffers]: the site, what the call logs
    and does, and how its promise ends *)
Definition SiteRun : Type := SiteName * (list Event * Promise unit).

(** how [await Promise.all(promises)] ends: [rejectedWith] lists the
    reasons of the members that reject, in array order; the [await]
    throws the reason of whichever of them rejects first *)
Inductive Awaited : Type :=
| allFulfilled
| rejectedWith (reasons : list JSError)
| neverSettles.

Definition rejection (r : SiteRun) : list JSError :=
  match snd (snd r) with
  | Rejected e => [e]
  | _ => []
  end.

Definition isFulfilled (r : SiteRun) : bool :=
  match snd (snd r) with
  | Fulfilled _ => true
  | _ => false
  end.

Definition Promise_all (promises : list SiteRun) : Awaited :=
  match flat_map rejection promises with
  | (_ :: _) as reasons => rejectedWith reasons
  | [] => if forallb isFulfilled promises then allFulfilled else neverSettles
  end.

(** the batches of calls started, in order, and how the run ends *)
Inductive RunEnd : Type :=
| completed
| threw (reasons : list JSError)
| hangs.

Definition Run : Type := list (list SiteRun) * RunEnd.

Definition afterBatch (promises : list SiteRun) (continue : option Run)
  : option Run :=
  match Promise_all promises with
  | allFulfilled =>
      option_map (fun r : Run => (promises :: fst r, snd r)) continue
  | rejectedWith reasons => Some ([promises], threw reasons)
  | neverSettles => Some ([promises], hangs)
  end.

(** later revision: logs each site before starting it and steps over
    both members of the pair.  [sites[siteIndex]] is read only where
    [siteIndex < sites.length] was tested, which is where [nth_error]
    finds an element. *)
Definition startOffers (siteName : SiteName) : SiteRun :=
  (siteName, prepend [info_AboutToScrape siteName] (scrapeSiteOffers siteName)).

Fixpoint scrapeOffers_loop (fuel : nat) (sites : list SiteName) (siteIndex : nat)
  : option Run :=
  match fuel with
  | O => None
  | S fuel' =>
      match nth_error sites siteIndex with
      | None => Some ([], completed)
      | Some site =>
          let promises := [startOffers site] in
          let siteIndex := S siteIndex in
          let promises :=
            match nth_error sites siteIndex with
            | Some site' => promises ++ [startOffers site']
            | None => promises
            end in
          let siteIndex := S siteIndex in
          afterBatch promises (scrapeOffers_loop fuel' sites siteIndex)
      end
  end.

Definition scrapeOffers (sites : list SiteName) : option Run :=
  scrapeOffers_loop (S (List.length sites)) sites 0.

(** older revision: no log line, and [siteIndex] is advanced only by the
    [++siteIndex] of the test.  The crawl of a site is taken from the later
    revision: the older [getAnnouncements] differs from it for a site of
    the [Object] data type only, where it hands the page content to
    [getUrlsToNextPages]; what is proved of [scrapeAnnouncements] is about
    the batches and does not look into the crawl of a site. *)
Definition startAnnouncements (siteName : SiteName) : SiteRun :=
  (siteName, scrapeSiteOffers siteName).

Fixpoint scrapeAnnouncements_loop (fuel : nat) (sites : list SiteName)
  (siteIndex : nat) : option Run :=
  match fuel with
  | O => None
  | S fuel' =>
      match nth_error sites siteIndex with
      | None => Some ([], completed)
      | Some site =>
          let promises := [startAnnouncements site] in
          let siteIndex := S siteIndex in
          let promises :=
            match nth_error sites siteIndex with
            | Some site' => promises ++ [startAnnouncements site']
            | None => promises
            end in
          afterBatch promises (scrapeAnnouncements_loop fuel' sites siteIndex)
      end
  end.

Definition scrapeAnnouncements (sites : list SiteName) : option Run :=
  scrapeAnnouncements_loop (S (List.length sites)) sites 0.

(** the sites whose crawl a run started, in start order *)
Definition started (r : Run) : list SiteName := map fst (concat (fst r)).

End Crawl.

End Scraper.


(* ================================================================== *)
(** * Part IV.  Vocabulary of the specification and sample data *)
(* ================================================================== *)

Module Spec.

(** durations, in milliseconds *)
Definition hours (n : Z) : Z := n * 3600000.
Definition seconds (n : Z) : Z := n * 1000.

(** The specification's tokens: the input split on white space of any
    kind, empty tokens discarded.  (The code splits on U+0020 only.) *)
Fixpoint tokens_acc (cur : jstring) (s : jstring) : list jstring :=
  match s with
  | [] => match cur with [] => [] | _ => [rev cur] end
  | c :: s' =>
      if isWhiteSpace c then
        match cur with
        | [] => tokens_acc [] s'
        | _ => rev cur :: tokens_acc [] s'
        end
      else tokens_acc (c :: cur) s'
  end.
Definition tokens (s : jstring) : list jstring := tokens_acc [] s.

(** the code's tokens: [olxTime.split(' ').filter((x) => x !== '')] *)
Definition spaceTokens (s : jstring) : list jstring :=
  filter nonempty (split space s).

(** the number of days of month [m] (0..11) of year [y] *)
Definition daysInMonth (y m : Z) : Z :=
  let leap := if isLeap y then 1 else 0 in
  monthStart leap (m + 1) - monthStart leap m.

(** a token that is the decimal print of the day of the month [d], a day
    below 10 also with a leading zero *)
Definition isDayOfMonth (token : jstring) (d : nat) : Prop :=
  (1 <= d <= 31)%nat
  /\ (token = ofNat d \/ ((d < 10)%nat /\ token = 48%N :: ofNat d)).

(** a token whose first three code units are one of the [case] labels of
    [mapMonthPrefixToMonth], for the month number [m] *)
Definition hasMonthPrefix (token : jstring) (m : Z) : Prop :=
  exists name, Olx.switch Olx.monthTable (substr0 3 token) = Some (m, name).

(** the test that sends [parseOlxAdDateWithMontPrefix] to its early
    [return]: [isNaN(dayNum) || +day !== dayNum] *)
Definition dayCheckFails (day : jstring) : bool :=
  isNaN (parseInt (Some day))
  || negb (strictEq (ToNumber (Some day)) (parseInt (Some day))).

(** the test that sends [parseOlxAdTimeWithTodayYesterday] to its early
    [return] *)
Definition timeCheckFails (time : jstring) : bool :=
  let timeArr := split colon time in
  let hour := parseInt (nth_error timeArr 0) in
  let minutes := parseInt (nth_error timeArr 1) in
  isNaN hour || isNaN minutes
  || negb (strictEq hour (ToNumber (nth_error timeArr 0)))
  || negb (strictEq minutes (ToNumber (nth_error timeArr 1))).

(** [Kept env u i k ads recs k']: read from entry number [i] and clock
    reading [k] on, every entry of [ads] is kept, as the records [recs], and
    [k'] readings have been made in the end.  An entry is kept when its date
    text comes back as text, or as a date that the staleness test passes. *)
Inductive Kept (env : Olx.Env) (debugUrl : jstring)
  : nat -> nat -> list Olx.AdElement -> list Olx.Announcement -> nat -> Prop :=
| kept_none i k : Kept env debugUrl i k [] [] k
| kept_raw i k ad rest s k1 recs k2 :
    Olx.parseOlxAdTime (Olx.clockText ad) env k = (Ok (Olx.IsString s), k1) ->
    Kept env debugUrl (S i) k1 rest recs k2 ->
    Kept env debugUrl i k (ad :: rest)
      (Olx.makeAnnouncement debugUrl i ad (Olx.rawText s) :: recs) k2
| kept_fresh i k ad rest d k1 recs k2 :
    Olx.parseOlxAdTime (Olx.clockText ad) env k = (Ok (Olx.IsDate d), k1) ->
    Olx.isStale (Olx.clock env k1) d
      (Olx.testTodayOrYesterday (Olx.clockText ad)) = false ->
    Kept env debugUrl (S i) (S k1) rest recs k2 ->
    Kept env debugUrl i k (ad :: rest)
      (Olx.makeAnnouncement debugUrl i ad
         (Olx.toLocaleString d (Olx.testTodayOrYesterday (Olx.clockText ad)))
       :: recs) k2.

(** the URL of page [i] of a listing: the page index appended as a query
    parameter *)
Definition pageUrlOf (base : jstring) (i : nat) : jstring :=
  base ++ js "&page=" ++ ofNat i.

(** the crawl of [site], started by [scrapeOffers], is fulfilled *)
Definition fulfils (W : Scraper.World) (site : Scraper.SiteName) : Prop :=
  Scraper.isFulfilled (Scraper.startOffers W site) = true.

(** the calls started by the pass of the orchestrator's loop that begins at
    [siteIndex]: one for each of the next two sites *)
Definition batchAt (start : Scraper.SiteName -> Scraper.SiteRun)
  (sites : list Scraper.SiteName) (siteIndex : nat) : list Scraper.SiteRun :=
  map start (firstn 2 (skipn siteIndex sites)).

(** consecutive pairs of a list, an odd last element alone *)
Fixpoint pairs {A} (l : list A) : list (list A) :=
  match l with
  | a :: b :: rest => [a; b] :: pairs rest
  | [a] => [[a]]
  | [] => []
  end.

End Spec.

Module Sample.

(** Central European Time, no daylight saving: one hour east of UTC *)
Definition CET : Z := 3600000.

(** 2024-01-05 00:00 and 2024-12-30 00:00, local time *)
Definition t_2024_01_05 : Z := 1704412800000 - CET.
Definition t_2024_12_30 : Z := 1735516800000 - CET.

Definition at_ (now : Z) : Olx.Env :=
  {| Olx.clock := fun _ => now; Olx.LocalTZA := CET |}.

Definition tab : char := 9%N.

(** a server that answers 503 to every navigation, a clock that is an hour
    further at every reading, and a budget of one minute *)
Definition always503 (attempt : nat) : Scraper.GotoResult := Scraper.gotoStatus 503.
Definition hourly (k : nat) : Z := Z.of_nat k * 3600000.
Definition oneMinute : Z := 60000.
(** a server that answers 503 twice and then 200 *)
Definition thirdTimeLucky (attempt : nat) : Scraper.GotoResult :=
  match attempt with
  | 0%nat | 1%nat => Scraper.gotoStatus 503
  | _ => Scraper.gotoStatus 200
  end.
Definition olxStart : jstring := js "https://www.olx.pl/mieszkania".
Definition olx : Scraper.SiteName := "olx"%string.
Definition otodom : Scraper.SiteName := "otodom"%string.
Definition gratka : Scraper.SiteName := "gratka"%string.

Definition offer1 : Scraper.IOffer :=
  {| Scraper.id := js "a1"; Scraper.title := js "Mieszkanie";
     Scraper.price := js "350000"; Scraper.offerUrl := js "/a1";
     Scraper.dt := js "10.01.2024"; Scraper.imgUrl := js "/a1.jpg" |}.
Definition page2 : Scraper.url := js "https://www.olx.pl/mieszkania&page=2".

Definition unrecognizedMonth : JSError := Error (js "Unrecognized month prefix").
Definition loadError : JSError := Error (js "Unable to correctly load page").

(** A site scraper over pages that are known by their number: the first
    page holds [offer1] and is not the end, every later page is read as
    [later]; one more page is linked from the first. *)
Definition scraperWith (later : Scraper.Promise (list Scraper.IOffer * bool))
  (site : Scraper.SiteName) : Scraper.ISiteScraper nat nat :=
  {| Scraper.serviceName := site;
     Scraper.scrapperDataType := Scraper.Html;
     Scraper.getPageAds := fun x =>
       match x with
       | inl O => Scraper.Fulfilled ([offer1], false)
       | _ => later
       end;
     Scraper.getUrlsToNextPages := fun _ => [page2] |}.

(** a world with a working file system, in which the [n]-th page load of a
    crawl ends as [loads n] says *)
Definition world (mk : Scraper.SiteName -> Scraper.ISiteScraper nat nat)
  (loads : nat -> Scraper.Promise nat) : Scraper.World :=
  {| Scraper.Page := nat;
     Scraper.Root := nat;
     Scraper.config_urls := fun _ => olxStart;
     Scraper.config_isDev := false;
     Scraper.makeSiteScraper := mk;
     Scraper.getPageOutcome := fun _ n _ => ([], loads n);
     Scraper.getPageContent := fun page => page;
     Scraper.ensurePathExists := fun _ => Ok tt;
     Scraper.writeFile := fun _ _ => Ok tt |}.

Definition everyLoad (n : nat) : Scraper.Promise nat := Scraper.Fulfilled n.
Definition secondLoadFails (n : nat) : Scraper.Promise nat :=
  match n with
  | O => Scraper.Fulfilled O
  | _ => Scraper.Rejected loadError
  end.

(** the state of the sample crawls after their first page *)
Definition afterFirstPage : Scraper.CrawlSession :=
  {| Scraper.offers := [offer1]; Scraper.pageUrl := page2;
     Scraper.pending := []; Scraper.scrapedPagesCount := 1 |}.

Definition lastPage : Scraper.Promise (list Scraper.IOffer * bool) :=
  Scraper.Fulfilled ([], true).

(** every site has a second page that ends the crawl; all pages load *)
Definition worldNormal : Scraper.World := world (scraperWith lastPage) everyLoad.
(** the same sites, but the second page never loads *)
Definition worldLoadFailure : Scraper.World :=
  world (scraperWith lastPage) secondLoadFails.
(** every site has a second page with an unknown month on it *)
Definition worldBadMonth : Scraper.World :=
  world (scraperWith (Scraper.Rejected unrecognizedMonth)) everyLoad.
Definition threeSites : list Scraper.SiteName := [olx; otodom; gratka].

(** only the site olx has such a page *)
Definition worldOlxBadMonth : Scraper.World :=
  world (fun site => if String.eqb site olx
                     then scraperWith (Scraper.Rejected unrecognizedMonth) site
                     else scraperWith lastPage site)
        everyLoad.

(** 2024-01-10 10:30, local time *)
Definition t_2024_01_10_1030 : Z := 1704882600000 - CET.

Definition ad (clockText href : string) : Olx.AdElement :=
  {| Olx.clockText := js clockText;
     Olx.titleLinkText := js "Mieszkanie";
     Olx.titleLinkHref := Some (js href);
     Olx.priceStrongText := js "350 000 zl";
     Olx.photoSrc := None |}.

(** a page whose third entry is more than a day old *)
Definition ad1 : Olx.AdElement := ad "dzisiaj 10:00" "/a1".
Definition ad2 : Olx.AdElement := ad "w tym tygodniu" "/a2".
Definition ad3 : Olx.AdElement := ad "8 sty" "/a3".
Definition ad4 : Olx.AdElement := ad "dzisiaj 09:00" "/a4".
Definition listing : jstring := js "https://www.olx.pl/mieszkania".
(** an entry dated with a month label that is none of the table's *)
Definition adBadMonth : Olx.AdElement := ad "29 xyz" "/a5".

Definition s_empty : jstring := [].
Definition s_xx_grudnia : jstring := js "xx grudnia".
Definition s_29_xyz : jstring := js "29 xyz".
Definition s_dzisiaj_bad : jstring := js "dzisiaj 1x:05".
Definition s_three : jstring := js "29 gru 2023".

(** ["29 gru"], and the same with a tab for the space *)
Definition s_29_gru : jstring := js "29 gru".
Definition s_29_tab_gru : jstring := js "29" ++ [tab] ++ js "gru".

End Sample.

(* ================================================================== *)
(** * Part II, continued.  The OLX crawl (scraper.ts, second half):
      getOlxAnnouncements, getOlxPage, getOlxPageAds *)
(* ================================================================== *)

Module OlxSite.

(** the browser as these functions see it, each call indexed by the URL of
    the page it is made for: whether [browser.newPage()] gives a page, what
    [page.goto(url)] gives, what [page.content()] gives, parsed by
    [cheerio.load], and whether [page.close()] succeeds.  Every call
    settles: a call that hangs is not modelled. *)
Record Browser : Type := {
  newPage : jstring -> result unit;
  goto : jstring -> Scraper.GotoResult;
  content : jstring -> result Olx.OlxPage;
  close : jstring -> result unit
}.

(** pages opened ([browser.newPage()] has given the page) and closed
    ([page.close()] has completed), and the lines these functions hand to
    the logger (those of the functions of Part II are not kept) *)
Inductive Event : Type :=
| pageOpened (url : jstring)
| pageClosed (url : jstring)
| fatal_status (status : Z)
| info_parseTime (ms : Z)
| debug_endedOnFirstPage
| debug_pagesNumber (count : nat)
| warn_onlyOnePage.

(** the clock readings made so far, and the module-level cell
    [_debugInfo.url], which outlives a call *)
Record State : Type := { reads : nat; debugUrl : jstring }.

Definition C (A : Type) : Type := State -> list Event * result A * State.

Definition ret {A} (a : A) : C A := fun st => ([], Ok a, st).
Definition bind {A B} (c : C A) (f : A -> C B) : C B :=
  fun st =>
    match c st with
    | (ev, Ok a, st') =>
        match f a st' with
        | (ev', r, st'') => (ev ++ ev', r, st'')
        end
    | (ev, Throw e, st') => (ev, Throw e, st')
    end.
Definition log (e : Event) : C unit := fun st => ([e], Ok tt, st).
Definition setDebugUrl (u : jstring) : C unit :=
  fun st => ([], Ok tt, {| reads := reads st; debugUrl := u |}).

Notation "x <-- c ;; f" := (bind c (fun x => f))
  (at level 61, c at next level, right associativity).

Section Crawl.
Variable env : Olx.Env.
Variable browser : Browser.
(** [Urls.Olx], from [../constants] *)
Variable Urls_Olx : jstring.

Definition unableToLoad (url : jstring) : JSError :=
  Error (js "Unable to load " ++ [34%N] ++ url ++ [34%N]).

(** [getOlxPage]: the page is closed on the way out of the function only
    when the response is there with status 200 and both [page.content()]
    and [page.close()] succeed; on every other way out the page, once
    opened, is left as it is *)
Definition getOlxPage (url : jstring) : C Olx.OlxPage :=
  fun st =>
    match newPage browser url with
    | Throw err => ([], Throw err, st)
    | Ok _ =>
        match goto browser url with
        | Scraper.gotoThrows err => ([pageOpened url], Throw err, st)
        | Scraper.gotoNoResponse => ([pageOpened url], Throw (unableToLoad url), st)
        | Scraper.gotoStatus status =>
            if negb (status =? 200) then
              ([pageOpened url], Throw (unableToLoad url), st)
            else
              match content browser url with
              | Throw err => ([pageOpened url; fatal_status status], Throw err, st)
              | Ok page =>
                  match close browser url with
                  | Throw err =>
                      ([pageOpened url; fatal_status status], Throw err, st)
                  | Ok _ =>
                      ([pageOpened url; fatal_status status; pageClosed url],
                       Ok page, st)
                  end
              end
        end
    end.

(** [getOlxPageAds]: the clock is read before and after the extraction *)
Definition getOlxPageAds (page : Olx.OlxPage) : C (list Olx.Announcement * bool) :=
  fun st =>
    let now := Olx.clock env (reads st) in
    match Olx.parseOlxPageAds (debugUrl st) (Olx.offersTable page) env
            (S (reads st)) with
    | (Ok r, k) =>
        ([info_parseTime (Olx.clock env k - now)], Ok r,
         {| reads := S k; debugUrl := debugUrl st |})
    | (Throw e, k) => ([], Throw e, {| reads := k; debugUrl := debugUrl st |})
    end.

(** the [for] loop of [getOlxAnnouncements] over the remaining [pageUrls] *)
Fixpoint getOlxAnnouncements_loop (pageUrls : list jstring)
  (announcements : list Olx.Announcement) : C (list Olx.Announcement) :=
  match pageUrls with
  | [] => ret announcements
  | u :: rest =>
      _ <-- setDebugUrl u ;;
      page <-- getOlxPage u ;;
      r <-- getOlxPageAds page ;;
      let announcements := announcements ++ fst r in
      if snd r then ret announcements
      else getOlxAnnouncements_loop rest announcements
  end.

Definition getOlxAnnouncements : C (list Olx.Announcement) :=
  firstPage <-- getOlxPage Urls_Olx ;;
  r <-- getOlxPageAds firstPage ;;
  let announcements := fst r in
  if snd r then
    _ <-- log debug_endedOnFirstPage ;;
    ret announcements
  else
    let pageUrls := Olx.getOlxUrlsToNextPages Urls_Olx firstPage in
    _ <-- log (debug_pagesNumber (length pageUrls)) ;;
    if (length pageUrls =? 0)%nat then
      _ <-- log warn_onlyOnePage ;;
      ret announcements
    else getOlxAnnouncements_loop pageUrls announcements.

End Crawl.

End OlxSite.

(* ================================================================== *)
(** * Part IV, continued.  Vocabulary and sample data for the further
      properties *)
(* ================================================================== *)

Module Props.

(** a token that is the decimal print of [n], below [bound], a number below
    10 also with a leading zero: the hours and the minutes of a clock time *)
Definition isClockField (bound : nat) (token : jstring) (n : nat) : Prop :=
  (n < bound)%nat
  /\ (token = ofNat n \/ ((n < 10)%nat /\ token = 48%N :: ofNat n)).

(** a decimal digit, or a full stop *)
Definition isDigit (c : char) : bool :=
  match digitValue c with Some _ => true | None => false end.
Definition isDigitOrDot (c : char) : bool := isDigit c || N.eqb c 46.
Definition notLineFeed (c : char) : bool := negb (N.eqb c 10).
Definition notWhiteSpace (c : char) : bool := negb (isWhiteSpace c).

(** what every record of a page carries whatever the entry: the debug URL
    of the page, no description, and a price of digits and full stops *)
Definition wellFormed (debugUrl : jstring) (a : Olx.Announcement) : bool :=
  JSString.eqb (Olx.url_ (Olx._debugInfo a)) debugUrl
  && JSString.eqb (Olx.description a) []
  && forallb isDigitOrDot (Olx.price a)
  && forallb notLineFeed (Olx.title a).

(** the pause before retry number [retries]: that many seconds, 15 at most *)
Definition backoff (retries : nat) : Z := Z.of_nat (Nat.min retries 15) * 1000.

(** what one failed attempt of [getPage] leaves in the log: its page is
    closed, the retry is announced, and the loop sleeps *)
Definition retryEvents (site : Scraper.SiteName) (attempt : nat)
  : list Scraper.Event :=
  [Scraper.page_close attempt;
   Scraper.debug_SettingRetry site (S attempt) (backoff (S attempt));
   Scraper.sleep (backoff (S attempt))].

(** the [case] labels of [mapMonthPrefixToMonth] *)
Definition monthLabels : list jstring := map fst Olx.monthTable.


(** an offer with one of the six fields that [validateOffers] reads empty *)
Definition lacksField (x : Scraper.IOffer) : Prop :=
  Scraper.id x = [] \/ Scraper.title x = [] \/ Scraper.price x = []
  \/ Scraper.offerUrl x = [] \/ Scraper.dt x = [] \/ Scraper.imgUrl x = [].

(** each element with the one after it, the last alone: the batches of a
    loop that steps by one *)
Fixpoint windows {A} (l : list A) : list (list A) :=
  match l with
  | [] => []
  | a :: rest => (a :: firstn 1 rest) :: windows rest
  end.

(** the crawl of [site], started by [scrapeAnnouncements], is fulfilled *)
Definition fulfilsOld (W : Scraper.World) (site : Scraper.SiteName) : Prop :=
  Scraper.isFulfilled (Scraper.startAnnouncements W site) = true.

(** the load of the start page of [site] never settles *)
Definition neverLoads (W : Scraper.World) (site : Scraper.SiteName) : Prop :=
  let s := Scraper.makeSiteScraper W site in
  exists ev,
    Scraper.getPageOutcome W s 0 (Scraper.config_urls W (Scraper.serviceName s))
    = (ev, Scraper.Pending).

(** how many pages a trace of the OLX crawl opens, and closes *)
Definition opened (ev : list OlxSite.Event) : nat :=
  length (filter (fun e => match e with OlxSite.pageOpened _ => true | _ => false end) ev).
Definition closed (ev : list OlxSite.Event) : nat :=
  length (filter (fun e => match e with OlxSite.pageClosed _ => true | _ => false end) ev).

(** the page opened for [url] loads: the response has status 200, the
    content is read and the page closes *)
Definition loads (browser : OlxSite.Browser) (url : jstring) : Prop :=
  OlxSite.goto browser url = Scraper.gotoStatus 200
  /\ (exists page, OlxSite.content browser url = Ok page)
  /\ OlxSite.close browser url = Ok tt.

(** the trace ends with the page opened for [url] left open, that is with
    no close of it completed: the page is just opened, or its status is
    logged *)
Definition leftOpen (url : jstring) (ev : list OlxSite.Event) : Prop :=
  exists before after,
    ev = before ++ OlxSite.pageOpened url :: after
    /\ (after = [] \/ after = [OlxSite.fatal_status 200]).

(** the pages of a trace: every page opened that loads is closed, only
    such pages are closed, and a page opened that does not load is left
    open at the end of the trace, one page more being opened than closed *)
Definition pagesKept (browser : OlxSite.Browser) (ev : list OlxSite.Event) : Prop :=
  (forall url, In (OlxSite.pageOpened url) ev -> loads browser url ->
               In (OlxSite.pageClosed url) ev)
  /\ (forall url, In (OlxSite.pageClosed url) ev -> loads browser url)
  /\ (forall url, In (OlxSite.pageOpened url) ev -> ~ loads browser url ->
                  opened ev = S (closed ev) /\ leftOpen url ev).

(** the debug URL a record is stamped with *)
Definition stamp (a : Olx.Announcement) : jstring := Olx.url_ (Olx._debugInfo a).

(** *** A crawl, page by page

    The crawl of a site as a walk down a list of pages: [crawlQueue] loads
    and extracts the pages of [queue] in order, page number [count] first,
    and stops at the first page that fails to load, fails to extract, or is
    the end; [crawlSite] does the start page and then the pages it links
    to. *)
Section CrawlSpec.
Variable W : Scraper.World.
Variable s : Scraper.SiteScraper W.

Definition scrapedLog (count : nat) : Scraper.Event :=
  Scraper.info_ScrapedPagesCount (Scraper.serviceName s) count.

Fixpoint crawlQueue (offers : list Scraper.IOffer) (count : nat)
  (queue : list Scraper.url) : Scraper.Crawled :=
  match queue with
  | [] => ([scrapedLog count], Scraper.Fulfilled (offers, None))
  | u :: rest =>
      match Scraper.getPageOutcome W s count u with
      | (ev, Scraper.Rejected err) => (ev, Scraper.Fulfilled (offers, Some err))
      | (ev, Scraper.Pending) => (ev, Scraper.Pending)
      | (ev, Scraper.Fulfilled page) =>
          match Scraper.getScraperPageAds W s (Scraper.getPageContent W page) page with
          | Scraper.Rejected e => (ev, Scraper.Rejected e)
          | Scraper.Pending => (ev, Scraper.Pending)
          | Scraper.Fulfilled (pageOffers, isDone) =>
              if isDone then
                (ev ++ [scrapedLog (S count)],
                 Scraper.Fulfilled (offers ++ pageOffers, None))
              else
                Scraper.prepend ev
                  (crawlQueue (offers ++ pageOffers) (S count) rest)
          end
      end
  end.

Definition crawlSite : Scraper.Crawled :=
  let start := Scraper.config_urls W (Scraper.serviceName s) in
  match Scraper.getPageOutcome W s 0 start with
  | (ev, Scraper.Rejected err) => (ev, Scraper.Fulfilled ([], Some err))
  | (ev, Scraper.Pending) => (ev, Scraper.Pending)
  | (ev, Scraper.Fulfilled page) =>
      let content := Scraper.getPageContent W page in
      match Scraper.getScraperPageAds W s content page with
      | Scraper.Rejected e => (ev, Scraper.Rejected e)
      | Scraper.Pending => (ev, Scraper.Pending)
      | Scraper.Fulfilled (pageOffers, isDone) =>
          if isDone then
            (ev ++ [scrapedLog 1], Scraper.Fulfilled (pageOffers, None))
          else
            Scraper.prepend ev
              (crawlQueue pageOffers 1 (Scraper.nextPages W s content start))
      end
  end.

End CrawlSpec.

End Props.

Module Sample2.

(** 2024-01-10 10:00, local time *)
Definition t_2024_01_10_1000 : Z := 1704880800000 - Sample.CET.
Definition s_wczoraj_0900 : jstring := js "wczoraj 09:00".
Definition s_dzisiaj : jstring := js "dzisiaj".
(** a site whose start page is the end of its listing *)
Definition scraperDone (site : Scraper.SiteName) : Scraper.ISiteScraper nat nat :=
  {| Scraper.serviceName := site;
     Scraper.scrapperDataType := Scraper.Html;
     Scraper.getPageAds := fun _ => Scraper.Fulfilled ([Sample.offer1], true);
     Scraper.getUrlsToNextPages := fun _ => [Sample.page2] |}.
Definition worldDone : Scraper.World := Sample.world scraperDone Sample.everyLoad.

Definition diskFull : JSError := Error (js "ENOSPC: no space left on device").

(** the sample sites, with a disk that is full *)
Definition worldDiskFull : Scraper.World :=
  {| Scraper.Page := nat;
     Scraper.Root := nat;
     Scraper.config_urls := fun _ => Sample.olxStart;
     Scraper.config_isDev := true;
     Scraper.makeSiteScraper := scraperDone;
     Scraper.getPageOutcome := fun _ n _ => ([], Scraper.Fulfilled n);
     Scraper.getPageContent := fun page => page;
     Scraper.ensurePathExists := fun _ => Ok tt;
     Scraper.writeFile := fun _ _ => Throw diskFull |}.

(** an offer without a price *)
Definition offerNoPrice : Scraper.IOffer :=
  {| Scraper.id := js "a2"; Scraper.title := js "Kawalerka";
     Scraper.price := []; Scraper.offerUrl := js "/a2";
     Scraper.dt := js "10.01.2024"; Scraper.imgUrl := js "/a2.jpg" |}.

(** the sample sites, with olx never answering: its page load never
    settles *)
Definition worldOlxDown : Scraper.World :=
  {| Scraper.Page := nat;
     Scraper.Root := nat;
     Scraper.config_urls := fun _ => Sample.olxStart;
     Scraper.config_isDev := false;
     Scraper.makeSiteScraper := scraperDone;
     Scraper.getPageOutcome := fun s n _ =>
       if String.eqb (Scraper.serviceName s) Sample.olx
       then ([], Scraper.Pending)
       else ([], Scraper.Fulfilled n);
     Scraper.getPageContent := fun page => page;
     Scraper.ensurePathExists := fun _ => Ok tt;
     Scraper.writeFile := fun _ _ => Ok tt |}.
Definition olxLast : list Scraper.SiteName :=
  [Sample.otodom; Sample.gratka; Sample.olx; Sample.gratka; Sample.otodom].

(** a browser in which every page loads; the first page of the listing has
    four pager links and the two sample entries that are kept, every other
    page has the stale entry first *)
Definition olxBrowser : OlxSite.Browser :=
  {| OlxSite.newPage := fun _ => Ok tt;
     OlxSite.goto := fun _ => Scraper.gotoStatus 200;
     OlxSite.content := fun url =>
       if JSString.eqb url Sample.listing
       then Ok {| Olx.pagerLinks := 4; Olx.offersTable := [Sample.ad1; Sample.ad2] |}
       else Ok {| Olx.pagerLinks := 4; Olx.offersTable := [Sample.ad3; Sample.ad4] |};
     OlxSite.close := fun _ => Ok tt |}.
(** the cell [_debugInfo.url] as a first call finds it, and as a call leaves
    it that went on to the second page *)
Definition freshState : OlxSite.State :=
  {| OlxSite.reads := 0; OlxSite.debugUrl := Sample.listing |}.
Definition page2Url : jstring := Spec.pageUrlOf Sample.listing 2.
Definition usedState : OlxSite.State :=
  {| OlxSite.reads := 0; OlxSite.debugUrl := page2Url |}.

Definition targetClosed : JSError := Error (js "Protocol error: Target closed.").
(** the same browser when every page answers with status 200 but only the
    content of the first page of the listing can be read *)
Definition olxBrowserFirstOnly : OlxSite.Browser :=
  {| OlxSite.newPage := fun _ => Ok tt;
     OlxSite.goto := fun _ => Scraper.gotoStatus 200;
     OlxSite.content := fun url =>
       if JSString.eqb url Sample.listing then OlxSite.content olxBrowser url
       else Throw targetClosed;
     OlxSite.close := fun _ => Ok tt |}.
(** a browser whose first page has the stale entry first *)
Definition olxBrowserStale : OlxSite.Browser :=
  {| OlxSite.newPage := fun _ => Ok tt;
     OlxSite.goto := fun _ => Scraper.gotoStatus 200;
     OlxSite.content := fun _ =>
       Ok {| Olx.pagerLinks := 4; Olx.offersTable := [Sample.ad3; Sample.ad4] |};
     OlxSite.close := fun _ => Ok tt |}.

(** an entry whose date text is missing *)
Definition adNoDate : Olx.AdElement := Sample.ad "" "/a5".

End Sample2.

(* ================================================================== *)
(** * Part V.  Properties *)
(* ================================================================== *)

(** ** The staleness window *)

(** C8.  For every timestamp, flag and clock reading, the staleness test is
    true exactly when [now - (24 h + 30 s)] is later than
    [timestamp - (flag ? 0 : 24 h)]; with the flag set, a timestamp 24 h 31 s
    old is stale and one 24 h 29 s old is not.  It is the test
    [parseOlxPageAds] makes: an entry whose date text is read as a timestamp
    ends the page, with nothing kept, exactly under that inequality. *)
Theorem isStale_window :
  (forall now timestamp sameDayToken,
      Olx.isStale now (Some timestamp) sameDayToken = true <->
      timestamp - (if sameDayToken then 0 else Spec.hours 24)
      < now - (Spec.hours 24 + Spec.seconds 30))
  /\ (forall now,
         Olx.isStale now (Some (now - Spec.hours 24 - Spec.seconds 31)) true = true
         /\ Olx.isStale now (Some (now - Spec.hours 24 - Spec.seconds 29)) true = false)
  /\ (forall env debugUrl k ad timestamp k1,
         Olx.parseOlxAdTime (Olx.clockText ad) env k
         = (Ok (Olx.IsDate (Some timestamp)), k1) ->
         let now := Olx.clock env k1 in
         let sameDayToken := Olx.testTodayOrYesterday (Olx.clockText ad) in
         fst (Olx.parseOlxPageAds debugUrl [ad] env k) = Ok ([], true)
         <-> timestamp - (if sameDayToken then 0 else Spec.hours 24)
             < now - (Spec.hours 24 + Spec.seconds 30)).
Proof.
  assert (W : forall now timestamp sameDayToken,
             Olx.isStale now (Some timestamp) sameDayToken = true <->
             timestamp - (if sameDayToken then 0 else Spec.hours 24)
             < now - (Spec.hours 24 + Spec.seconds 30)).
  { intros now ts flag. unfold Olx.isStale, Olx.DAY_MS, Spec.hours, Spec.seconds.
    rewrite Z.gtb_ltb, Z.ltb_lt. destruct flag; lia. }
  split; [exact W|]. split.
  - intros now. unfold Olx.isStale, Olx.DAY_MS, Spec.hours, Spec.seconds.
    rewrite !Z.gtb_ltb. split.
    + apply Z.ltb_lt. lia.
    + apply Z.ltb_ge. lia.
  - intros env debugUrl k ad ts k1 Hparse now flag.
    rewrite <- W. unfold Olx.parseOlxPageAds.
    cbn [Olx.parseOlxPageAds_loop]. unfold Olx.bind at 1. rewrite Hparse.
    unfold Olx.bind at 1. unfold Olx.Date_now at 1.
    fold now. fold flag.
    destruct (Olx.isStale now (Some ts) flag).
    + split; reflexivity.
    + split; discriminate.
Qed.

(** "8 sty", read on 2024-01-10 at 10:30, ends the page *)
Lemma isStale_window_witness :
  fst (Olx.parseOlxPageAds Sample.listing [Sample.ad3]
         (Sample.at_ Sample.t_2024_01_10_1030) 0%nat)
  = Ok ([], true).
Proof.
  destruct isStale_window as (_ & _ & Hpage).
  apply (Hpage (Sample.at_ Sample.t_2024_01_10_1030) Sample.listing 0%nat
           Sample.ad3 1704668400000 1%nat).
  - reflexivity.
  - vm_compute. reflexivity.
Defined.

(** ** Pagination *)

Section PaginationFacts.
Variable base : jstring.

Lemma pagesLoop_seq : forall fuel i n acc,
    (n - i <= fuel)%nat ->
    Olx.pagesLoop base fuel i n acc = acc ++ map (Spec.pageUrlOf base) (seq i (n - i)).
Proof.
  induction fuel as [|fuel IH]; intros i n acc Hfuel; simpl.
  - replace (n - i)%nat with 0%nat by lia. simpl. now rewrite app_nil_r.
  - destruct (Nat.ltb_spec i n) as [Hlt|Hge].
    + rewrite IH by lia.
      replace (n - i)%nat with (S (n - S i)) by lia.
      simpl. rewrite <- app_assoc. reflexivity.
    + replace (n - i)%nat with 0%nat by lia. simpl. now rewrite app_nil_r.
Qed.

End PaginationFacts.

(** C5.  When the selector counts [n] pager links on the first page,
    [getOlxUrlsToNextPages] returns the base URL with [&page=i] appended for
    [i = 2 .. n-1], in increasing order: [n - 2] URLs, that is one fewer than
    the [n - 1] links left after the first is skipped, and none when
    [n <= 2].  The result is a function of the base URL and the count
    alone. *)
Theorem getOlxUrlsToNextPages_indices : forall base page,
    let n := Olx.pagerLinks page in
    Olx.getOlxUrlsToNextPages base page
    = map (fun i => base ++ js "&page=" ++ ofNat i) (seq 2 (n - 2))
    /\ length (Olx.getOlxUrlsToNextPages base page) = ((n - 1) - 1)%nat
    /\ (Olx.getOlxUrlsToNextPages base page = [] <-> (n <= 2)%nat).
Proof.
  intros base page n.
  assert (E : Olx.getOlxUrlsToNextPages base page
              = map (Spec.pageUrlOf base) (seq 2 (n - 2))).
  { unfold Olx.getOlxUrlsToNextPages. fold n.
    rewrite pagesLoop_seq by lia. reflexivity. }
  split; [exact E|]. split.
  - rewrite E, length_map, length_seq. lia.
  - rewrite E. split.
    + intros H. apply (f_equal (@length _)) in H.
      rewrite length_map, length_seq in H. simpl in H. lia.
    + intros H. replace (n - 2)%nat with 0%nat by lia. reflexivity.
Qed.

(** ** The calendar *)

Ltac divlia := Z.to_euclidean_division_equations; lia.

Lemma DayFromYear_succ y : DayFromYear (y + 1) = DayFromYear y + DaysInYear y.
Proof.
  unfold DayFromYear, DaysInYear, isLeap.
  destruct (Z.eqb_spec (y mod 4) 0); destruct (Z.eqb_spec (y mod 100) 0);
    destruct (Z.eqb_spec (y mod 400) 0); cbn [andb orb negb]; divlia.
Qed.

(** [YearFromDay] finds the year a day number falls in *)
Lemma YearFromDay_correct y off :
  0 <= off < DaysInYear y -> YearFromDay (DayFromYear y + off) = y.
Proof.
  intros H. unfold YearFromDay.
  set (d := DayFromYear y + off).
  set (e := 1970 + 400 * d / 146097).
  assert (He : y - 1 <= e <= y + 1).
  { subst e d. unfold DayFromYear, DaysInYear in *. destruct (isLeap y); divlia. }
  pose proof (DayFromYear_succ y) as Hy.
  pose proof (DayFromYear_succ (y + 1)) as Hy1.
  pose proof (DayFromYear_succ (y - 1)) as Hy0.
  replace (y - 1 + 1) with y in * by lia.
  assert (Hpos : forall z, 0 < DaysInYear z)
    by (intros z; unfold DaysInYear; destruct (isLeap z); lia).
  pose proof (Hpos (y - 1)). pose proof (Hpos (y + 1)).
  assert (e = y - 1 \/ e = y \/ e = y + 1) as [-> | [-> | ->]] by lia.
  - replace (y - 1 + 1) with y by lia.
    destruct (Z.leb_spec (DayFromYear y) d); [lia | subst d; lia].
  - destruct (Z.leb_spec (DayFromYear (y + 1)) d); [subst d; lia|].
    destruct (Z.leb_spec (DayFromYear y) d); [lia | subst d; lia].
  - destruct (Z.leb_spec (DayFromYear (y + 1 + 1)) d); [subst d; lia|].
    destruct (Z.leb_spec (DayFromYear (y + 1)) d); [subst d; lia | lia].
Qed.

Ltac months m :=
  assert (m = 0 \/ m = 1 \/ m = 2 \/ m = 3 \/ m = 4 \/ m = 5 \/ m = 6
          \/ m = 7 \/ m = 8 \/ m = 9 \/ m = 10 \/ m = 11) by lia.

Ltac split_ltb :=
  repeat match goal with
         | |- context [?a <? ?b] => destruct (Z.ltb_spec a b); try lia
         end.

(** the midnight that starts day [d] of month [m] of year [y] reads back as
    that year, month and day *)
Lemma civil_fields y m d :
  0 <= m <= 11 -> 1 <= d <= Spec.daysInMonth y m ->
  let t := MakeDate (MakeDay y m d) 0 in
  YearFromTime t = y /\ MonthFromTime t = m /\ DateFromTime t = d
  /\ TimeWithinDay t = 0.
Proof.
  intros Hm Hd t. unfold Spec.daysInMonth in Hd. cbv zeta in Hd.
  assert (Hday : Day t = MakeDay y m d).
  { subst t. unfold Day, MakeDate, msPerDay. rewrite Z.add_0_r.
    apply Z.div_mul. lia. }
  assert (Hmk : MakeDay y m d
                = DayFromYear y + (monthStart (if isLeap y then 1 else 0) m + d - 1)).
  { unfold MakeDay. replace (m / 12) with 0 by divlia.
    replace (m mod 12) with m by divlia. rewrite Z.add_0_r. lia. }
  set (l := if isLeap y then 1 else 0) in *.
  assert (Hl : l = 0 \/ l = 1) by (subst l; destruct (isLeap y); lia).
  assert (Hdiy : DaysInYear y = 365 + l)
    by (unfold DaysInYear; subst l; destruct (isLeap y); lia).
  months m.
  assert (Hoff : 0 <= monthStart l m + d - 1 < DaysInYear y).
  { rewrite Hdiy. clearbody l. clear - Hd Hl H.
    destruct Hl as [-> | ->];
      repeat (destruct H as [-> | H]; [simpl (monthStart _ _) in *; lia|]);
      subst; simpl (monthStart _ _) in *; lia. }
  assert (Hyear : YearFromTime t = y).
  { unfold YearFromTime. rewrite Hday, Hmk. apply YearFromDay_correct. exact Hoff. }
  assert (Hdw : DayWithinYear t = monthStart l m + d - 1).
  { unfold DayWithinYear. rewrite Hyear, Hday, Hmk. lia. }
  assert (Hleap : InLeapYear t = l).
  { unfold InLeapYear. rewrite Hyear. reflexivity. }
  assert (Hmonth : MonthFromTime t = m).
  { unfold MonthFromTime. rewrite Hdw, Hleap.
    clearbody l. clear - Hd Hl H.
    destruct Hl as [-> | ->];
      repeat (destruct H as [-> | H];
              [simpl (monthStart _ _) in *; split_ltb|]);
      subst; simpl (monthStart _ _) in *; split_ltb. }
  split; [exact Hyear|]. split; [exact Hmonth|]. split.
  - unfold DateFromTime. rewrite Hdw, Hleap, Hmonth. lia.
  - subst t. unfold TimeWithinDay, MakeDate. rewrite Z.add_0_r.
    apply Z.mod_mul. unfold msPerDay; lia.
Qed.

(** ** The date normaliser *)

Lemma lt_ofZ a b : lt (ofZ a) (ofZ b) = (a <? b).
Proof.
  unfold lt, ofZ, Qltb, Qle_bool, inject_Z. simpl.
  rewrite !Z.mul_1_r. rewrite Z.ltb_antisym. reflexivity.
Qed.

Lemma toInteger_ofZ z : toInteger (ofZ z) = Some z.
Proof.
  unfold toInteger, ofZ, Qle_bool, inject_Z, Qceiling, Qfloor. simpl.
  rewrite !Z.mul_1_r, !Z.div_1_r. destruct (0 <=? z); f_equal; lia.
Qed.

(** what the conversions make of the decimal print of a day of the month *)
Lemma dayToken_facts : forall token d, Spec.isDayOfMonth token d ->
    parseInt (Some token) = ofZ (Z.of_nat d)
    /\ ToNumber (Some token) = ofZ (Z.of_nat d)
    /\ JSString.eqb token Olx.dzisiaj = false
    /\ JSString.eqb token Olx.wczoraj = false.
Proof.
  intros token d [Hd [-> | [Hlt ->]]].
  - do 32 (destruct d as [|d]; [try lia; vm_compute; repeat split|]).
    lia.
  - do 10 (destruct d as [|d]; [try lia; vm_compute; repeat split|]).
    lia.
Qed.

Lemma strictEq_ofZ z : strictEq (ofZ z) (ofZ z) = true.
Proof.
  unfold strictEq, ofZ. apply Qeq_bool_iff. reflexivity.
Qed.

(** a date built from a year, a month and a day of that month reads back
    as midnight of that day, local time *)
Lemma newDate_fields tz y m d :
  100 <= y <= 200000 -> - msPerDay <= tz <= msPerDay ->
  0 <= m <= 11 -> 1 <= d <= Spec.daysInMonth y m ->
  exists t,
    newDate tz y m (ofZ d) (ofZ 0) (ofZ 0) = Some t
    /\ getFullYear tz t = y /\ getMonth tz t = m /\ getDate tz t = d
    /\ getHours tz t = 0 /\ getMinutes tz t = 0.
Proof.
  intros Hy Htz Hm Hd.
  destruct (civil_fields y m d Hm Hd) as (Fy & Fm & Fd & Ft).
  set (x := MakeDate (MakeDay y m d) 0) in *.
  exists (x - tz).
  assert (Hloc : LocalTime tz (x - tz) = x) by (unfold LocalTime; lia).
  unfold getFullYear, getMonth, getDate, getHours, getMinutes.
  rewrite Hloc, Fy, Fm, Fd, Ft. repeat split; try reflexivity.
  unfold newDate. rewrite !toInteger_ofZ.
  replace ((0 <=? y) && (y <=? 99)) with false
    by (symmetry; apply andb_false_iff; right; apply Z.leb_gt; lia).
  change (MakeTime 0 0 0 0) with 0. fold x. unfold UTC, TimeClip.
  assert (Hx : 0 <= x + 100000000000000 /\ x <= 8000000000000000).
  { subst x. unfold MakeDate, MakeDay, msPerDay.
    replace (m / 12) with 0 by divlia. replace (m mod 12) with m by divlia.
    rewrite !Z.add_0_r.
    unfold Spec.daysInMonth in Hd. cbv zeta in Hd.
    set (l := if isLeap y then 1 else 0) in *.
    assert (Hl : l = 0 \/ l = 1) by (subst l; destruct (isLeap y); lia).
    assert (Hs : 0 <= monthStart l m + d - 1 <= 366).
    { months m. clearbody l. clear - Hd Hl H.
      destruct Hl as [-> | ->];
        repeat (destruct H as [-> | H]; [simpl (monthStart _ _) in *; lia|]);
        subst; simpl (monthStart _ _) in *; lia. }
    unfold DayFromYear. divlia. }
  unfold msPerDay in Htz.
  replace (Z.abs (x - tz) <=? 8640000000000000) with true
    by (symmetry; apply Z.leb_le; lia).
  reflexivity.
Qed.

Lemma month_in_range : forall p m name,
    Olx.switch Olx.monthTable p = Some (m, name) -> 0 <= m <= 11.
Proof.
  intros p m name. unfold Olx.monthTable. cbn [Olx.switch].
  repeat (destruct (JSString.eqb p _);
          [intros H; injection H as <- _; lia|]).
  discriminate.
Qed.

(** C6, as the code has it.  For every input whose tokens, separated by
    spaces (U+0020), are exactly a day of the month and a token with a
    recognised month prefix, [parseOlxAdTime] returns the date
    [new Date(year, month, day)] for the current year, the year taken one
    back when the month is December and the day is greater than today's day
    of the month.  For a day that the month has, in a year after 100, that
    date is midnight of that day of that month and year, local time. *)
Theorem parseOlxAdTime_day_month : forall env k olxTime dayTok monthTok d m,
    Spec.spaceTokens olxTime = [dayTok; monthTok] ->
    Spec.isDayOfMonth dayTok d ->
    Spec.hasMonthPrefix monthTok m ->
    let now := Olx.clock env k in
    let tz := Olx.LocalTZA env in
    let year := if (m =? 11) && (getDate tz now <? Z.of_nat d)
                then getFullYear tz now - 1 else getFullYear tz now in
    let adDate := newDate tz year m (ofZ (Z.of_nat d)) (ofZ 0) (ofZ 0) in
    Olx.parseOlxAdTime olxTime env k = (Ok (Olx.IsDate adDate), S k)
    /\ (100 < getFullYear tz now <= 200000 ->
        - msPerDay <= tz <= msPerDay ->
        Z.of_nat d <= Spec.daysInMonth year m ->
        exists t,
          adDate = Some t
          /\ getFullYear tz t = year /\ getMonth tz t = m
          /\ getDate tz t = Z.of_nat d
          /\ getHours tz t = 0 /\ getMinutes tz t = 0).
Proof.
  intros env k olxTime dayTok monthTok d m Htok Hd [name Hm] now tz year adDate.
  split.
  - destruct (dayToken_facts dayTok d Hd) as (Hp & Hn & Hdz & Hwc).
    unfold Olx.parseOlxAdTime. fold (Spec.spaceTokens olxTime). rewrite Htok.
    cbn [length Nat.ltb Nat.leb nth_error]. rewrite Hdz, Hwc.
    cbn [orb].
    unfold Olx.parseOlxAdDateWithMontPrefix, Olx.bind, Olx.Date_now, Olx.tz,
      Olx.lift, Olx.ret.
    rewrite Hp, Hn, strictEq_ofZ. cbn [isNaN ofZ orb negb].
    unfold Olx.mapMonthPrefixToMonth. rewrite Hm.
    fold (ofZ (Z.of_nat d)).
    fold (ofZ (getDate (Olx.LocalTZA env) (Olx.clock env k))).
    rewrite lt_ofZ. subst adDate year now tz.
    destruct (m =? 11); cbn [andb]; [|reflexivity].
    destruct (getDate (Olx.LocalTZA env) (Olx.clock env k) <? Z.of_nat d);
      reflexivity.
  - intros Hyear Htz Hday. subst adDate.
    apply newDate_fields.
    + subst year. destruct ((m =? 11) && (getDate tz now <? Z.of_nat d)); lia.
    + exact Htz.
    + exact (month_in_range _ _ _ Hm).
    + destruct Hd as [Hd _]. lia.
Qed.

(** "29 gru" read on 2024-01-05 is 2023-12-29 *)
Lemma parseOlxAdTime_day_month_witness :
  Olx.parseOlxAdTime Sample.s_29_gru (Sample.at_ Sample.t_2024_01_05) 0%nat
  = (Ok (Olx.IsDate (Some (1703808000000 - Sample.CET))), 1%nat).
Proof.
  assert (Hd : Spec.isDayOfMonth (js "29") 29)
    by (split; [lia | left; reflexivity]).
  assert (Hm : Spec.hasMonthPrefix (js "gru") 11)
    by (exists Olx.name_grudzien; reflexivity).
  exact (proj1 (parseOlxAdTime_day_month (Sample.at_ Sample.t_2024_01_05) 0%nat
                  Sample.s_29_gru (js "29") (js "gru") 29%nat 11 eq_refl Hd Hm)).
Defined.

(** "29 gru" read on 2024-12-30 is 2024-12-29: no roll-back *)
Example parseOlxAdTime_no_rollback :
  Olx.parseOlxAdTime Sample.s_29_gru (Sample.at_ Sample.t_2024_12_30) 0%nat
  = (Ok (Olx.IsDate (Some (1735430400000 - Sample.CET))), 1%nat)
  /\ getFullYear Sample.CET (1735430400000 - Sample.CET) = 2024
  /\ getMonth Sample.CET (1735430400000 - Sample.CET) = 11
  /\ getDate Sample.CET (1735430400000 - Sample.CET) = 29
  /\ getFullYear Sample.CET (1703808000000 - Sample.CET) = 2023
  /\ getMonth Sample.CET (1703808000000 - Sample.CET) = 11
  /\ getDate Sample.CET (1703808000000 - Sample.CET) = 29.
Proof. vm_compute. repeat split. Qed.

(** C6 as stated fails: "29<TAB>gru" is two white-space-separated tokens, a
    day of the month and a recognised month prefix, but the code splits on
    the space only, sees one token and throws a TypeError. *)
Lemma parseOlxAdTime_tab_separated :
  Spec.tokens Sample.s_29_tab_gru = [js "29"; js "gru"]
  /\ Spec.isDayOfMonth (js "29") 29
  /\ Spec.hasMonthPrefix (js "gru") 11
  /\ forall env k,
      Olx.parseOlxAdTime Sample.s_29_tab_gru env k
      = (Throw (TypeError "Cannot read properties of undefined (reading 'substr')"), k).
Proof.
  split; [reflexivity|]. split; [split; [lia|left; reflexivity]|].
  split; [exists Olx.name_grudzien; reflexivity|].
  intros env k. reflexivity.
Qed.

(** C7, as the code has it.  An input of more than two space-separated
    tokens comes back unchanged.  A two-token input that fails the numeric
    checks comes back as the text rebuilt from its tokens: the first token, a
    space and the second token, the second cut to three code units in the
    month branch.  A two-token input whose day passes the check and whose
    month prefix is not recognised throws [Error('Unrecognized month
    prefix')]. *)
Theorem parseOlxAdTime_unparsed :
  (forall env k olxTime,
      (2 < length (Spec.spaceTokens olxTime))%nat ->
      Olx.parseOlxAdTime olxTime env k = (Ok (Olx.IsString olxTime), k))
  /\ (forall env k olxTime t0 t1,
         Spec.spaceTokens olxTime = [t0; t1] ->
         t0 = Olx.dzisiaj \/ t0 = Olx.wczoraj ->
         Spec.timeCheckFails t1 = true ->
         Olx.parseOlxAdTime olxTime env k
         = (Ok (Olx.IsString (t0 ++ [space] ++ t1)), k))
  /\ (forall env k olxTime t0 t1,
         Spec.spaceTokens olxTime = [t0; t1] ->
         t0 <> Olx.dzisiaj -> t0 <> Olx.wczoraj ->
         Spec.dayCheckFails t0 = true ->
         Olx.parseOlxAdTime olxTime env k
         = (Ok (Olx.IsString (t0 ++ [space] ++ substr0 3 t1)), S k))
  /\ (forall env k olxTime t0 t1,
         Spec.spaceTokens olxTime = [t0; t1] ->
         t0 <> Olx.dzisiaj -> t0 <> Olx.wczoraj ->
         Spec.dayCheckFails t0 = false ->
         Olx.switch Olx.monthTable (substr0 3 t1) = None ->
         Olx.parseOlxAdTime olxTime env k
         = (Throw (Error (js "Unrecognized month prefix")), S k))
  /\ (forall env k olxTime,
         (2 <= length (Spec.spaceTokens olxTime))%nat ->
         (exists e, fst (Olx.parseOlxAdTime olxTime env k) = Throw e)
         <-> (exists t0 t1,
                 Spec.spaceTokens olxTime = [t0; t1]
                 /\ t0 <> Olx.dzisiaj /\ t0 <> Olx.wczoraj
                 /\ Spec.dayCheckFails t0 = false
                 /\ Olx.switch Olx.monthTable (substr0 3 t1) = None)).
Proof.
  assert (Hne : forall a b, a <> b -> JSString.eqb a b = false).
  { intros a b H. unfold JSString.eqb.
    destruct (list_eq_dec N.eq_dec a b); congruence. }
  split; [|split; [|split; [|split]]].
  - intros env k olxTime H. unfold Olx.parseOlxAdTime.
    fold (Spec.spaceTokens olxTime).
    apply Nat.ltb_lt in H. rewrite H. reflexivity.
  - intros env k olxTime t0 t1 Htok Ht0 Hfail. unfold Olx.parseOlxAdTime.
    fold (Spec.spaceTokens olxTime). rewrite Htok.
    cbn [length Nat.ltb Nat.leb nth_error].
    assert (E : JSString.eqb t0 Olx.dzisiaj || JSString.eqb t0 Olx.wczoraj = true).
    { destruct Ht0 as [-> | ->]; reflexivity. }
    rewrite E. unfold Olx.parseOlxAdTimeWithTodayYesterday.
    unfold Spec.timeCheckFails in Hfail. cbv zeta in Hfail. rewrite Hfail.
    reflexivity.
  - intros env k olxTime t0 t1 Htok Hdz Hwc Hfail. unfold Olx.parseOlxAdTime.
    fold (Spec.spaceTokens olxTime). rewrite Htok.
    cbn [length Nat.ltb Nat.leb nth_error].
    rewrite (Hne _ _ Hdz), (Hne _ _ Hwc). cbn [orb].
    unfold Olx.parseOlxAdDateWithMontPrefix, Olx.bind, Olx.Date_now.
    unfold Spec.dayCheckFails in Hfail. rewrite Hfail. reflexivity.
  - intros env k olxTime t0 t1 Htok Hdz Hwc Hpass Hm. unfold Olx.parseOlxAdTime.
    fold (Spec.spaceTokens olxTime). rewrite Htok.
    cbn [length Nat.ltb Nat.leb nth_error].
    rewrite (Hne _ _ Hdz), (Hne _ _ Hwc). cbn [orb].
    unfold Olx.parseOlxAdDateWithMontPrefix, Olx.bind, Olx.Date_now, Olx.tz,
      Olx.lift.
    unfold Spec.dayCheckFails in Hpass. rewrite Hpass.
    unfold Olx.mapMonthPrefixToMonth. rewrite Hm. reflexivity.
  - intros env k olxTime Hlen. unfold Olx.parseOlxAdTime.
    fold (Spec.spaceTokens olxTime).
    destruct (Spec.spaceTokens olxTime) as [|t0 [|t1 [|t2 rest]]];
      [cbn in Hlen; lia | cbn in Hlen; lia | |].
    + cbn [length Nat.ltb Nat.leb nth_error].
      unfold JSString.eqb at 1 2.
      destruct (list_eq_dec N.eq_dec t0 Olx.dzisiaj) as [Edz|Ndz];
        [|destruct (list_eq_dec N.eq_dec t0 Olx.wczoraj) as [Ewc|Nwc]];
        cbn [orb].
      * unfold Olx.parseOlxAdTimeWithTodayYesterday.
        split.
        -- intros [e He]. exfalso. revert He.
           destruct (isNaN _ || isNaN _ || _ || _); cbn; discriminate.
        -- intros (a & b & Hab & Ha & _). congruence.
      * unfold Olx.parseOlxAdTimeWithTodayYesterday.
        split.
        -- intros [e He]. exfalso. revert He.
           destruct (isNaN _ || isNaN _ || _ || _); cbn; discriminate.
        -- intros (a & b & Hab & _ & Hb & _). congruence.
      * unfold Olx.parseOlxAdDateWithMontPrefix, Olx.bind, Olx.Date_now,
          Olx.tz, Olx.lift, Olx.mapMonthPrefixToMonth.
        fold (Spec.dayCheckFails t0).
        destruct (Spec.dayCheckFails t0) eqn:Hd.
        -- split.
           ++ intros [e He]. discriminate.
           ++ intros (a & b & Hab & _ & _ & Hf & _).
              injection Hab as <- <-. congruence.
        -- destruct (Olx.switch Olx.monthTable (substr0 3 t1))
             as [[n name]|] eqn:Hm.
           ++ split.
              ** intros [e He]. discriminate.
              ** intros (a & b & Hab & _ & _ & _ & Hn).
                 injection Hab as <- <-. congruence.
           ++ split.
              ** intros _. exists t0, t1. repeat split; assumption.
              ** intros _. eexists. reflexivity.
    + cbn [length Nat.ltb Nat.leb]. split.
      * intros [e He]. discriminate.
      * intros (a & b & Hab & _). discriminate.
Qed.

Lemma parseOlxAdTime_unparsed_witness :
  let env := Sample.at_ Sample.t_2024_01_05 in
  Olx.parseOlxAdTime Sample.s_three env 0%nat = (Ok (Olx.IsString Sample.s_three), 0%nat)
  /\ Olx.parseOlxAdTime Sample.s_dzisiaj_bad env 0%nat
     = (Ok (Olx.IsString Sample.s_dzisiaj_bad), 0%nat)
  /\ Olx.parseOlxAdTime Sample.s_xx_grudnia env 0%nat
     = (Ok (Olx.IsString (js "xx gru")), 1%nat)
  /\ Olx.parseOlxAdTime Sample.s_29_xyz env 0%nat
     = (Throw (Error (js "Unrecognized month prefix")), 1%nat)
  /\ ~ (exists e, fst (Olx.parseOlxAdTime Sample.s_xx_grudnia env 0%nat) = Throw e).
Proof.
  intros env.
  destruct parseOlxAdTime_unparsed as (Hmany & Htime & Hday & Hmonth & Honly).
  split; [|split; [|split; [|split]]].
  - apply (Hmany env 0%nat Sample.s_three). vm_compute. lia.
  - apply (Htime env 0%nat Sample.s_dzisiaj_bad Olx.dzisiaj (js "1x:05")).
    + reflexivity.
    + left; reflexivity.
    + reflexivity.
  - apply (Hday env 0%nat Sample.s_xx_grudnia (js "xx") (js "grudnia")).
    + reflexivity.
    + discriminate.
    + discriminate.
    + reflexivity.
  - apply (Hmonth env 0%nat Sample.s_29_xyz (js "29") (js "xyz")).
    + reflexivity.
    + discriminate.
    + discriminate.
    + reflexivity.
    + reflexivity.
  - intros Hthrows.
    assert (Hlen : (2 <= length (Spec.spaceTokens Sample.s_xx_grudnia))%nat)
      by (vm_compute; lia).
    destruct (proj1 (Honly env 0%nat Sample.s_xx_grudnia Hlen) Hthrows)
      as (t0 & t1 & Htok & _ & _ & Hpass & _).
    injection Htok as <- <-. discriminate.
Defined.

(** C7 as stated fails twice over.  "xx grudnia" has neither shape and comes
    back as "xx gru", not as itself; and the empty input, which is no
    two-token input, throws a TypeError. *)
Lemma parseOlxAdTime_not_unchanged :
  (forall env k,
      Olx.parseOlxAdTime Sample.s_xx_grudnia env k
      = (Ok (Olx.IsString (js "xx gru")), S k))
  /\ js "xx gru" <> Sample.s_xx_grudnia
  /\ Spec.tokens Sample.s_empty = []
  /\ forall env k,
      Olx.parseOlxAdTime Sample.s_empty env k
      = (Throw (TypeError "Cannot read properties of undefined (reading 'substr')"), k).
Proof.
  split; [intros; reflexivity|]. split; [discriminate|].
  split; [reflexivity|]. intros; reflexivity.
Qed.

(** ** The page extractor *)

Section ExtractorFacts.
Variable env : Olx.Env.
Variable debugUrl : jstring.

Lemma Kept_loop : forall i k pre recs k1,
    Spec.Kept env debugUrl i k pre recs k1 ->
    forall acc rest,
      Olx.parseOlxPageAds_loop debugUrl i acc (pre ++ rest) env k
      = Olx.parseOlxPageAds_loop debugUrl (i + length pre) (acc ++ recs) rest env k1.
Proof.
  induction 1 as [i k | i k ad rest' s k1 recs k2 Hparse _ IH
                  | i k ad rest' d k1 recs k2 Hparse Hfresh _ IH];
    intros acc rest.
  - rewrite Nat.add_0_r, app_nil_r. reflexivity.
  - cbn [app Olx.parseOlxPageAds_loop]. unfold Olx.bind at 1. rewrite Hparse.
    rewrite IH. cbn [length]. rewrite <- app_assoc. cbn [app].
    f_equal. lia.
  - cbn [app Olx.parseOlxPageAds_loop]. unfold Olx.bind at 1. rewrite Hparse.
    unfold Olx.bind at 1. unfold Olx.Date_now at 1. rewrite Hfresh.
    rewrite IH. cbn [length]. rewrite <- app_assoc. cbn [app].
    f_equal. lia.
Qed.

Lemma Kept_records : forall i k pre recs k1,
    Spec.Kept env debugUrl i k pre recs k1 ->
    map Olx.url recs = map Olx.titleLinkHref pre
    /\ map (fun a => Olx.idx (Olx._debugInfo a)) recs = seq i (length pre).
Proof.
  induction 1 as [i k | i k ad rest' s k1 recs k2 _ _ [IH1 IH2]
                  | i k ad rest' d k1 recs k2 _ _ _ [IH1 IH2]];
    cbn [map length seq]; [split; reflexivity | |];
    rewrite IH1, IH2; split; reflexivity.
Qed.

End ExtractorFacts.

(** C9, as the code has it.  When the entries before some entry are all
    kept, so that the reading of none of their date texts throws, and that
    entry's date text is read as a date that the staleness test rejects,
    [parseOlxPageAds] returns [done = true] with exactly the records of the
    earlier entries, one per entry in document order, whatever follows on
    the page; when every entry is kept it returns them all with
    [done = false].  An entry whose date text comes back as text is always
    kept: no staleness test is made for it. *)
Theorem parseOlxPageAds_cutoff :
  (forall env debugUrl k pre ad post recs k1 d k2,
      Spec.Kept env debugUrl 0 k pre recs k1 ->
      Olx.parseOlxAdTime (Olx.clockText ad) env k1 = (Ok (Olx.IsDate d), k2) ->
      Olx.isStale (Olx.clock env k2) d
        (Olx.testTodayOrYesterday (Olx.clockText ad)) = true ->
      Olx.parseOlxPageAds debugUrl (pre ++ ad :: post) env k
      = (Ok (recs, true), S k2)
      /\ map Olx.url recs = map Olx.titleLinkHref pre
      /\ map (fun a => Olx.idx (Olx._debugInfo a)) recs = seq 0 (length pre))
  /\ (forall env debugUrl k ads recs k1,
         Spec.Kept env debugUrl 0 k ads recs k1 ->
         Olx.parseOlxPageAds debugUrl ads env k = (Ok (recs, false), k1))
  /\ (forall env debugUrl i k ad rest s k1 recs k2,
         Olx.parseOlxAdTime (Olx.clockText ad) env k = (Ok (Olx.IsString s), k1) ->
         Spec.Kept env debugUrl (S i) k1 rest recs k2 ->
         Spec.Kept env debugUrl i k (ad :: rest)
           (Olx.makeAnnouncement debugUrl i ad (Olx.rawText s) :: recs) k2).
Proof.
  split; [|split].
  - intros env debugUrl k pre ad post recs k1 d k2 HK Hparse Hstale.
    split; [|exact (Kept_records env debugUrl 0 k pre recs k1 HK)].
    unfold Olx.parseOlxPageAds.
    rewrite (Kept_loop env debugUrl 0 k pre recs k1 HK [] (ad :: post)).
    cbn [app Olx.parseOlxPageAds_loop]. unfold Olx.bind at 1. rewrite Hparse.
    unfold Olx.bind at 1. unfold Olx.Date_now at 1. rewrite Hstale.
    reflexivity.
  - intros env debugUrl k ads recs k1 HK.
    unfold Olx.parseOlxPageAds.
    rewrite <- (app_nil_r ads).
    rewrite (Kept_loop env debugUrl 0 k ads recs k1 HK [] []).
    reflexivity.
  - intros. eapply Spec.kept_raw; eassumption.
Qed.

(** on the sample page the third entry is stale: two records, [done] *)
Lemma parseOlxPageAds_cutoff_witness :
  let env := Sample.at_ Sample.t_2024_01_10_1030 in
  Olx.parseOlxPageAds Sample.listing
    [Sample.ad1; Sample.ad2; Sample.ad3; Sample.ad4] env 0%nat
  = (Ok ([Olx.makeAnnouncement Sample.listing 0 Sample.ad1
            (Olx.toLocaleString (Some 1704877200000) true);
          Olx.makeAnnouncement Sample.listing 1 Sample.ad2
            (Olx.rawText (js "w tym tygodniu"))], true), 4%nat).
Proof.
  intros env.
  destruct parseOlxPageAds_cutoff as (Hcut & _ & _).
  assert (HK : Spec.Kept env Sample.listing 0 0 [Sample.ad1; Sample.ad2]
                 [Olx.makeAnnouncement Sample.listing 0 Sample.ad1
                    (Olx.toLocaleString (Some 1704877200000) true);
                  Olx.makeAnnouncement Sample.listing 1 Sample.ad2
                    (Olx.rawText (js "w tym tygodniu"))] 2).
  { apply (Spec.kept_fresh env Sample.listing 0 0 Sample.ad1 [Sample.ad2]
             (Some 1704877200000) 1); [reflexivity | reflexivity |].
    apply (Spec.kept_raw env Sample.listing 1 2 Sample.ad2 []
             (js "w tym tygodniu") 2); [reflexivity |].
    apply Spec.kept_none. }
  exact (proj1 (Hcut env Sample.listing 0%nat [Sample.ad1; Sample.ad2] Sample.ad3
                  [Sample.ad4] _ 2%nat (Some 1704668400000) 3%nat HK
                  eq_refl eq_refl)).
Defined.

(** C9 as stated fails: the second entry of this page carries a month label
    that is none of the table's, and the third is the first whose date is
    read and found stale.  The extraction throws at the second entry: it
    does not return [done = true] with the records of the earlier entries,
    nor any record at all. *)
Lemma parseOlxPageAds_cutoff_not_every_page :
  let env := Sample.at_ Sample.t_2024_01_10_1030 in
  let page := [Sample.ad1; Sample.adBadMonth; Sample.ad3; Sample.ad4] in
  (exists d k,
      Olx.parseOlxAdTime (Olx.clockText Sample.ad3) env 2%nat = (Ok (Olx.IsDate d), k)
      /\ Olx.isStale (Olx.clock env k) d
           (Olx.testTodayOrYesterday (Olx.clockText Sample.ad3)) = true)
  /\ fst (Olx.parseOlxAdTime (Olx.clockText Sample.adBadMonth) env 2%nat)
     = Throw Sample.unrecognizedMonth
  /\ fst (Olx.parseOlxPageAds Sample.listing page env 0%nat)
     = Throw Sample.unrecognizedMonth
  /\ forall recs k,
      Olx.parseOlxPageAds Sample.listing page env 0%nat <> (Ok (recs, true), k).
Proof.
  intros env page. split; [|split; [|split]].
  - exists (Some 1704668400000), 3%nat. split; reflexivity.
  - reflexivity.
  - reflexivity.
  - intros recs k H.
    assert (E : fst (Olx.parseOlxPageAds Sample.listing page env 0%nat)
                = Throw Sample.unrecognizedMonth) by reflexivity.
    rewrite H in E. discriminate.
Qed.

(** ** The page loader *)

Section PageLoaderFacts.
Variable Page : Type.
Variable newPage : nat -> Page.
Variable goto : nat -> Scraper.GotoResult.
Variable clock : nat -> Z.
Variable scrapeSiteTimeout : Z.
Variable serviceName : Scraper.SiteName.

(** [getPage] has no way to throw: it returns a page or goes on retrying *)
Lemma getPage_loop_never_throws : forall fuel u startTime retries k e,
    snd (Scraper.getPage_loop Page newPage goto clock scrapeSiteTimeout
           serviceName fuel u startTime retries k)
    <> Scraper.Settled (Throw e).
Proof.
  induction fuel as [|fuel IH]; intros u startTime retries k e; [discriminate|].
  cbn [Scraper.getPage_loop].
  destruct (Scraper.loadPage Page newPage goto retries u) as [ev [page|err]];
    [discriminate|].
  specialize (IH u startTime (S retries) (S k) e).
  destruct (Scraper.getPage_loop Page newPage goto clock scrapeSiteTimeout
              serviceName fuel u startTime (S retries) (S k)) as [ev' r].
  exact IH.
Qed.

Hypothesis every_load_fails : forall n, goto n <> Scraper.gotoStatus 200.

Lemma loadPage_fails : forall attempt u,
    exists err, Scraper.loadPage Page newPage goto attempt u
                = ([Scraper.page_close attempt], Throw err).
Proof.
  intros attempt u. unfold Scraper.loadPage.
  destruct (goto attempt) as [err| |status] eqn:E; try (eexists; reflexivity).
  destruct (Z.eqb_spec status 200) as [->|Hne].
  - exfalso. exact (every_load_fails attempt E).
  - eexists; reflexivity.
Qed.

(** no failure, however late, ends the loop *)
Lemma getPage_loop_keeps_retrying : forall fuel u startTime retries k,
    snd (Scraper.getPage_loop Page newPage goto clock scrapeSiteTimeout
           serviceName fuel u startTime retries k)
    = Scraper.StillRetrying.
Proof.
  induction fuel as [|fuel IH]; intros u startTime retries k; [reflexivity|].
  cbn [Scraper.getPage_loop].
  destruct (loadPage_fails retries u) as [err ->].
  specialize (IH u startTime (S retries) (S k)).
  destruct (Scraper.getPage_loop Page newPage goto clock scrapeSiteTimeout
              serviceName fuel u startTime (S retries) (S k)) as [ev' r].
  exact IH.
Qed.

End PageLoaderFacts.

(** two failures, then success: the third attempt returns the page, after
    sleeps of 1 s and 2 s *)
Example getPage_third_attempt :
  Scraper.getPage nat (fun n => n) Sample.thirdTimeLucky Sample.hourly
    Sample.oneMinute Sample.olx 3 Sample.olxStart
  = ([Scraper.page_close 0; Scraper.debug_SettingRetry Sample.olx 1 1000;
      Scraper.sleep 1000;
      Scraper.page_close 1; Scraper.debug_SettingRetry Sample.olx 2 2000;
      Scraper.sleep 2000],
     Scraper.Settled (Ok 2%nat)).
Proof. reflexivity. Qed.

(** C1, evaluated.  With every navigation answered 503, a budget of one
    minute and an hour between clock readings, the budget is exceeded at the
    first failure, and yet after any number of attempts [getPage] is still
    retrying: it has neither returned nor thrown.  The first retries sleep
    1 s, then 2 s. *)
Theorem getPage_never_times_out :
  (Sample.hourly 1 - Sample.hourly 0 >? Sample.oneMinute) = true
  /\ (forall fuel,
         snd (Scraper.getPage nat (fun n => n) Sample.always503 Sample.hourly
                Sample.oneMinute Sample.olx fuel Sample.olxStart)
         = Scraper.StillRetrying)
  /\ fst (Scraper.getPage nat (fun n => n) Sample.always503 Sample.hourly
            Sample.oneMinute Sample.olx 2 Sample.olxStart)
     = [Scraper.page_close 0; Scraper.debug_SettingRetry Sample.olx 1 1000;
        Scraper.sleep 1000;
        Scraper.page_close 1; Scraper.debug_SettingRetry Sample.olx 2 2000;
        Scraper.sleep 2000].
Proof.
  split; [reflexivity|]. split; [|reflexivity].
  intros fuel. unfold Scraper.getPage.
  apply getPage_loop_keeps_retrying. discriminate.
Qed.

(** ** The crawl of one site *)

Section CrawlFacts.
Variable W : Scraper.World.
Variable s : Scraper.SiteScraper W.

Lemma getSiteOffers_loop_S : forall fuel st,
    Scraper.getSiteOffers_loop W (S fuel) s st
    = match Scraper.iteration W s st with
      | Scraper.Return r => Some r
      | Scraper.Again ev st' =>
          option_map (Scraper.prepend ev) (Scraper.getSiteOffers_loop W fuel s st')
      end.
Proof. reflexivity. Qed.

(** more fuel does not change a result *)
Lemma getSiteOffers_loop_more : forall fuel st r,
    Scraper.getSiteOffers_loop W fuel s st = Some r ->
    forall fuel', (fuel <= fuel')%nat ->
                  Scraper.getSiteOffers_loop W fuel' s st = Some r.
Proof.
  induction fuel as [|fuel IH]; intros st r H fuel' Hle; [discriminate|].
  destruct fuel' as [|fuel']; [lia|].
  rewrite getSiteOffers_loop_S in *.
  destruct (Scraper.iteration W s st) as [r0|ev st']; [exact H|].
  destruct (Scraper.getSiteOffers_loop W fuel s st') as [r1|] eqn:E;
    [|discriminate].
  rewrite (IH st' r1 E fuel') by lia. exact H.
Qed.

Lemma getSiteOffers_loop_agree : forall f1 f2 st r1 r2,
    Scraper.getSiteOffers_loop W f1 s st = Some r1 ->
    Scraper.getSiteOffers_loop W f2 s st = Some r2 ->
    r1 = r2.
Proof.
  intros f1 f2 st r1 r2 H1 H2.
  pose proof (getSiteOffers_loop_more f1 st r1 H1 (Nat.max f1 f2) (Nat.le_max_l _ _)) as A.
  pose proof (getSiteOffers_loop_more f2 st r2 H2 (Nat.max f1 f2) (Nat.le_max_r _ _)) as B.
  congruence.
Qed.

(** after the first page the queue only shrinks *)
Lemma iteration_shrinks : forall st ev st',
    (1 <= Scraper.scrapedPagesCount st)%nat ->
    Scraper.iteration W s st = Scraper.Again ev st' ->
    Scraper.pending st = Scraper.pageUrl st' :: Scraper.pending st'
    /\ (1 <= Scraper.scrapedPagesCount st')%nat.
Proof.
  intros st ev st' Hc. unfold Scraper.iteration.
  destruct (Scraper.getPageOutcome W s (Scraper.scrapedPagesCount st)
              (Scraper.pageUrl st)) as [ev0 [page|err|]]; try discriminate.
  destruct (Scraper.getScraperPageAds W s (Scraper.getPageContent W page) page)
    as [[pageOffers isDone]|e|]; try discriminate.
  replace (S (Scraper.scrapedPagesCount st) =? 1)%nat with false
    by (symmetry; apply Nat.eqb_neq; lia).
  rewrite andb_false_r.
  destruct (Scraper.pending st) as [|next rest]; [discriminate|].
  destruct isDone; cbn [negb]; [discriminate|].
  intros H. injection H as _ <-. cbn. split; [reflexivity|lia].
Qed.

Lemma getSiteOffers_loop_ends : forall n st,
    (1 <= Scraper.scrapedPagesCount st)%nat ->
    length (Scraper.pending st) = n ->
    exists r, Scraper.getSiteOffers_loop W (S n) s st = Some r.
Proof.
  induction n as [|n IH]; intros st Hc Hlen; rewrite getSiteOffers_loop_S.
  - destruct (Scraper.iteration W s st) as [r|ev st'] eqn:E; [eauto|].
    destruct (iteration_shrinks st ev st' Hc E) as [Hq _].
    rewrite Hq in Hlen. discriminate.
  - destruct (Scraper.iteration W s st) as [r|ev st'] eqn:E; [eauto|].
    destruct (iteration_shrinks st ev st' Hc E) as [Hq Hc'].
    rewrite Hq in Hlen. injection Hlen as Hlen.
    destruct (IH st' Hc' Hlen) as [r Hr].
    rewrite Hr. eexists; reflexivity.
Qed.

Lemma iteration_counts : forall st ev st',
    Scraper.iteration W s st = Scraper.Again ev st' ->
    Scraper.scrapedPagesCount st' = S (Scraper.scrapedPagesCount st).
Proof.
  intros st ev st'. unfold Scraper.iteration.
  destruct (Scraper.getPageOutcome W s (Scraper.scrapedPagesCount st)
              (Scraper.pageUrl st)) as [ev0 [page|err|]]; try discriminate.
  destruct (Scraper.getScraperPageAds W s (Scraper.getPageContent W page) page)
    as [[pageOffers isDone]|e|]; try discriminate.
  match goal with |- context [match ?q with [] => _ | _ :: _ => _ end] =>
    destruct q as [|next rest] end; [discriminate|].
  destruct isDone; cbn [negb]; [discriminate|].
  intros H. injection H as _ <-. reflexivity.
Qed.

(** the crawl always ends within [crawlFuel] passes *)
Lemma getSiteOffers_total :
  Scraper.getSiteOffers_loop W (Scraper.crawlFuel W s) s (Scraper.initial W s)
  = Some (Scraper.getSiteOffers W s).
Proof.
  unfold Scraper.getSiteOffers, Scraper.crawlFuel.
  destruct (Scraper.iteration W s (Scraper.initial W s)) as [r|ev st'] eqn:E.
  - rewrite getSiteOffers_loop_S, E. reflexivity.
  - assert (Hc : (1 <= Scraper.scrapedPagesCount st')%nat).
    { rewrite (iteration_counts _ _ _ E). lia. }
    destruct (getSiteOffers_loop_ends (length (Scraper.pending st')) st' Hc eq_refl)
      as [r Hr].
    change (2 + length (Scraper.pending st'))%nat
      with (S (S (length (Scraper.pending st')))).
    rewrite getSiteOffers_loop_S, E, Hr. reflexivity.
Qed.

(** what a reached state holds: the offers of the pages read so far *)
Lemma Reaches_offers : forall hist st,
    Scraper.Reaches W s hist st ->
    Scraper.offers st = concat hist
    /\ Scraper.scrapedPagesCount st = length hist.
Proof.
  induction 1 as [|hist st ev page pageOffers st' _ [IHo IHc] Hload Hads Hit].
  - split; reflexivity.
  - unfold Scraper.iteration in Hit. rewrite Hload, Hads in Hit.
    cbn [negb andb] in Hit.
    match type of Hit with context [match ?q with [] => _ | _ :: _ => _ end] =>
      destruct q as [|next rest] end; [discriminate|].
    injection Hit as <-. cbn.
    rewrite concat_app, length_app, IHo, IHc. cbn. rewrite app_nil_r.
    split; [reflexivity|lia].
Qed.

(** a result from a reached state is the result of the whole crawl, up to
    the events of the earlier passes *)
Lemma Reaches_result : forall hist st,
    Scraper.Reaches W s hist st ->
    forall fuel r,
      Scraper.getSiteOffers_loop W fuel s st = Some r ->
      snd (Scraper.getSiteOffers W s) = snd r.
Proof.
  induction 1 as [|hist st ev page pageOffers st' _ IH Hload Hads Hit];
    intros fuel r Hr.
  - rewrite (getSiteOffers_loop_agree _ _ _ _ _ getSiteOffers_total Hr).
    reflexivity.
  - apply (IH (S fuel) (Scraper.prepend ev r)).
    rewrite getSiteOffers_loop_S, Hit, Hr. reflexivity.
Qed.

End CrawlFacts.

(** C3, as the code has it.  When the loop has read some pages and the next
    page fails to load, [getSiteOffers] returns the error together with all
    the offers of the pages read before.  When instead the next page loads
    and its extraction throws, [getSiteOffers] itself throws that error, and
    returns no offers. *)
Theorem getSiteOffers_on_failure :
  (forall W (s : Scraper.SiteScraper W) hist st ev err,
      Scraper.Reaches W s hist st ->
      Scraper.getPageOutcome W s (Scraper.scrapedPagesCount st) (Scraper.pageUrl st)
      = (ev, Scraper.Rejected err) ->
      snd (Scraper.getSiteOffers W s) = Scraper.Fulfilled (concat hist, Some err))
  /\ (forall W (s : Scraper.SiteScraper W) hist st ev page e,
         Scraper.Reaches W s hist st ->
         Scraper.getPageOutcome W s (Scraper.scrapedPagesCount st) (Scraper.pageUrl st)
         = (ev, Scraper.Fulfilled page) ->
         Scraper.getScraperPageAds W s (Scraper.getPageContent W page) page
         = Scraper.Rejected e ->
         snd (Scraper.getSiteOffers W s) = Scraper.Rejected e).
Proof.
  split.
  - intros W s hist st ev err HR Hload.
    destruct (Reaches_offers W s hist st HR) as [Ho _].
    rewrite (Reaches_result W s hist st HR 1
               (ev, Scraper.Fulfilled (Scraper.offers st, Some err))).
    + cbn [snd]. rewrite Ho. reflexivity.
    + rewrite getSiteOffers_loop_S. unfold Scraper.iteration.
      rewrite Hload. reflexivity.
  - intros W s hist st ev page e HR Hload Hads.
    rewrite (Reaches_result W s hist st HR 1 (ev, Scraper.Rejected e)).
    + reflexivity.
    + rewrite getSiteOffers_loop_S. unfold Scraper.iteration.
      rewrite Hload, Hads. reflexivity.
Qed.

Lemma getSiteOffers_on_failure_witness :
  snd (Scraper.getSiteOffers Sample.worldLoadFailure
         (Sample.scraperWith Sample.lastPage Sample.olx))
  = Scraper.Fulfilled ([Sample.offer1], Some Sample.loadError)
  /\ snd (Scraper.getSiteOffers Sample.worldBadMonth
            (Sample.scraperWith (Scraper.Rejected Sample.unrecognizedMonth) Sample.olx))
     = Scraper.Rejected Sample.unrecognizedMonth.
Proof.
  destruct getSiteOffers_on_failure as [Hload Hextract].
  split.
  - apply (Hload Sample.worldLoadFailure
             (Sample.scraperWith Sample.lastPage Sample.olx)
             [[Sample.offer1]] Sample.afterFirstPage [] Sample.loadError).
    + apply (Scraper.reaches_again Sample.worldLoadFailure
               (Sample.scraperWith Sample.lastPage Sample.olx) []
               (Scraper.initial Sample.worldLoadFailure
                  (Sample.scraperWith Sample.lastPage Sample.olx))
               [] O [Sample.offer1] Sample.afterFirstPage).
      * apply Scraper.reaches_initial.
      * reflexivity.
      * reflexivity.
      * reflexivity.
    + reflexivity.
  - apply (Hextract Sample.worldBadMonth
             (Sample.scraperWith (Scraper.Rejected Sample.unrecognizedMonth) Sample.olx)
             [[Sample.offer1]] Sample.afterFirstPage [] 1%nat
             Sample.unrecognizedMonth).
    + apply (Scraper.reaches_again Sample.worldBadMonth
               (Sample.scraperWith (Scraper.Rejected Sample.unrecognizedMonth) Sample.olx)
               []
               (Scraper.initial Sample.worldBadMonth
                  (Sample.scraperWith (Scraper.Rejected Sample.unrecognizedMonth)
                     Sample.olx))
               [] O [Sample.offer1] Sample.afterFirstPage).
      * apply Scraper.reaches_initial.
      * reflexivity.
      * reflexivity.
      * reflexivity.
    + reflexivity.
    + reflexivity.
Defined.

(** C3 as stated fails: the first page gave an offer, the second has an
    unknown month on it, and the crawl ends by throwing; it returns neither
    the error value nor the offer gathered. *)
Lemma getSiteOffers_extraction_failure_loses_records :
  let s := Sample.scraperWith (Scraper.Rejected Sample.unrecognizedMonth) Sample.olx in
  Scraper.Reaches Sample.worldBadMonth s [[Sample.offer1]] Sample.afterFirstPage
  /\ snd (Scraper.getSiteOffers Sample.worldBadMonth s)
     = Scraper.Rejected Sample.unrecognizedMonth
  /\ forall records err,
      snd (Scraper.getSiteOffers Sample.worldBadMonth s)
      <> Scraper.Fulfilled (records, Some err).
Proof.
  intros s. split; [|split].
  - apply (Scraper.reaches_again Sample.worldBadMonth s []
             (Scraper.initial Sample.worldBadMonth s) [] O
             [Sample.offer1] Sample.afterFirstPage).
    + apply Scraper.reaches_initial.
    + reflexivity.
    + reflexivity.
    + reflexivity.
  - reflexivity.
  - intros records err. discriminate.
Qed.

(** ** The per-site caller *)



(** ** The orchestrator *)

Lemma skipn_nth_error {A} : forall (l : list A) i,
    skipn i l = match nth_error l i with
                | Some a => a :: skipn (S i) l
                | None => []
                end.
Proof.
  induction l as [|x l IH]; intros [|i]; try reflexivity.
  cbn [skipn nth_error]. rewrite IH. destruct (nth_error l i); reflexivity.
Qed.

Lemma concat_pairs {A} : forall n (l : list A),
    (length l <= n)%nat -> concat (Spec.pairs l) = l.
Proof.
  induction n as [|n IH]; intros l Hl.
  - destruct l; [reflexivity | cbn in Hl; lia].
  - destruct l as [|a [|b l]]; try reflexivity.
    cbn [Spec.pairs concat app]. rewrite IH; [reflexivity | cbn in Hl; lia].
Qed.

Lemma pairs_at_most_two {A} : forall n (l : list A),
    (length l <= n)%nat ->
    Forall (fun batch => (1 <= length batch <= 2)%nat) (Spec.pairs l).
Proof.
  induction n as [|n IH]; intros l Hl.
  - destruct l; [constructor | cbn in Hl; lia].
  - destruct l as [|a [|b l]]; cbn [Spec.pairs].
    + constructor.
    + constructor; [cbn; lia | constructor].
    + constructor; [cbn; lia |]. apply IH. cbn in Hl. lia.
Qed.

Section OrchestratorFacts.
Variable W : Scraper.World.

Lemma fulfilled_no_rejection : forall r,
    Scraper.isFulfilled r = true -> Scraper.rejection r = [].
Proof.
  intros [site [ev [[]|e|]]]; cbn; intros H; try discriminate; reflexivity.
Qed.

Lemma Promise_all_fulfilled : forall promises,
    Forall (fun r => Scraper.isFulfilled r = true) promises ->
    Scraper.Promise_all promises = Scraper.allFulfilled.
Proof.
  intros promises H. unfold Scraper.Promise_all.
  assert (E : flat_map Scraper.rejection promises = []).
  { induction H as [|r l Hr _ IH]; [reflexivity|].
    cbn [flat_map]. rewrite (fulfilled_no_rejection r Hr), IH. reflexivity. }
  rewrite E.
  assert (F : forallb Scraper.isFulfilled promises = true).
  { apply forallb_forall. rewrite Forall_forall in H. exact H. }
  rewrite F. reflexivity.
Qed.

Lemma scrapeOffers_loop_S : forall fuel sites i,
    Scraper.scrapeOffers_loop W (S fuel) sites i
    = match skipn i sites with
      | [] => Some ([], Scraper.completed)
      | _ :: _ =>
          Scraper.afterBatch (Spec.batchAt (Scraper.startOffers W) sites i)
            (Scraper.scrapeOffers_loop W fuel sites (S (S i)))
      end.
Proof.
  intros fuel sites i. cbn [Scraper.scrapeOffers_loop]. unfold Spec.batchAt.
  rewrite (skipn_nth_error sites i).
  destruct (nth_error sites i) as [a|]; [|reflexivity].
  rewrite (skipn_nth_error sites (S i)).
  destruct (nth_error sites (S i)) as [b|]; reflexivity.
Qed.

Lemma skipn_SS : forall (sites : list Scraper.SiteName) i,
    skipn (S (S i)) sites = skipn 2 (skipn i sites).
Proof. intros sites i. rewrite skipn_skipn. reflexivity. Qed.

(** when every remaining crawl is fulfilled the loop runs to the end of the
    list, pair by pair *)
Lemma scrapeOffers_loop_completed : forall fuel sites i,
    Forall (Spec.fulfils W) (skipn i sites) ->
    (length (skipn i sites) < fuel)%nat ->
    Scraper.scrapeOffers_loop W fuel sites i
    = Some (map (map (Scraper.startOffers W)) (Spec.pairs (skipn i sites)),
            Scraper.completed).
Proof.
  induction fuel as [|fuel IH]; intros sites i Hall Hfuel; [lia|].
  rewrite scrapeOffers_loop_S. unfold Spec.batchAt.
  specialize (IH sites (S (S i))). rewrite skipn_SS in IH.
  destruct (skipn i sites) as [|a l]; [reflexivity|].
  unfold Scraper.afterBatch.
  rewrite Promise_all_fulfilled.
  - rewrite IH.
    + destruct l as [|b l]; reflexivity.
    + destruct l as [|b l]; cbn [skipn]; [constructor|].
      inversion Hall as [|? ? _ Hl]. inversion Hl. assumption.
    + destruct l as [|b l]; cbn [skipn length] in *; lia.
  - rewrite Forall_forall in *. intros r Hr.
    apply in_map_iff in Hr. destruct Hr as (site & <- & Hin).
    apply Hall. destruct l as [|b l]; cbn in Hin |- *; intuition.
Qed.

(** when the pair number [k] holds a crawl that rejects, and the crawls of
    the pairs before are fulfilled, the loop ends after that pair *)
Lemma scrapeOffers_loop_threw : forall k fuel sites i e es,
    Forall (Spec.fulfils W) (firstn (2 * k) (skipn i sites)) ->
    flat_map Scraper.rejection
      (map (Scraper.startOffers W) (firstn 2 (skipn (2 * k) (skipn i sites))))
    = e :: es ->
    (length (skipn i sites) < fuel)%nat ->
    Scraper.scrapeOffers_loop W fuel sites i
    = Some (map (map (Scraper.startOffers W))
              (Spec.pairs (firstn (2 * k + 2) (skipn i sites))),
            Scraper.threw (e :: es)).
Proof.
  induction k as [|k IH]; intros fuel sites i e es Hall Hrej Hfuel;
    (destruct fuel as [|fuel]; [lia|]);
    rewrite scrapeOffers_loop_S; unfold Spec.batchAt.
  - cbn [Nat.mul skipn Nat.add] in *.
    destruct (skipn i sites) as [|a l]; [discriminate|].
    unfold Scraper.afterBatch, Scraper.Promise_all. rewrite Hrej.
    destruct l as [|b l]; reflexivity.
  - replace (2 * S k)%nat with (S (S (2 * k))) in * by lia.
    specialize (IH fuel sites (S (S i)) e es). rewrite skipn_SS in IH.
    destruct (skipn i sites) as [|a [|b l]].
    + discriminate.
    + cbn [skipn firstn map flat_map] in Hrej. discriminate.
    + cbn [skipn firstn] in *.
      unfold Scraper.afterBatch. rewrite Promise_all_fulfilled.
      * rewrite IH.
        -- replace (S (S (2 * k)) + 2)%nat with (S (S (2 * k + 2))) by lia.
           reflexivity.
        -- inversion Hall as [|? ? _ Hl]. inversion Hl. assumption.
        -- exact Hrej.
        -- cbn [length] in Hfuel. lia.
      * inversion Hall as [|? ? Ha Hl]. inversion Hl as [|? ? Hb _].
        constructor; [exact Ha|]. constructor; [exact Hb|]. constructor.
Qed.

Lemma started_batches : forall (batches : list (list Scraper.SiteName)) ending,
    Scraper.started (map (map (Scraper.startOffers W)) batches, ending)
    = concat batches.
Proof.
  intros batches ending. unfold Scraper.started. cbn [fst].
  rewrite <- concat_map, map_map.
  induction (concat batches) as [|x l IH]; [reflexivity|].
  cbn [map]. rewrite IH. reflexivity.
Qed.

End OrchestratorFacts.

(** The later revision of the orchestrator does what C4 says.  When every
    crawl is fulfilled, [scrapeOffers] starts the crawls in consecutive pairs
    of the list, an odd last site alone, each batch awaited before the next
    is started: every site is started exactly once, in list order, and no
    batch holds more than two crawls. *)
Theorem scrapeOffers_pairs : forall W sites,
    (forall site, In site sites ->
                  Scraper.isFulfilled (Scraper.startOffers W site) = true) ->
    exists run,
      Scraper.scrapeOffers W sites = Some run
      /\ run = (map (map (Scraper.startOffers W)) (Spec.pairs sites),
                Scraper.completed)
      /\ Scraper.started run = sites
      /\ Forall (fun batch => (1 <= length batch <= 2)%nat) (fst run).
Proof.
  intros W sites Hall.
  exists (map (map (Scraper.startOffers W)) (Spec.pairs sites),
          Scraper.completed).
  split; [|split; [reflexivity|]].
  - unfold Scraper.scrapeOffers.
    rewrite (scrapeOffers_loop_completed W (S (length sites)) sites 0).
    + reflexivity.
    + apply Forall_forall. exact Hall.
    + cbn [skipn]. lia.
  - split.
    + rewrite started_batches. apply (concat_pairs (length sites)). lia.
    + cbn [fst]. rewrite Forall_map.
      eapply Forall_impl; [|apply (pairs_at_most_two (length sites)); lia].
      intros batch Hb. rewrite length_map. exact Hb.
Qed.

(** C4, evaluated on the older revision.  With three sites whose crawls are
    all fulfilled, [scrapeAnnouncements] runs three batches and starts five
    crawls: the second site again with the third, and the third once more
    alone. *)
Theorem scrapeAnnouncements_repeats_sites :
  option_map (fun run => (map (map fst) (fst run), snd run))
    (Scraper.scrapeAnnouncements Sample.worldNormal Sample.threeSites)
  = Some ([[Sample.olx; Sample.otodom]; [Sample.otodom; Sample.gratka];
           [Sample.gratka]], Scraper.completed)
  /\ option_map Scraper.started
       (Scraper.scrapeAnnouncements Sample.worldNormal Sample.threeSites)
     = Some [Sample.olx; Sample.otodom; Sample.otodom; Sample.gratka; Sample.gratka]
  /\ option_map Scraper.started
       (Scraper.scrapeOffers Sample.worldNormal Sample.threeSites)
     = Some Sample.threeSites.
Proof. repeat split. Qed.

(** C2, as the code has it.  When a crawl of pair number [k] ends by
    throwing and the crawls of the pairs before it are fulfilled,
    [scrapeOffers] does not catch the failure: it ends by throwing one of
    the errors of that pair.  The crawls started are those of the first
    [k + 1] pairs, so the sibling of the failed crawl was started, and no
    site of a later pair is.  Nor does [scrapeOffers] log the failure: what
    it adds to the log of a crawl is the line written before the crawl
    starts, and nothing after it. *)
Theorem scrapeOffers_failure_ends_run : forall W sites k e es,
    Forall (Spec.fulfils W) (firstn (2 * k) sites) ->
    flat_map Scraper.rejection (Spec.batchAt (Scraper.startOffers W) sites (2 * k))
    = e :: es ->
    exists run,
      Scraper.scrapeOffers W sites = Some run
      /\ snd run = Scraper.threw (e :: es)
      /\ Scraper.started run = firstn (2 * k + 2) sites
      /\ length (fst run) = S k
      /\ Forall (fun r : Scraper.SiteRun =>
                   snd r = Scraper.prepend [Scraper.info_AboutToScrape (fst r)]
                             (Scraper.scrapeSiteOffers W (fst r)))
           (concat (fst run)).
Proof.
  intros W sites k e es Hall Hrej.
  exists (map (map (Scraper.startOffers W))
            (Spec.pairs (firstn (2 * k + 2) sites)),
          Scraper.threw (e :: es)).
  split; [|split; [reflexivity|]].
  - unfold Scraper.scrapeOffers.
    apply (scrapeOffers_loop_threw W k (S (length sites)) sites 0 e es).
    + exact Hall.
    + exact Hrej.
    + cbn [skipn]. lia.
  - cbn [skipn]. split; [|split].
    3: { cbn [fst]. apply Forall_forall. intros r Hin.
         apply in_concat in Hin. destruct Hin as (batch & Hb & Hr).
         apply in_map_iff in Hb. destruct Hb as (names & <- & _).
         apply in_map_iff in Hr. destruct Hr as (site & <- & _).
         reflexivity. }
    + rewrite started_batches.
      apply (concat_pairs (length (firstn (2 * k + 2) sites))). lia.
    + cbn [fst]. rewrite length_map.
      assert (Hlen : (2 * k < length sites)%nat).
      { unfold Spec.batchAt in Hrej.
        destruct (Nat.lt_ge_cases (2 * k) (length sites)) as [H|H]; [exact H|].
        rewrite skipn_all2 in Hrej by exact H. discriminate. }
      clear Hall Hrej. revert sites Hlen.
      induction k as [|k IH]; intros sites Hlen.
      * destruct sites as [|a [|b l]]; [cbn in Hlen; lia | reflexivity | reflexivity].
      * replace (2 * S k + 2)%nat with (S (S (2 * k + 2))) by lia.
        destruct sites as [|a [|b l]]; [cbn in Hlen; lia | cbn in Hlen; lia |].
        cbn [firstn Spec.pairs length]. f_equal. apply IH. cbn in Hlen. lia.
Qed.

Lemma scrapeOffers_failure_ends_run_witness :
  exists run,
    Scraper.scrapeOffers Sample.worldOlxBadMonth Sample.threeSites = Some run
    /\ snd run = Scraper.threw [Sample.unrecognizedMonth]
    /\ Scraper.started run = [Sample.olx; Sample.otodom]
    /\ length (fst run) = 1%nat
    /\ Forall (fun r : Scraper.SiteRun =>
                 snd r = Scraper.prepend [Scraper.info_AboutToScrape (fst r)]
                           (Scraper.scrapeSiteOffers Sample.worldOlxBadMonth (fst r)))
         (concat (fst run)).
Proof.
  apply (scrapeOffers_failure_ends_run Sample.worldOlxBadMonth Sample.threeSites
           0 Sample.unrecognizedMonth []).
  - constructor.
  - reflexivity.
Defined.

(** C2 as stated fails: the crawl of olx throws, and the run, in either
    revision, ends by throwing with gratka never crawled; no event of the
    run reports the failure. *)
Lemma scrapeOffers_failure_not_isolated :
  option_map (fun run => (Scraper.started run, snd run))
    (Scraper.scrapeOffers Sample.worldOlxBadMonth Sample.threeSites)
  = Some ([Sample.olx; Sample.otodom], Scraper.threw [Sample.unrecognizedMonth])
  /\ option_map (fun run => (Scraper.started run, snd run))
       (Scraper.scrapeAnnouncements Sample.worldOlxBadMonth Sample.threeSites)
     = Some ([Sample.olx; Sample.otodom], Scraper.threw [Sample.unrecognizedMonth])
  /\ ~ In Sample.gratka [Sample.olx; Sample.otodom]
  /\ option_map (fun run => flat_map (fun r => fst (snd r)) (concat (fst run)))
       (Scraper.scrapeOffers Sample.worldOlxBadMonth Sample.threeSites)
     = Some [Scraper.info_AboutToScrape Sample.olx;
             Scraper.info_AboutToScrape Sample.otodom;
             Scraper.info_ScrapedPagesCount Sample.otodom 2;
             Scraper.info_AboutToSave Sample.otodom;
             Scraper.fileWritten Sample.otodom [Sample.offer1];
             Scraper.info_NumberOfOffers Sample.otodom 1].
Proof.
  split; [reflexivity|]. split; [reflexivity|]. split; [|reflexivity].
  intros [H|[H|[]]]; discriminate.
Qed.

(* ================================================================== *)
(** * Part VI.  Further properties of the code *)
(* ================================================================== *)

(** ** Today and yesterday *)

Lemma split_acc_no_sep : forall sep s cur,
    forallb (fun c => negb (N.eqb c sep)) s = true ->
    split_acc sep cur s = [rev cur ++ s].
Proof.
  induction s as [|c s IH]; intros cur H; cbn [split_acc].
  - rewrite app_nil_r. reflexivity.
  - cbn [forallb] in H. apply andb_prop in H. destruct H as [Hc Hs].
    apply negb_true_iff in Hc. rewrite Hc. rewrite IH by exact Hs.
    cbn [rev]. rewrite <- app_assoc. reflexivity.
Qed.

Lemma split_acc_one_sep : forall sep a b cur,
    forallb (fun c => negb (N.eqb c sep)) a = true ->
    split_acc sep cur (a ++ sep :: b) = (rev cur ++ a) :: split_acc sep [] b.
Proof.
  induction a as [|c a IH]; intros b cur H; cbn [split_acc app].
  - rewrite N.eqb_refl, app_nil_r. reflexivity.
  - cbn [forallb] in H. apply andb_prop in H. destruct H as [Hc Ha].
    apply negb_true_iff in Hc. rewrite Hc. rewrite IH by exact Ha.
    cbn [rev]. rewrite <- app_assoc. reflexivity.
Qed.

(** what the conversions make of the print of an hour or a minute *)
Lemma clockField_facts : forall token n, Props.isClockField 60 token n ->
    parseInt (Some token) = ofZ (Z.of_nat n)
    /\ ToNumber (Some token) = ofZ (Z.of_nat n)
    /\ forallb (fun c => negb (N.eqb c colon)) token = true.
Proof.
  intros token n [Hn [-> | [Hlt ->]]].
  - do 60 (destruct n as [|n]; [vm_compute; repeat split|]).
    lia.
  - do 10 (destruct n as [|n]; [vm_compute; repeat split|]).
    lia.
Qed.

(** X1.  A date text of the word for today or yesterday and a clock time,
    hours and minutes in decimal with or without a leading zero, is read
    with one reading of the clock as the date
    [new Date(year, month, date, hours, minutes)] built from the calendar
    fields of that reading, the day of the month one less for yesterday,
    and from the hours and minutes that the text prints. *)
Theorem parseOlxAdTime_today_yesterday :
  forall env k olxTime word hTok mTok h mi,
    Spec.spaceTokens olxTime = [word; hTok ++ colon :: mTok] ->
    word = Olx.dzisiaj \/ word = Olx.wczoraj ->
    Props.isClockField 24 hTok h ->
    Props.isClockField 60 mTok mi ->
    let now := Olx.clock env k in
    let tz := Olx.LocalTZA env in
    let date := if JSString.eqb word Olx.wczoraj
                then getDate tz now - 1 else getDate tz now in
    Olx.parseOlxAdTime olxTime env k
    = (Ok (Olx.IsDate
             (newDate tz (getFullYear tz now) (getMonth tz now) (ofZ date)
                (ofZ (Z.of_nat h)) (ofZ (Z.of_nat mi)))),
       S k).
Proof.
  intros env k olxTime word hTok mTok h mi Htok Hword Hh Hmi now tz date.
  assert (Hh60 : Props.isClockField 60 hTok h).
  { destruct Hh as [Hlt Hform]. split; [lia | exact Hform]. }
  destruct (clockField_facts hTok h Hh60) as (Hph & Hnh & Hch).
  destruct (clockField_facts mTok mi Hmi) as (Hpm & Hnm & Hcm).
  unfold Olx.parseOlxAdTime. fold (Spec.spaceTokens olxTime). rewrite Htok.
  cbn [length Nat.ltb Nat.leb nth_error].
  assert (E : JSString.eqb word Olx.dzisiaj || JSString.eqb word Olx.wczoraj = true).
  { destruct Hword as [-> | ->]; reflexivity. }
  rewrite E. unfold Olx.parseOlxAdTimeWithTodayYesterday.
  unfold split. rewrite split_acc_one_sep by exact Hch.
  rewrite split_acc_no_sep by exact Hcm.
  cbn [rev app nth_error].
  rewrite Hph, Hnh, Hpm, Hnm, !strictEq_ofZ.
  cbn [isNaN ofZ orb negb].
  unfold Olx.bind, Olx.Date_now, Olx.tz, Olx.ret.
  fold (ofZ (Z.of_nat h)). fold (ofZ (Z.of_nat mi)).
  fold now. fold tz. subst date.
  destruct (JSString.eqb word Olx.wczoraj).
  - replace (getDate tz now + -1) with (getDate tz now - 1) by lia. reflexivity.
  - replace (getDate tz now + 0) with (getDate tz now) by lia. reflexivity.
Qed.

(** "wczoraj 09:00" read on 2024-01-10 at 10:00 is
    [new Date(2024, 0, 9, 9, 0)] *)
Lemma parseOlxAdTime_today_yesterday_witness :
  Olx.parseOlxAdTime Sample2.s_wczoraj_0900
    (Sample.at_ Sample2.t_2024_01_10_1000) 0%nat
  = (Ok (Olx.IsDate (newDate Sample.CET 2024 0 (ofZ 9) (ofZ 9) (ofZ 0))), 1%nat).
Proof.
  assert (Hh : Props.isClockField 24 (js "09") 9)
    by (split; [lia | right; split; [lia | reflexivity]]).
  assert (Hm : Props.isClockField 60 (js "00") 0)
    by (split; [lia | right; split; [lia | reflexivity]]).
  exact (parseOlxAdTime_today_yesterday (Sample.at_ Sample2.t_2024_01_10_1000)
           0%nat Sample2.s_wczoraj_0900 Olx.wczoraj (js "09") (js "00")
           9%nat 0%nat eq_refl (or_intror eq_refl) Hh Hm).
Defined.

(** ** The month table *)

Lemma switch_In {V} : forall (cases : list (jstring * V)) x v,
    Olx.switch cases x = Some v -> In (x, v) cases.
Proof.
  induction cases as [|[label w] cases IH]; intros x v H; [discriminate|].
  cbn [Olx.switch] in H. unfold JSString.eqb in H.
  destruct (list_eq_dec N.eq_dec x label) as [->|Hne].
  - injection H as <-. left; reflexivity.
  - right. exact (IH x v H).
Qed.

Lemma switch_None {V} : forall (cases : list (jstring * V)) x,
    Olx.switch cases x = None <-> ~ In x (map fst cases).
Proof.
  induction cases as [|[label w] cases IH]; intros x; cbn [Olx.switch map fst In].
  - split; [intros _ []|reflexivity].
  - unfold JSString.eqb. destruct (list_eq_dec N.eq_dec x label) as [->|Hne].
    + split; [discriminate|]. intros H. exfalso. apply H. left; reflexivity.
    + rewrite IH. split.
      * intros H [E|Hin]; [congruence | exact (H Hin)].
      * intros H Hin. apply H. right; exact Hin.
Qed.

(** X2.  [mapMonthPrefixToMonth] throws exactly on the prefixes that are
    none of its thirteen labels, whichever result is asked for.  As a number
    it gives a month 0..11, and every month has a label.  The two results
    agree: the first three code units of the name it gives for a prefix are a
    label of the same month number. *)
Theorem mapMonthPrefixToMonth_table :
  (forall p asNumber,
      (exists e, Olx.mapMonthPrefixToMonth p asNumber = Throw e)
      <-> ~ In p Props.monthLabels)
  /\ (forall p n, Olx.mapMonthPrefixToMonth p true = Ok n -> 0 <= n <= 11)
  /\ (forall n, 0 <= n <= 11 ->
                exists p, Olx.mapMonthPrefixToMonth p true = Ok n)
  /\ (forall p n name,
         Olx.mapMonthPrefixToMonth p true = Ok n ->
         Olx.mapMonthPrefixToMonth p false = Ok name ->
         Olx.mapMonthPrefixToMonth (substr0 3 name) true = Ok n).
Proof.
  split; [|split; [|split]].
  - intros p asNumber. unfold Props.monthLabels.
    rewrite <- switch_None. unfold Olx.mapMonthPrefixToMonth.
    destruct (Olx.switch Olx.monthTable p) as [[n name]|].
    + split; [intros [e He]; discriminate | discriminate].
    + split; [reflexivity | intros _; eexists; reflexivity].
  - intros p n. unfold Olx.mapMonthPrefixToMonth.
    destruct (Olx.switch Olx.monthTable p) as [[m name]|] eqn:E; [|discriminate].
    intros H. injection H as <-. exact (month_in_range p m name E).
  - intros n Hn.
    set (labels := [Olx.month_sty; Olx.month_lut; Olx.month_mar; Olx.month_kwi;
                    Olx.month_maj; Olx.month_cze; Olx.month_lip; Olx.month_sie;
                    Olx.month_wrz; Olx.month_paz; Olx.month_lis; Olx.month_gru]).
    exists (nth (Z.to_nat n) labels []).
    replace n with (Z.of_nat (Z.to_nat n)) at 2 by lia.
    assert (Hk : (Z.to_nat n < 12)%nat) by lia.
    revert Hk. generalize (Z.to_nat n) as k. intros k Hk.
    do 12 (destruct k as [|k]; [reflexivity|]). lia.
  - intros p n name. unfold Olx.mapMonthPrefixToMonth at 1 2.
    destruct (Olx.switch Olx.monthTable p) as [[m nm]|] eqn:E; [|discriminate].
    intros H1 H2. injection H1 as <-. injection H2 as <-.
    apply switch_In in E. unfold Olx.monthTable in E. cbn [In] in E.
    repeat (destruct E as [E|E]; [injection E as _ <- <-; reflexivity|]).
    destruct E.
Qed.

(** the ASCII spelling "paz" stands for month 9, and so does the prefix of
    the name it is given *)
Lemma mapMonthPrefixToMonth_table_witness :
  0 <= 9 <= 11
  /\ Olx.mapMonthPrefixToMonth (substr0 3 Olx.name_pazdziernik) true = Ok 9.
Proof.
  destruct mapMonthPrefixToMonth_table as (_ & Hrange & _ & Hagree).
  split.
  - apply (Hrange Olx.month_paz 9). reflexivity.
  - apply (Hagree Olx.month_paz 9 Olx.name_pazdziernik); reflexivity.
Defined.

(** ** Date texts of fewer than two tokens *)

Lemma spaceTokens_spaces : forall n, Spec.spaceTokens (repeat space n) = [].
Proof.
  intros n. unfold Spec.spaceTokens, split.
  induction n as [|n IH]; [reflexivity|].
  cbn [repeat split_acc]. rewrite N.eqb_refl. cbn [rev filter nonempty].
  exact IH.
Qed.

Lemma too_few_tokens_throw : forall env k olxTime,
    (length (Spec.spaceTokens olxTime) < 2)%nat ->
    exists what,
      Olx.parseOlxAdTime olxTime env k = (Throw (TypeError what), k).
Proof.
  intros env k olxTime Hlen. unfold Olx.parseOlxAdTime.
  fold (Spec.spaceTokens olxTime).
  destruct (Spec.spaceTokens olxTime) as [|t0 [|t1 rest]];
    [| |cbn in Hlen; lia]; cbn [length Nat.ltb Nat.leb nth_error].
  - eexists; reflexivity.
  - destruct (JSString.eqb t0 Olx.dzisiaj || JSString.eqb t0 Olx.wczoraj);
      eexists; reflexivity.
Qed.

(** X3.  A date text of fewer than two space-separated tokens, such as the
    empty text of an entry without a date, a text of spaces only, or a single
    word, makes [parseOlxAdTime] throw a TypeError, before any reading of the
    clock. *)
Theorem parseOlxAdTime_too_few_tokens :
  (forall env k olxTime,
      (length (Spec.spaceTokens olxTime) < 2)%nat ->
      exists what,
        Olx.parseOlxAdTime olxTime env k = (Throw (TypeError what), k))
  /\ (forall env k n,
         exists what,
           Olx.parseOlxAdTime (repeat space n) env k = (Throw (TypeError what), k)).
Proof.
  split; [exact too_few_tokens_throw|].
  intros env k n. apply too_few_tokens_throw.
  rewrite spaceTokens_spaces. cbn. lia.
Qed.

Lemma parseOlxAdTime_too_few_tokens_witness :
  exists what,
    Olx.parseOlxAdTime Sample2.s_dzisiaj (Sample.at_ Sample.t_2024_01_05) 0%nat
    = (Throw (TypeError what), 0%nat).
Proof.
  apply (proj1 parseOlxAdTime_too_few_tokens).
  vm_compute. lia.
Defined.

(** ** The records of a page *)

(** reading one date text reads the clock at most once *)
Lemma parseOlxAdTime_clock : forall olxTime env k r k1,
    Olx.parseOlxAdTime olxTime env k = (r, k1) -> (k <= k1 <= S k)%nat.
Proof.
  intros olxTime env k r k1. unfold Olx.parseOlxAdTime.
  destruct (2 <? length _)%nat; [intros H; injection H as _ <-; lia|].
  destruct (nth_error _ 0) as [t0|].
  - destruct (JSString.eqb t0 Olx.dzisiaj || JSString.eqb t0 Olx.wczoraj).
    + unfold Olx.parseOlxAdTimeWithTodayYesterday.
      destruct (nth_error _ 1) as [time|];
        [|intros H; injection H as _ <-; lia].
      destruct (isNaN _ || isNaN _ || _ || _);
        intros H; injection H as _ <-; lia.
    + unfold Olx.parseOlxAdDateWithMontPrefix.
      destruct (nth_error _ 1) as [mp|];
        [|intros H; injection H as _ <-; lia].
      unfold Olx.bind, Olx.Date_now, Olx.tz, Olx.lift, Olx.ret,
        Olx.mapMonthPrefixToMonth.
      destruct (isNaN _ || _); [intros H; injection H as _ <-; lia|].
      destruct (Olx.switch Olx.monthTable (substr0 3 mp)) as [[n name]|];
        intros H; injection H as _ <-; lia.
  - unfold Olx.parseOlxAdDateWithMontPrefix.
    destruct (nth_error _ 1) as [mp|];
      [|intros H; injection H as _ <-; lia].
    unfold Olx.bind, Olx.Date_now, Olx.tz, Olx.lift, Olx.ret,
      Olx.mapMonthPrefixToMonth.
    destruct (isNaN _ || _); [intros H; injection H as _ <-; lia|].
    destruct (Olx.switch Olx.monthTable (substr0 3 mp)) as [[n name]|];
      intros H; injection H as _ <-; lia.
Qed.

Lemma cleanPrice_chars : forall s,
    forallb Props.isDigitOrDot (Olx.cleanPrice s) = true.
Proof.
  intros s. unfold Olx.cleanPrice. induction s as [|c s IH]; [reflexivity|].
  cbn [filter]. unfold Props.isDigitOrDot, Props.isDigit in *.
  destruct (digitValue c) as [v|] eqn:Ed.
  - cbn [map forallb]. rewrite IH.
    destruct (N.eqb_spec c 44) as [->|_]; [discriminate|].
    rewrite Ed. reflexivity.
  - destruct (N.eqb_spec c 46) as [->|H46]; cbn [orb].
    + cbn [map forallb]. rewrite IH. reflexivity.
    + destruct (N.eqb_spec c 44) as [->|H44]; [|exact IH].
      cbn [map forallb]. rewrite N.eqb_refl, IH. reflexivity.
Qed.

Lemma trimStart_keeps : forall (P : char -> bool) s,
    forallb P s = true -> forallb P (trimStart s) = true.
Proof.
  intros P. induction s as [|c s IH]; intros H; [reflexivity|].
  cbn [trimStart]. destruct (isWhiteSpace c); [|exact H].
  cbn [forallb] in H. apply andb_prop in H. apply IH. exact (proj2 H).
Qed.

Lemma forallb_rev : forall (P : char -> bool) s,
    forallb P (rev s) = forallb P s.
Proof.
  intros P. induction s as [|c s IH]; [reflexivity|].
  cbn [rev forallb]. rewrite forallb_app, IH. cbn [forallb].
  rewrite andb_true_r. apply andb_comm.
Qed.

Lemma trim_keeps : forall (P : char -> bool) s,
    forallb P s = true -> forallb P (trim s) = true.
Proof.
  intros P s H. unfold trim, trimEnd.
  rewrite forallb_rev. apply trimStart_keeps. rewrite forallb_rev.
  apply trimStart_keeps. exact H.
Qed.

Lemma cleanTitle_no_line_feed : forall s,
    forallb Props.notLineFeed (Olx.cleanTitle s) = true.
Proof.
  intros s. unfold Olx.cleanTitle. apply trim_keeps.
  apply forallb_forall. intros c Hc. apply filter_In in Hc. exact (proj2 Hc).
Qed.

Section RecordFacts.
Variable env : Olx.Env.
Variable debugUrl : jstring.

Lemma makeAnnouncement_wellFormed : forall i ad adDate,
    Props.wellFormed debugUrl (Olx.makeAnnouncement debugUrl i ad adDate) = true.
Proof.
  intros i ad adDate. unfold Props.wellFormed, Olx.makeAnnouncement.
  cbn [Olx.url_ Olx._debugInfo Olx.description Olx.price Olx.title].
  rewrite cleanPrice_chars, cleanTitle_no_line_feed.
  unfold JSString.eqb.
  destruct (list_eq_dec N.eq_dec debugUrl debugUrl); [|congruence].
  reflexivity.
Qed.

(** what the loop adds to the records it was given *)
Lemma parseOlxPageAds_loop_adds : forall ads i acc k recs done k',
    Olx.parseOlxPageAds_loop debugUrl i acc ads env k = (Ok (recs, done), k') ->
    exists new,
      recs = acc ++ new
      /\ (length new <= length ads)%nat
      /\ (done = false <-> length new = length ads)
      /\ map Olx.url new = firstn (length new) (map Olx.titleLinkHref ads)
      /\ map (fun a => Olx.idx (Olx._debugInfo a)) new = seq i (length new)
      /\ forallb (Props.wellFormed debugUrl) new = true
      /\ (k <= k' <= k + 2 * length ads)%nat.
Proof.
  induction ads as [|ad ads IH]; intros i acc k recs done k' H.
  - cbn in H. injection H as <- <- <-. exists []. rewrite app_nil_r.
    cbn. repeat split; lia.
  - cbn [Olx.parseOlxPageAds_loop] in H. unfold Olx.bind at 1 in H.
    destruct (Olx.parseOlxAdTime (Olx.clockText ad) env k) as [[[d|s]|e] k1] eqn:Ep;
      [| |discriminate];
      pose proof (parseOlxAdTime_clock _ _ _ _ _ Ep) as Hk.
    + unfold Olx.bind at 1 in H. unfold Olx.Date_now at 1 in H.
      destruct (Olx.isStale (Olx.clock env k1) d _).
      * injection H as <- <- <-. exists []. rewrite app_nil_r. cbn [length].
        repeat split; try reflexivity; try lia; discriminate.
      * destruct (IH _ _ _ _ _ _ H) as (new & -> & Hlen & Hdone & Hurl & Hidx & Hwf & Hk').
        eexists (_ :: new). rewrite <- app_assoc. cbn [app length map firstn seq forallb].
        rewrite Hurl, Hidx, Hwf, makeAnnouncement_wellFormed.
        repeat split; try reflexivity; try lia;
          destruct Hdone as [D1 D2]; intros; [rewrite D1 by assumption | apply D2]; lia.
    + destruct (IH _ _ _ _ _ _ H) as (new & -> & Hlen & Hdone & Hurl & Hidx & Hwf & Hk').
      eexists (_ :: new). rewrite <- app_assoc. cbn [app length map firstn seq forallb].
      rewrite Hurl, Hidx, Hwf, makeAnnouncement_wellFormed.
      repeat split; try reflexivity; try lia;
        destruct Hdone as [D1 D2]; intros; [rewrite D1 by assumption | apply D2]; lia.
Qed.

End RecordFacts.

(** X4.  Whenever [parseOlxPageAds] returns, its records are those of the
    first entries of the page, one per entry and in document order, numbered
    from 0, stamped with the page's debug URL, with no description and a
    price of digits and full stops only; [done] is false exactly when every
    entry has its record; and the clock has been read at most twice per
    entry. *)
Theorem parseOlxPageAds_records :
  forall env debugUrl ads k recs done k',
    Olx.parseOlxPageAds debugUrl ads env k = (Ok (recs, done), k') ->
    (length recs <= length ads)%nat
    /\ (done = false <-> length recs = length ads)
    /\ map Olx.url recs = firstn (length recs) (map Olx.titleLinkHref ads)
    /\ map (fun a => Olx.idx (Olx._debugInfo a)) recs = seq 0 (length recs)
    /\ forallb (Props.wellFormed debugUrl) recs = true
    /\ (k <= k' <= k + 2 * length ads)%nat.
Proof.
  intros env debugUrl ads k recs done k' H. unfold Olx.parseOlxPageAds in H.
  destruct (parseOlxPageAds_loop_adds env debugUrl ads 0 [] k recs done k' H)
    as (new & -> & Hrest).
  exact Hrest.
Qed.

Lemma parseOlxPageAds_records_witness :
  let recs := [Olx.makeAnnouncement Sample.listing 0 Sample.ad1
                 (Olx.toLocaleString (Some 1704877200000) true);
               Olx.makeAnnouncement Sample.listing 1 Sample.ad2
                 (Olx.rawText (js "w tym tygodniu"))] in
  (length recs <= 4)%nat
  /\ forallb (Props.wellFormed Sample.listing) recs = true.
Proof.
  intros recs.
  destruct (parseOlxPageAds_records (Sample.at_ Sample.t_2024_01_10_1030)
              Sample.listing [Sample.ad1; Sample.ad2; Sample.ad3; Sample.ad4]
              0%nat recs true 4%nat eq_refl)
    as (Hlen & _ & _ & _ & Hwf & _).
  split; [exact Hlen | exact Hwf].
Defined.

(** X5.  When the entries before some entry are all kept and the date text
    of that entry makes [parseOlxAdTime] throw, [parseOlxPageAds] throws the
    same error and returns no record of the page.  An entry with a missing
    or one-word date text does so with a TypeError. *)
Theorem parseOlxPageAds_throws :
  (forall env debugUrl k pre ad post recs k1 e k2,
      Spec.Kept env debugUrl 0 k pre recs k1 ->
      Olx.parseOlxAdTime (Olx.clockText ad) env k1 = (Throw e, k2) ->
      Olx.parseOlxPageAds debugUrl (pre ++ ad :: post) env k = (Throw e, k2))
  /\ (forall env debugUrl k pre ad post recs k1,
         Spec.Kept env debugUrl 0 k pre recs k1 ->
         (length (Spec.spaceTokens (Olx.clockText ad)) < 2)%nat ->
         exists what,
           Olx.parseOlxPageAds debugUrl (pre ++ ad :: post) env k
           = (Throw (TypeError what), k1)).
Proof.
  assert (A : forall env debugUrl k pre ad post recs k1 e k2,
             Spec.Kept env debugUrl 0 k pre recs k1 ->
             Olx.parseOlxAdTime (Olx.clockText ad) env k1 = (Throw e, k2) ->
             Olx.parseOlxPageAds debugUrl (pre ++ ad :: post) env k = (Throw e, k2)).
  { intros env debugUrl k pre ad post recs k1 e k2 HK Hparse.
    unfold Olx.parseOlxPageAds.
    rewrite (Kept_loop env debugUrl 0 k pre recs k1 HK [] (ad :: post)).
    cbn [Olx.parseOlxPageAds_loop]. unfold Olx.bind at 1. rewrite Hparse.
    reflexivity. }
  split; [exact A|].
  intros env debugUrl k pre ad post recs k1 HK Hlen.
  destruct (too_few_tokens_throw env k1 (Olx.clockText ad) Hlen) as [what Hw].
  exists what. exact (A env debugUrl k pre ad post recs k1 _ k1 HK Hw).
Qed.

(** a page whose second entry has no date text *)
Lemma parseOlxPageAds_throws_witness :
  exists what,
    Olx.parseOlxPageAds Sample.listing [Sample.ad1; Sample2.adNoDate; Sample.ad2]
      (Sample.at_ Sample.t_2024_01_10_1030) 0%nat
    = (Throw (TypeError what), 2%nat).
Proof.
  apply (proj2 parseOlxPageAds_throws (Sample.at_ Sample.t_2024_01_10_1030)
           Sample.listing 0%nat [Sample.ad1] Sample2.adNoDate [Sample.ad2]
           [Olx.makeAnnouncement Sample.listing 0 Sample.ad1
              (Olx.toLocaleString (Some 1704877200000) true)] 2%nat).
  - apply (Spec.kept_fresh _ Sample.listing 0 0 Sample.ad1 []
             (Some 1704877200000) 1); [reflexivity | reflexivity |].
    apply Spec.kept_none.
  - vm_compute. lia.
Defined.

(** ** Prices and titles *)

Lemma trimStart_fixed : forall s,
    forallb Props.notWhiteSpace (firstn 1 s) = true -> trimStart s = s.
Proof.
  intros [|c s] H; [reflexivity|]. cbn [firstn forallb] in H.
  unfold Props.notWhiteSpace in H. rewrite andb_true_r in H.
  apply negb_true_iff in H. cbn [trimStart]. rewrite H. reflexivity.
Qed.

Lemma trimStart_head : forall s,
    forallb Props.notWhiteSpace (firstn 1 (trimStart s)) = true.
Proof.
  induction s as [|c s IH]; [reflexivity|]. cbn [trimStart].
  destruct (isWhiteSpace c) eqn:E; [exact IH|].
  cbn [firstn forallb]. unfold Props.notWhiteSpace. rewrite E. reflexivity.
Qed.

Lemma trimStart_snoc : forall s c,
    isWhiteSpace c = false -> trimStart (s ++ [c]) = trimStart s ++ [c].
Proof.
  induction s as [|d s IH]; intros c Hc; cbn [app trimStart].
  - rewrite Hc. reflexivity.
  - destruct (isWhiteSpace d); [exact (IH c Hc) | reflexivity].
Qed.

(** a trimmed string neither starts nor ends with white space *)
Lemma trim_ends : forall s,
    forallb Props.notWhiteSpace (firstn 1 (trim s)) = true
    /\ forallb Props.notWhiteSpace (firstn 1 (rev (trim s))) = true.
Proof.
  intros s. unfold trim, trimEnd. rewrite rev_involutive.
  split; [|apply trimStart_head].
  pose proof (trimStart_head s) as H.
  destruct (trimStart s) as [|c r]; [reflexivity|].
  cbn [firstn forallb] in H. unfold Props.notWhiteSpace in H.
  rewrite andb_true_r in H. apply negb_true_iff in H.
  cbn [rev]. rewrite (trimStart_snoc (rev r) c H), rev_app_distr.
  cbn [rev app firstn forallb]. unfold Props.notWhiteSpace. rewrite H.
  reflexivity.
Qed.

Lemma trim_fixed : forall s,
    forallb Props.notWhiteSpace (firstn 1 s) = true ->
    forallb Props.notWhiteSpace (firstn 1 (rev s)) = true ->
    trim s = s.
Proof.
  intros s H1 H2. unfold trim, trimEnd.
  rewrite (trimStart_fixed s H1), (trimStart_fixed (rev s) H2).
  apply rev_involutive.
Qed.

Lemma filter_fixed {A} : forall (P : A -> bool) s,
    forallb P s = true -> filter P s = s.
Proof.
  intros P. induction s as [|c s IH]; intros H; [reflexivity|].
  cbn [forallb] in H. apply andb_prop in H. destruct H as [Hc Hs].
  cbn [filter]. rewrite Hc, (IH Hs). reflexivity.
Qed.

(** what the two clean-ups of a record's fields do to any text *)
Lemma cleaning_facts :
  (forall s,
      forallb Props.isDigitOrDot (Olx.cleanPrice s) = true
      /\ filter Props.isDigit (Olx.cleanPrice s) = filter Props.isDigit s
      /\ length (filter (N.eqb 46) (Olx.cleanPrice s))
         = length (filter (fun c => N.eqb c 46 || N.eqb c 44) s)
      /\ Olx.cleanPrice (Olx.cleanPrice s) = Olx.cleanPrice s)
  /\ (forall s,
         forallb Props.notLineFeed (Olx.cleanTitle s) = true
         /\ forallb Props.notWhiteSpace (firstn 1 (Olx.cleanTitle s)) = true
         /\ forallb Props.notWhiteSpace (firstn 1 (rev (Olx.cleanTitle s))) = true
         /\ Olx.cleanTitle (Olx.cleanTitle s) = Olx.cleanTitle s).
Proof.
  split.
  - intros s. split; [apply cleanPrice_chars|]. split; [|split].
    + unfold Olx.cleanPrice, Props.isDigit.
      induction s as [|c s IH]; [reflexivity|]. cbn [filter].
      destruct (digitValue c) as [v|] eqn:Ed.
      * cbn [map filter].
        destruct (N.eqb_spec c 44) as [->|_]; [discriminate|].
        rewrite Ed, IH. reflexivity.
      * destruct (N.eqb_spec c 46) as [->|H46]; cbn [orb].
        -- cbn [map filter N.eqb Pos.eqb digitValue]. exact IH.
        -- destruct (N.eqb_spec c 44) as [->|H44]; [|exact IH].
           cbn [map filter]. rewrite N.eqb_refl. exact IH.
    + unfold Olx.cleanPrice.
      induction s as [|c s IH]; [reflexivity|]. cbn [filter].
      destruct (digitValue c) as [v|] eqn:Ed.
      * destruct (N.eqb_spec c 46) as [->|H46]; [discriminate|].
        destruct (N.eqb_spec c 44) as [->|H44]; [discriminate|].
        cbn [map filter orb].
        destruct (N.eqb_spec c 44); [contradiction|].
        destruct (N.eqb_spec 46 c); [congruence|]. exact IH.
      * destruct (N.eqb_spec c 46) as [->|H46]; cbn [orb].
        -- cbn [map filter length N.eqb Pos.eqb]. rewrite IH. reflexivity.
        -- destruct (N.eqb_spec c 44) as [->|H44]; [|exact IH].
           cbn [map filter length N.eqb Pos.eqb]. rewrite IH. reflexivity.
    + pose proof (cleanPrice_chars s) as H.
      set (t := Olx.cleanPrice s) in *. clearbody t.
      unfold Olx.cleanPrice.
      induction t as [|c t IH]; [reflexivity|].
      cbn [forallb] in H. apply andb_prop in H. destruct H as [Hc Ht].
      unfold Props.isDigitOrDot, Props.isDigit in Hc. cbn [filter].
      destruct (digitValue c) as [v|] eqn:Ed.
      * cbn [map]. destruct (N.eqb_spec c 44) as [->|_]; [discriminate|].
        rewrite (IH Ht). reflexivity.
      * cbn [orb] in Hc. rewrite Hc. cbn [orb map].
        apply N.eqb_eq in Hc. subst c. cbn [N.eqb Pos.eqb].
        rewrite (IH Ht). reflexivity.
  - intros s.
    pose proof (cleanTitle_no_line_feed s) as Hlf.
    assert (Hends := trim_ends (filter (fun c => negb (N.eqb c 10)) s)).
    fold (Olx.cleanTitle s) in Hends. destruct Hends as [Hh Hl].
    split; [exact Hlf|]. split; [exact Hh|]. split; [exact Hl|].
    unfold Olx.cleanTitle at 1.
    rewrite (filter_fixed (fun c => negb (N.eqb c 10)) (Olx.cleanTitle s) Hlf).
    apply trim_fixed; assumption.
Qed.

(** what [trim] drops is white space at the two ends *)
Lemma trimStart_white : forall s,
    exists before,
      s = before ++ trimStart s /\ forallb isWhiteSpace before = true.
Proof.
  induction s as [|c s (before & Hs & Hw)]; [exists []; split; reflexivity|].
  cbn [trimStart]. destruct (isWhiteSpace c) eqn:E.
  - exists (c :: before). cbn [app forallb]. rewrite E, Hw, <- Hs.
    split; reflexivity.
  - exists []. split; reflexivity.
Qed.

Lemma trim_white : forall s,
    exists before after,
      s = before ++ trim s ++ after
      /\ forallb isWhiteSpace before = true
      /\ forallb isWhiteSpace after = true.
Proof.
  intros s. unfold trim, trimEnd.
  destruct (trimStart_white s) as (before & Hs & Hb).
  destruct (trimStart_white (rev (trimStart s))) as (tail & Hr & Ht).
  exists before, (rev tail). split; [|split].
  - rewrite Hs at 1. f_equal.
    rewrite <- (rev_involutive (trimStart s)), Hr at 1.
    rewrite rev_app_distr. reflexivity.
  - exact Hb.
  - rewrite forallb_rev. exact Ht.
Qed.

(** the title and the price of each record are the cleaned texts of its
    entry *)
Lemma parseOlxPageAds_loop_fields : forall env debugUrl ads i acc k recs done k',
    Olx.parseOlxPageAds_loop debugUrl i acc ads env k = (Ok (recs, done), k') ->
    exists new,
      recs = acc ++ new
      /\ Forall2 (fun ad a =>
                    Olx.price a = Olx.cleanPrice (Olx.priceStrongText ad)
                    /\ Olx.title a = Olx.cleanTitle (Olx.titleLinkText ad))
           (firstn (length new) ads) new.
Proof.
  intros env debugUrl.
  induction ads as [|ad ads IH]; intros i acc k recs done k' H.
  - cbn in H. injection H as <- <- <-. exists []. rewrite app_nil_r.
    split; [reflexivity | constructor].
  - cbn [Olx.parseOlxPageAds_loop] in H. unfold Olx.bind at 1 in H.
    destruct (Olx.parseOlxAdTime (Olx.clockText ad) env k) as [[[d|s]|e] k1];
      [| |discriminate].
    + unfold Olx.bind at 1 in H. unfold Olx.Date_now at 1 in H.
      destruct (Olx.isStale (Olx.clock env k1) d _).
      * injection H as <- <- <-. exists []. rewrite app_nil_r.
        split; [reflexivity | constructor].
      * destruct (IH _ _ _ _ _ _ H) as (new & -> & Hnew).
        eexists (_ :: new). rewrite <- app_assoc. split; [reflexivity|].
        cbn [length firstn]. constructor; [split; reflexivity | exact Hnew].
    + destruct (IH _ _ _ _ _ _ H) as (new & -> & Hnew).
      eexists (_ :: new). rewrite <- app_assoc. split; [reflexivity|].
      cbn [length firstn]. constructor; [split; reflexivity | exact Hnew].
Qed.

(** X6.  Whenever [parseOlxPageAds] returns, the price of each record has
    the digits of the price text of its entry, in their order, and apart
    from them only full stops, one for each full stop or comma of the text;
    the title of each record is the title text of its entry without its
    line feeds and without the white space at its two ends, so it has no
    line feed and neither starts nor ends with white space.  Cleaning the
    price or the title of a record again changes nothing. *)
Theorem parseOlxPageAds_price_title :
  forall env debugUrl ads k recs done k',
    Olx.parseOlxPageAds debugUrl ads env k = (Ok (recs, done), k') ->
    Forall2 (fun ad a =>
               let priceText := Olx.priceStrongText ad in
               let titleText := Olx.titleLinkText ad in
               (forallb Props.isDigitOrDot (Olx.price a) = true
                /\ filter Props.isDigit (Olx.price a)
                   = filter Props.isDigit priceText
                /\ length (filter (N.eqb 46) (Olx.price a))
                   = length (filter (fun c => N.eqb c 46 || N.eqb c 44) priceText)
                /\ Olx.cleanPrice (Olx.price a) = Olx.price a)
               /\ (exists before after,
                      filter Props.notLineFeed titleText
                      = before ++ Olx.title a ++ after
                      /\ forallb isWhiteSpace before = true
                      /\ forallb isWhiteSpace after = true)
               /\ forallb Props.notLineFeed (Olx.title a) = true
               /\ forallb Props.notWhiteSpace (firstn 1 (Olx.title a)) = true
               /\ forallb Props.notWhiteSpace (firstn 1 (rev (Olx.title a))) = true
               /\ Olx.cleanTitle (Olx.title a) = Olx.title a)
      (firstn (length recs) ads) recs.
Proof.
  intros env debugUrl ads k recs done k' H. unfold Olx.parseOlxPageAds in H.
  destruct (parseOlxPageAds_loop_fields env debugUrl ads 0 [] k recs done k' H)
    as (new & -> & Hnew).
  cbn [app]. eapply Forall2_impl; [|exact Hnew].
  intros ad a [Hprice Htitle]. cbv zeta. rewrite Hprice, Htitle.
  destruct cleaning_facts as [Hp Ht].
  split; [exact (Hp (Olx.priceStrongText ad))|].
  split; [|exact (Ht (Olx.titleLinkText ad))].
  unfold Olx.cleanTitle. apply trim_white.
Qed.

(** the two records of the sample page: the price text "350 000 zl" is kept
    as "350000" *)
Lemma parseOlxPageAds_price_title_witness :
  let recs := [Olx.makeAnnouncement Sample.listing 0 Sample.ad1
                 (Olx.toLocaleString (Some 1704877200000) true);
               Olx.makeAnnouncement Sample.listing 1 Sample.ad2
                 (Olx.rawText (js "w tym tygodniu"))] in
  Forall (fun a => Olx.price a = js "350000"
                   /\ filter Props.isDigit (Olx.price a)
                      = filter Props.isDigit (js "350 000 zl")) recs.
Proof.
  intros recs.
  pose proof (parseOlxPageAds_price_title (Sample.at_ Sample.t_2024_01_10_1030)
                Sample.listing [Sample.ad1; Sample.ad2; Sample.ad3; Sample.ad4]
                0%nat recs true 4%nat eq_refl) as H.
  cbn [length firstn recs] in H.
  inversion H as [|ad a ads' recs' (Hp1 & _) H' E1 E2]; subst.
  inversion H' as [|ad' a' ads'' recs'' (Hp2 & _) _ E3 E4]; subst.
  destruct Hp1 as (_ & Hd1 & _). destruct Hp2 as (_ & Hd2 & _).
  constructor; [split; [reflexivity | exact Hd1]|].
  constructor; [split; [reflexivity | exact Hd2]|]. constructor.
Defined.

(** ** The retry loop *)

Section RetryFacts.
Variable Page : Type.
Variable newPage : nat -> Page.
Variable goto : nat -> Scraper.GotoResult.
Variable serviceName : Scraper.SiteName.

Lemma loadPage_cases : forall attempt u,
    (goto attempt = Scraper.gotoStatus 200
     /\ Scraper.loadPage Page newPage goto attempt u = ([], Ok (newPage attempt)))
    \/ (goto attempt <> Scraper.gotoStatus 200
        /\ exists err, Scraper.loadPage Page newPage goto attempt u
                       = ([Scraper.page_close attempt], Throw err)).
Proof.
  intros attempt u. unfold Scraper.loadPage.
  destruct (goto attempt) as [err| |status];
    try (right; split; [discriminate | eexists; reflexivity]).
  destruct (Z.eqb_spec status 200) as [->|Hne].
  - left. split; reflexivity.
  - right. split; [congruence | eexists; reflexivity].
Qed.

Lemma backoff_eq : forall r,
    Z.of_nat (if (S r <? 15)%nat then S r else 15%nat) * 1000
    = Props.backoff (S r).
Proof.
  intros r. unfold Props.backoff.
  destruct (Nat.ltb_spec (S r) 15); f_equal; f_equal; lia.
Qed.

Lemma getPage_loop_unfold : forall clock timeout fuel u startTime retries k,
    Scraper.getPage_loop Page newPage goto clock timeout serviceName
      (S fuel) u startTime retries k
    = match Scraper.loadPage Page newPage goto retries u with
      | (ev, Ok page) => (ev, Scraper.Settled (Ok page))
      | (ev, Throw _) =>
          let r := Scraper.getPage_loop Page newPage goto clock timeout
                     serviceName fuel u startTime (S retries) (S k) in
          (ev ++ [Scraper.debug_SettingRetry serviceName (S retries)
                    (Props.backoff (S retries));
                  Scraper.sleep (Props.backoff (S retries))] ++ fst r,
           snd r)
      end.
Proof.
  intros clock timeout fuel u startTime retries k.
  cbn [Scraper.getPage_loop].
  destruct (Scraper.loadPage Page newPage goto retries u) as [ev [page|err]];
    [reflexivity|].
  rewrite backoff_eq.
  destruct (Scraper.getPage_loop Page newPage goto clock timeout serviceName
              fuel u startTime (S retries) (S k)) as [ev' r].
  reflexivity.
Qed.

(** the loop from attempt [r] on: a run of failed attempts, then a page or
    the end of the fuel *)
Lemma getPage_loop_trace : forall clock timeout fuel u startTime r k,
    exists m,
      (m <= fuel)%nat
      /\ fst (Scraper.getPage_loop Page newPage goto clock timeout serviceName
                fuel u startTime r k)
         = flat_map (Props.retryEvents serviceName) (seq r m)
      /\ (forall i, (r <= i < r + m)%nat -> goto i <> Scraper.gotoStatus 200)
      /\ ((snd (Scraper.getPage_loop Page newPage goto clock timeout serviceName
                  fuel u startTime r k)
           = Scraper.Settled (Ok (newPage (r + m)))
           /\ goto (r + m)%nat = Scraper.gotoStatus 200)
          \/ (snd (Scraper.getPage_loop Page newPage goto clock timeout
                     serviceName fuel u startTime r k)
              = Scraper.StillRetrying
              /\ m = fuel)).
Proof.
  intros clock timeout. induction fuel as [|fuel IH]; intros u startTime r k.
  - exists 0%nat. cbn. repeat split; try lia. right. split; reflexivity.
  - rewrite getPage_loop_unfold.
    destruct (loadPage_cases r u) as [[Hok ->] | [Hbad [err ->]]].
    + exists 0%nat. rewrite Nat.add_0_r. cbn [fst snd seq flat_map].
      repeat split; try lia. left. split; [reflexivity | exact Hok].
    + destruct (IH u startTime (S r) (S k)) as (m & Hm & Htr & Hfail & Hend).
      exists (S m). cbv zeta. cbn [fst snd seq flat_map].
      rewrite Htr. split; [lia|]. split; [reflexivity|]. split.
      * intros i Hi. destruct (Nat.eq_dec i r) as [->|Hne]; [exact Hbad|].
        apply Hfail. lia.
      * replace (r + S m)%nat with (S r + m)%nat by lia.
        destruct Hend as [Hend | [Hend ->]]; [left; exact Hend|].
        right. split; [exact Hend | reflexivity].
Qed.

(** the loop ends at the first attempt that loads *)
Lemma getPage_loop_first_success : forall clock timeout n fuel u startTime r k,
    (forall i, (r <= i < r + n)%nat -> goto i <> Scraper.gotoStatus 200) ->
    goto (r + n)%nat = Scraper.gotoStatus 200 ->
    (n < fuel)%nat ->
    Scraper.getPage_loop Page newPage goto clock timeout serviceName
      fuel u startTime r k
    = (flat_map (Props.retryEvents serviceName) (seq r n),
       Scraper.Settled (Ok (newPage (r + n)))).
Proof.
  intros clock timeout.
  induction n as [|n IH]; intros fuel u startTime r k Hfail Hok Hfuel;
    (destruct fuel as [|fuel]; [lia|]); rewrite getPage_loop_unfold.
  - rewrite Nat.add_0_r in *.
    destruct (loadPage_cases r u) as [[_ ->] | [Hbad _]]; [reflexivity|].
    contradiction.
  - destruct (loadPage_cases r u) as [[Hgood _] | [_ [err ->]]].
    + exfalso. apply (Hfail r); [lia | exact Hgood].
    + cbv zeta. rewrite (IH fuel u startTime (S r) (S k)).
      * cbn [fst snd seq flat_map]. replace (S r + n)%nat with (r + S n)%nat by lia.
        reflexivity.
      * intros i Hi. apply Hfail. lia.
      * replace (S r + n)%nat with (r + S n)%nat by lia. exact Hok.
      * lia.
Qed.

(** neither the clock nor the budget has any part in what the loop does *)
Lemma getPage_loop_ignores_time :
  forall clock timeout clock' timeout' fuel u startTime startTime' r k k',
    Scraper.getPage_loop Page newPage goto clock timeout serviceName
      fuel u startTime r k
    = Scraper.getPage_loop Page newPage goto clock' timeout' serviceName
        fuel u startTime' r k'.
Proof.
  intros clock timeout clock' timeout'.
  induction fuel as [|fuel IH]; intros u startTime startTime' r k k';
    [reflexivity|].
  rewrite !getPage_loop_unfold.
  destruct (Scraper.loadPage Page newPage goto r u) as [ev [page|err]];
    [reflexivity|].
  cbv zeta. rewrite (IH u startTime startTime' (S r) (S k) (S k')).
  reflexivity.
Qed.

End RetryFacts.

(** X7.  Whatever the server does and however long the loop is watched,
    what [getPage] has done is a run of failed attempts, each leaving its
    page closed, the retry logged and a sleep of as many seconds as the
    number of the retry, 15 at most; and it has then either returned the page
    of the first attempt that loaded, or is still retrying.  It never
    throws. *)
Theorem getPage_trace :
  forall Page newPage goto clock timeout site fuel u,
  exists failed,
    (failed <= fuel)%nat
    /\ fst (Scraper.getPage Page newPage goto clock timeout site fuel u)
       = flat_map (Props.retryEvents site) (seq 0 failed)
    /\ (forall i, (i < failed)%nat -> goto i <> Scraper.gotoStatus 200)
    /\ ((snd (Scraper.getPage Page newPage goto clock timeout site fuel u)
         = Scraper.Settled (Ok (newPage failed))
         /\ goto failed = Scraper.gotoStatus 200)
        \/ (snd (Scraper.getPage Page newPage goto clock timeout site fuel u)
            = Scraper.StillRetrying
            /\ failed = fuel)).
Proof.
  intros Page newPage goto clock timeout site fuel u. unfold Scraper.getPage.
  destruct (getPage_loop_trace Page newPage goto site clock timeout fuel u
              (clock 0%nat) 0 1) as (m & Hm & Htr & Hfail & Hend).
  exists m. split; [exact Hm|]. split; [exact Htr|]. split.
  - intros i Hi. apply Hfail. lia.
  - exact Hend.
Qed.

(** X8.  When the first [n] attempts fail and the next one loads, [getPage]
    returns the page of that attempt, whatever the number of attempts
    allowed beyond [n], having closed the [n] failed pages and slept
    [min(i, 15)] seconds after failure number [i]. *)
Theorem getPage_first_success :
  forall Page newPage goto clock timeout site n fuel u,
    (forall i, (i < n)%nat -> goto i <> Scraper.gotoStatus 200) ->
    goto n = Scraper.gotoStatus 200 ->
    (n < fuel)%nat ->
    Scraper.getPage Page newPage goto clock timeout site fuel u
    = (flat_map (Props.retryEvents site) (seq 0 n),
       Scraper.Settled (Ok (newPage n))).
Proof.
  intros Page newPage goto clock timeout site n fuel u Hfail Hok Hfuel.
  unfold Scraper.getPage.
  apply (getPage_loop_first_success Page newPage goto site clock timeout n
           fuel u (clock 0%nat) 0 1).
  - intros i Hi. apply Hfail. lia.
  - exact Hok.
  - exact Hfuel.
Qed.

(** two answers 503, then 200, watched for ten attempts *)
Lemma getPage_first_success_witness :
  Scraper.getPage nat (fun n => n) Sample.thirdTimeLucky Sample.hourly
    Sample.oneMinute Sample.olx 10 Sample.olxStart
  = (Props.retryEvents Sample.olx 0 ++ Props.retryEvents Sample.olx 1,
     Scraper.Settled (Ok 2%nat)).
Proof.
  apply (getPage_first_success nat (fun n => n) Sample.thirdTimeLucky
           Sample.hourly Sample.oneMinute Sample.olx 2 10 Sample.olxStart).
  - intros [|[|i]] Hi; [discriminate | discriminate | lia].
  - reflexivity.
  - lia.
Defined.

(** X9.  What [getPage] does and returns is the same for every clock and
    every value of [config.scrapeSiteTimeout]: the elapsed time and the
    budget have no effect. *)
Theorem getPage_ignores_clock_and_budget :
  forall Page newPage goto site fuel u clock timeout clock' timeout',
    Scraper.getPage Page newPage goto clock timeout site fuel u
    = Scraper.getPage Page newPage goto clock' timeout' site fuel u.
Proof.
  intros. unfold Scraper.getPage.
  apply getPage_loop_ignores_time.
Qed.

(** ** The crawl of one site, page by page *)

Section CrawlRefinement.
Variable W : Scraper.World.
Variable s : Scraper.SiteScraper W.

Lemma prepend_prepend {A} : forall ev ev' (r : list Scraper.Event * A),
    Scraper.prepend ev (Scraper.prepend ev' r) = Scraper.prepend (ev ++ ev') r.
Proof.
  intros ev ev' [tr x]. unfold Scraper.prepend. cbn. rewrite app_assoc.
  reflexivity.
Qed.

(** after the first page, the loop is the walk down its queue *)
Lemma getSiteOffers_loop_crawlQueue : forall rest u offers count fuel,
    (1 <= count)%nat -> (length rest < fuel)%nat ->
    Scraper.getSiteOffers_loop W fuel s
      {| Scraper.offers := offers; Scraper.pageUrl := u;
         Scraper.pending := rest; Scraper.scrapedPagesCount := count |}
    = Some (Props.crawlQueue W s offers count (u :: rest)).
Proof.
  induction rest as [|next rest IH]; intros u offers count fuel Hc Hfuel;
    (destruct fuel as [|fuel]; [cbn in Hfuel; lia|]);
    rewrite getSiteOffers_loop_S; unfold Scraper.iteration;
    cbn [Scraper.offers Scraper.pageUrl Scraper.pending Scraper.scrapedPagesCount
         Props.crawlQueue];
    destruct (Scraper.getPageOutcome W s count u) as [ev [page|err|]];
    try reflexivity;
    destruct (Scraper.getScraperPageAds W s (Scraper.getPageContent W page) page)
      as [[pageOffers isDone]|e|]; try reflexivity;
    replace (S count =? 1)%nat with false by (symmetry; apply Nat.eqb_neq; lia);
    rewrite andb_false_r.
  - destruct isDone; reflexivity.
  - destruct isDone; cbn [negb]; [reflexivity|].
    rewrite (IH next (offers ++ pageOffers) (S count) fuel) by (cbn in Hfuel; lia).
    reflexivity.
Qed.

(** the loop of [getSiteOffers] is the crawl page by page *)
Lemma getSiteOffers_is_crawlSite :
  Scraper.getSiteOffers W s = Props.crawlSite W s.
Proof.
  pose proof (getSiteOffers_total W s) as Htotal.
  assert (H : exists fuel,
             Scraper.getSiteOffers_loop W fuel s (Scraper.initial W s)
             = Some (Props.crawlSite W s)).
  { unfold Props.crawlSite. cbv zeta.
    destruct (Scraper.getPageOutcome W s 0
                (Scraper.config_urls W (Scraper.serviceName s)))
      as [ev [page|err|]] eqn:Eload;
      try (exists 1%nat; rewrite getSiteOffers_loop_S; unfold Scraper.iteration;
           cbn [Scraper.initial Scraper.offers Scraper.pageUrl Scraper.pending
                Scraper.scrapedPagesCount];
           rewrite Eload; reflexivity).
    destruct (Scraper.getScraperPageAds W s (Scraper.getPageContent W page) page)
      as [[pageOffers isDone]|e|] eqn:Eads;
      try (exists 1%nat; rewrite getSiteOffers_loop_S; unfold Scraper.iteration;
           cbn [Scraper.initial Scraper.offers Scraper.pageUrl Scraper.pending
                Scraper.scrapedPagesCount];
           rewrite Eload, Eads; reflexivity).
    destruct isDone.
    - exists 1%nat. rewrite getSiteOffers_loop_S. unfold Scraper.iteration.
      cbn [Scraper.initial Scraper.offers Scraper.pageUrl Scraper.pending
           Scraper.scrapedPagesCount].
      rewrite Eload, Eads. reflexivity.
    - set (next := Scraper.nextPages W s (Scraper.getPageContent W page)
                     (Scraper.config_urls W (Scraper.serviceName s))).
      exists (S (S (length next))). rewrite getSiteOffers_loop_S.
      unfold Scraper.iteration.
      cbn [Scraper.initial Scraper.offers Scraper.pageUrl Scraper.pending
           Scraper.scrapedPagesCount].
      rewrite Eload, Eads. cbn [negb andb app Nat.eqb]. fold next.
      destruct next as [|u rest]; [reflexivity|].
      rewrite getSiteOffers_loop_crawlQueue by (cbn [length]; lia).
      reflexivity. }
  destruct H as [fuel Hfuel].
  exact (getSiteOffers_loop_agree W s _ _ _ _ _ Htotal Hfuel).
Qed.

(** where an error value at the end of a walk down the queue comes from *)
Lemma crawlQueue_error : forall queue offers count result err,
    snd (Props.crawlQueue W s offers count queue)
    = Scraper.Fulfilled (result, Some err) ->
    exists n u ev,
      In u queue /\ Scraper.getPageOutcome W s n u = (ev, Scraper.Rejected err).
Proof.
  induction queue as [|u rest IH]; intros offers count result err H;
    [discriminate|].
  cbn [Props.crawlQueue] in H.
  destruct (Scraper.getPageOutcome W s count u) as [ev [page|e|]] eqn:Eload;
    cbn [snd] in H; [| |discriminate].
  - destruct (Scraper.getScraperPageAds W s (Scraper.getPageContent W page) page)
      as [[pageOffers isDone]|e|]; cbn [snd] in H; [|discriminate|discriminate].
    destruct isDone; [discriminate|].
    destruct (IH _ _ _ _ H) as (n & v & ev' & Hin & Hload).
    exists n, v, ev'. split; [right; exact Hin | exact Hload].
  - injection H as _ <-. exists count, u, ev. split; [left; reflexivity | exact Eload].
Qed.

Lemma crawlSite_error : forall result err,
    snd (Props.crawlSite W s) = Scraper.Fulfilled (result, Some err) ->
    let start := Scraper.config_urls W (Scraper.serviceName s) in
    exists n u ev,
      Scraper.getPageOutcome W s n u = (ev, Scraper.Rejected err)
      /\ (u = start
          \/ exists ev0 page,
               Scraper.getPageOutcome W s 0 start = (ev0, Scraper.Fulfilled page)
               /\ In u (Scraper.nextPages W s (Scraper.getPageContent W page) start)).
Proof.
  intros result err H start. unfold Props.crawlSite in H. cbv zeta in H.
  fold start in H.
  destruct (Scraper.getPageOutcome W s 0 start) as [ev [page|e|]] eqn:Eload;
    cbn [snd] in H; [| |discriminate].
  - destruct (Scraper.getScraperPageAds W s (Scraper.getPageContent W page) page)
      as [[pageOffers isDone]|e|]; cbn [snd] in H; [|discriminate|discriminate].
    destruct isDone; [discriminate|].
    destruct (crawlQueue_error _ _ _ _ _ H) as (n & u & ev' & Hin & Hload).
    exists n, u, ev'. split; [exact Hload|].
    right. exists ev, page. split; [reflexivity | exact Hin].
  - injection H as _ <-. exists 0%nat, start, ev.
    split; [exact Eload | left; reflexivity].
Qed.

End CrawlRefinement.

(** X10.  [getSiteOffers] is the crawl page by page: it loads and extracts
    the start page, then, unless that page was the end, the pages the start
    page links to, in their order and each once, until a page is the end, a
    page fails, or the list is used up; what it returns is the offers of
    the pages read, in that order. *)
Theorem getSiteOffers_page_by_page : forall W (s : Scraper.SiteScraper W),
    Scraper.getSiteOffers W s = Props.crawlSite W s
    /\ forall fuel, (Scraper.crawlFuel W s <= fuel)%nat ->
                    Scraper.getSiteOffers_loop W fuel s (Scraper.initial W s)
                    = Some (Props.crawlSite W s).
Proof.
  intros W s. split; [apply getSiteOffers_is_crawlSite|].
  intros fuel Hfuel. rewrite <- getSiteOffers_is_crawlSite.
  exact (getSiteOffers_loop_more W s _ _ _ (getSiteOffers_total W s) fuel Hfuel).
Qed.

Lemma getSiteOffers_page_by_page_witness :
  Scraper.getSiteOffers_loop Sample.worldNormal 7
    (Sample.scraperWith Sample.lastPage Sample.olx)
    (Scraper.initial Sample.worldNormal
       (Sample.scraperWith Sample.lastPage Sample.olx))
  = Some ([Scraper.info_ScrapedPagesCount Sample.olx 2],
          Scraper.Fulfilled ([Sample.offer1], None)).
Proof.
  apply (proj2 (getSiteOffers_page_by_page Sample.worldNormal
                  (Sample.scraperWith Sample.lastPage Sample.olx)) 7%nat).
  vm_compute. lia.
Defined.

(** X11.  An error value that [getSiteOffers] returns beside the offers is
    always the error thrown by the load of a page, the start page or one of
    the pages the start page links to: no other failure is turned into a
    returned error. *)
Theorem getSiteOffers_returned_error :
  forall W (s : Scraper.SiteScraper W) offers err,
    snd (Scraper.getSiteOffers W s) = Scraper.Fulfilled (offers, Some err) ->
    let start := Scraper.config_urls W (Scraper.serviceName s) in
    exists n u ev,
      Scraper.getPageOutcome W s n u = (ev, Scraper.Rejected err)
      /\ (u = start
          \/ exists ev0 page,
               Scraper.getPageOutcome W s 0 start = (ev0, Scraper.Fulfilled page)
               /\ In u (Scraper.nextPages W s (Scraper.getPageContent W page) start)).
Proof.
  intros W s offers err H. rewrite getSiteOffers_is_crawlSite in H.
  exact (crawlSite_error W s offers err H).
Qed.

Lemma getSiteOffers_returned_error_witness :
  exists n u ev,
    Scraper.getPageOutcome Sample.worldLoadFailure
      (Sample.scraperWith Sample.lastPage Sample.olx) n u
    = (ev, Scraper.Rejected Sample.loadError)
    /\ (u = Sample.olxStart
        \/ exists ev0 page,
             Scraper.getPageOutcome Sample.worldLoadFailure
               (Sample.scraperWith Sample.lastPage Sample.olx) 0 Sample.olxStart
             = (ev0, Scraper.Fulfilled page)
             /\ In u (Scraper.nextPages Sample.worldLoadFailure
                        (Sample.scraperWith Sample.lastPage Sample.olx)
                        (Scraper.getPageContent Sample.worldLoadFailure page)
                        Sample.olxStart)).
Proof.
  apply (getSiteOffers_returned_error Sample.worldLoadFailure
           (Sample.scraperWith Sample.lastPage Sample.olx)
           [Sample.offer1] Sample.loadError).
  reflexivity.
Defined.

(** X12.  When the start page loads and is the end of the listing, or links
    to no further page, [getSiteOffers] loads that one page only: it returns
    the offers of the page with no error, and logs a page count of 1. *)
Theorem getSiteOffers_single_page :
  forall W (s : Scraper.SiteScraper W) ev page pageOffers isDone,
    let start := Scraper.config_urls W (Scraper.serviceName s) in
    Scraper.getPageOutcome W s 0 start = (ev, Scraper.Fulfilled page) ->
    Scraper.getScraperPageAds W s (Scraper.getPageContent W page) page
    = Scraper.Fulfilled (pageOffers, isDone) ->
    isDone = true
    \/ Scraper.nextPages W s (Scraper.getPageContent W page) start = [] ->
    Scraper.getSiteOffers W s
    = (ev ++ [Scraper.info_ScrapedPagesCount (Scraper.serviceName s) 1],
       Scraper.Fulfilled (pageOffers, None)).
Proof.
  intros W s ev page pageOffers isDone start Hload Hads Hend.
  rewrite getSiteOffers_is_crawlSite. unfold Props.crawlSite. cbv zeta.
  fold start. rewrite Hload, Hads.
  destruct isDone; [reflexivity|].
  destruct Hend as [Habs | ->]; [discriminate|]. reflexivity.
Qed.

Lemma getSiteOffers_single_page_witness :
  Scraper.getSiteOffers Sample2.worldDone (Sample2.scraperDone Sample.olx)
  = ([Scraper.info_ScrapedPagesCount Sample.olx 1],
     Scraper.Fulfilled ([Sample.offer1], None)).
Proof.
  apply (getSiteOffers_single_page Sample2.worldDone
           (Sample2.scraperDone Sample.olx) [] 0%nat [Sample.offer1] true).
  - reflexivity.
  - reflexivity.
  - left; reflexivity.
Defined.

(** ** Saving and validating *)

Lemma validateOffers_events : forall W offers name x,
    In x (Scraper.validateOffers W offers name) ->
    x = Scraper.warn_MissingData name.
Proof.
  intros W offers name x. unfold Scraper.validateOffers.
  destruct (Scraper.config_isDev W); [|intros []].
  destruct (0 <? length _)%nat; [|intros []].
  intros [<-|[]]. reflexivity.
Qed.

Lemma isEmpty_nil : forall s, Scraper.isEmpty s = true <-> s = [].
Proof. intros [|c s]; cbn; split; congruence. Qed.

Lemma missingData_lacksField : forall x,
    Scraper.missingData x = true <-> Props.lacksField x.
Proof.
  intros x. unfold Scraper.missingData, Props.lacksField.
  rewrite !orb_true_iff, !isEmpty_nil. tauto.
Qed.

(** X13.  [validateOffers] logs one warning when the configuration is the
    development one and some offer has an empty id, title, price, url, date
    or image url, and nothing otherwise. *)
Theorem validateOffers_warns : forall W offers name,
    (Scraper.config_isDev W = true /\ Exists Props.lacksField offers ->
     Scraper.validateOffers W offers name = [Scraper.warn_MissingData name])
    /\ (Scraper.config_isDev W = false \/ Forall (fun x => ~ Props.lacksField x) offers ->
        Scraper.validateOffers W offers name = []).
Proof.
  intros W offers name. unfold Scraper.validateOffers.
  split.
  - intros [-> Hex].
    assert (H : filter Scraper.missingData offers <> []).
    { apply Exists_exists in Hex. destruct Hex as (x & Hin & Hx).
      intros E. assert (Hin' : In x (filter Scraper.missingData offers)).
      { apply filter_In. split; [exact Hin|]. apply missingData_lacksField; exact Hx. }
      rewrite E in Hin'. exact Hin'. }
    destruct (filter Scraper.missingData offers); [congruence|]. reflexivity.
  - intros [-> | Hall]; [reflexivity|].
    destruct (Scraper.config_isDev W); [|reflexivity].
    assert (H : filter Scraper.missingData offers = []).
    { induction Hall as [|x l Hx _ IH]; [reflexivity|].
      cbn [filter]. destruct (Scraper.missingData x) eqn:E; [|exact IH].
      exfalso. apply Hx. apply missingData_lacksField. exact E. }
    rewrite H. reflexivity.
Qed.

Lemma validateOffers_warns_witness :
  Scraper.validateOffers Sample2.worldDiskFull
    [Sample.offer1; Sample2.offerNoPrice] Sample.olx
  = [Scraper.warn_MissingData Sample.olx]
  /\ Scraper.validateOffers Sample2.worldDiskFull [Sample.offer1] Sample.olx = [].
Proof.
  split.
  - apply (proj1 (validateOffers_warns Sample2.worldDiskFull
                    [Sample.offer1; Sample2.offerNoPrice] Sample.olx)).
    split; [reflexivity|].
    apply Exists_cons_tl. apply Exists_cons_hd.
    right; right; left; reflexivity.
  - apply (proj2 (validateOffers_warns Sample2.worldDiskFull
                    [Sample.offer1] Sample.olx)).
    right. constructor; [|constructor].
    intros [H|[H|[H|[H|[H|H]]]]]; discriminate.
Defined.

(** X14.  After the crawl, [scrapeSiteOffers] is fulfilled exactly when it
    has written the file, and the file holds the offers the crawl returned.
    When making the directory or writing the file fails, the error is
    logged, no file is written and the call rejects with that error; no
    other error is logged as a failure to save.  A crawl that throws or
    never settles is passed on with nothing saved and nothing logged. *)
Theorem scrapeSiteOffers_contract : forall W site,
    let crawl := Scraper.getSiteOffers W (Scraper.makeSiteScraper W site) in
    let name := Scraper.serviceName (Scraper.makeSiteScraper W site) in
    exists after,
      fst (Scraper.scrapeSiteOffers W site) = fst crawl ++ after
      /\ (snd (Scraper.scrapeSiteOffers W site) = Scraper.Fulfilled tt
          <-> exists offers, In (Scraper.fileWritten name offers) after)
      /\ (forall n offers,
             In (Scraper.fileWritten n offers) after ->
             n = name /\ exists err, snd crawl = Scraper.Fulfilled (offers, err))
      /\ (forall offers err e,
             snd crawl = Scraper.Fulfilled (offers, err) ->
             Scraper.ensurePathExists W name = Throw e
             \/ (Scraper.ensurePathExists W name = Ok tt
                 /\ Scraper.writeFile W name offers = Throw e) ->
             In (Scraper.error_FailToSave name e) after
             /\ snd (Scraper.scrapeSiteOffers W site) = Scraper.Rejected e)
      /\ (forall n e,
             In (Scraper.error_FailToSave n e) after ->
             n = name /\ snd (Scraper.scrapeSiteOffers W site) = Scraper.Rejected e)
      /\ ((forall offers err, snd crawl <> Scraper.Fulfilled (offers, err)) ->
          after = []
          /\ snd (Scraper.scrapeSiteOffers W site)
             = match snd crawl with
               | Scraper.Rejected e => Scraper.Rejected e
               | _ => Scraper.Pending
               end).
Proof.
  intros W site crawl name. unfold Scraper.scrapeSiteOffers.
  fold crawl. fold name.
  destruct crawl as [ev [[offers err]|e|]]; cbn [fst snd].
  - unfold Scraper.saveSiteOffers.
    destruct (Scraper.ensurePathExists W name) as [[]|e1] eqn:Edir.
    + destruct (Scraper.writeFile W name offers) as [[]|e2] eqn:Efile.
      * exists ([Scraper.info_AboutToSave name; Scraper.fileWritten name offers]
                  ++ Scraper.validateOffers W offers name
                  ++ [Scraper.info_NumberOfOffers name (length offers)]).
        cbn [fst snd app]. split; [reflexivity|].
        split; [split; [intros _; exists offers; right; left; reflexivity
                       | reflexivity]|].
        split.
        { intros n o [H|[H|H]]; try discriminate.
          - injection H as <- <-. split; [reflexivity | eauto].
          - apply in_app_or in H. destruct H as [H|[H|[]]]; [|discriminate].
            apply validateOffers_events in H. discriminate. }
        split.
        { intros o er e0 Hc [He|[_ Hw]]; [discriminate|].
          injection Hc as <- _. rewrite Efile in Hw. discriminate. }
        split.
        { intros n e [H|[H|H]]; try discriminate.
          apply in_app_or in H. destruct H as [H|[H|[]]]; [|discriminate].
          apply validateOffers_events in H. discriminate. }
        intros Habs. exfalso. exact (Habs offers err eq_refl).
      * eexists. cbn [fst snd]. split; [reflexivity|].
        split; [split; [discriminate | intros [o [H|[H|[]]]]; discriminate]|].
        split; [intros n o [H|[H|[]]]; discriminate|].
        split.
        { intros o er e0 Hc [He|[_ Hw]]; [discriminate|].
          injection Hc as <- _. rewrite Efile in Hw. injection Hw as <-.
          split; [right; left; reflexivity | reflexivity]. }
        split.
        { intros n e [H|[H|[]]]; [discriminate|].
          injection H as <- <-. split; reflexivity. }
        intros Habs. exfalso. exact (Habs offers err eq_refl).
    + eexists. cbn [fst snd]. split; [reflexivity|].
      split; [split; [discriminate | intros [o [H|[]]]; discriminate]|].
      split; [intros n o [H|[]]; discriminate|].
      split.
      { intros o er e0 Hc [He|[Hd _]]; [|discriminate].
        injection He as <-. split; [left; reflexivity | reflexivity]. }
      split.
      { intros n e [H|[]]. injection H as <- <-. split; reflexivity. }
      intros Habs. exfalso. exact (Habs offers err eq_refl).
  - exists []. rewrite app_nil_r. split; [reflexivity|].
    split; [split; [discriminate | intros [o []]]|].
    split; [intros n o []|].
    split; [intros o er e0 Hc; discriminate|].
    split; [intros n e' []|].
    intros _. split; reflexivity.
  - exists []. rewrite app_nil_r. split; [reflexivity|].
    split; [split; [discriminate | intros [o []]]|].
    split; [intros n o []|].
    split; [intros o er e0 Hc; discriminate|].
    split; [intros n e' []|].
    intros _. split; reflexivity.
Qed.

(** with the disk full, the crawl of olx is logged as not saved and
    rejects *)
Lemma scrapeSiteOffers_contract_witness :
  exists after,
    fst (Scraper.scrapeSiteOffers Sample2.worldDiskFull Sample.olx)
    = fst (Scraper.getSiteOffers Sample2.worldDiskFull
             (Scraper.makeSiteScraper Sample2.worldDiskFull Sample.olx)) ++ after
    /\ In (Scraper.error_FailToSave Sample.olx Sample2.diskFull) after
    /\ snd (Scraper.scrapeSiteOffers Sample2.worldDiskFull Sample.olx)
       = Scraper.Rejected Sample2.diskFull.
Proof.
  destruct (scrapeSiteOffers_contract Sample2.worldDiskFull Sample.olx)
    as (after & Hev & _ & _ & Hfail & _).
  exists after. split; [exact Hev|].
  apply (Hfail [Sample.offer1] None Sample2.diskFull).
  - reflexivity.
  - right. split; reflexivity.
Defined.

(** ** The orchestrator, whatever the crawls do *)

Lemma pairs_cons2 {A} : forall (a b : A) l,
    Spec.pairs (a :: b :: l) = [a; b] :: Spec.pairs l.
Proof. reflexivity. Qed.

(** a number of leading pairs is a leading part of the list *)
Lemma concat_firstn_pairs {A} : forall n (l : list A),
    exists m, concat (firstn n (Spec.pairs l)) = firstn m l.
Proof.
  induction n as [|n IH]; intros l.
  - exists 0%nat. reflexivity.
  - destruct l as [|a [|b l]].
    + exists 0%nat. reflexivity.
    + exists 1%nat. cbn [Spec.pairs firstn concat]. rewrite firstn_nil.
      reflexivity.
    + destruct (IH l) as [m Hm]. exists (S (S m)).
      rewrite pairs_cons2. cbn [firstn concat app]. rewrite Hm. reflexivity.
Qed.

Lemma firstn_firstn_length {A} : forall m (l : list A),
    firstn (length (firstn m l)) l = firstn m l.
Proof.
  intros m l. rewrite length_firstn.
  destruct (Nat.le_ge_cases m (length l)) as [H|H].
  - rewrite Nat.min_l by exact H. reflexivity.
  - rewrite Nat.min_r by exact H. rewrite !firstn_all2 by lia. reflexivity.
Qed.

Section OrchestratorAlways.
Variable W : Scraper.World.

Lemma afterBatch_cases : forall promises continue,
    (Scraper.Promise_all promises = Scraper.allFulfilled
     /\ Scraper.afterBatch promises continue
        = option_map (fun r : Scraper.Run => (promises :: fst r, snd r)) continue)
    \/ (exists ending,
           ending <> Scraper.completed
           /\ Scraper.afterBatch promises continue = Some ([promises], ending)).
Proof.
  intros promises continue. unfold Scraper.afterBatch.
  destruct (Scraper.Promise_all promises).
  - left. split; reflexivity.
  - right. eexists. split; [|reflexivity]. discriminate.
  - right. eexists. split; [|reflexivity]. discriminate.
Qed.

(** the loop of the later revision always ends; it has then started some
    number of leading pairs, and all of them if it completed *)
Lemma scrapeOffers_loop_always : forall fuel sites i,
    (length (skipn i sites) < fuel)%nat ->
    exists n ending,
      Scraper.scrapeOffers_loop W fuel sites i
      = Some (map (map (Scraper.startOffers W))
                (firstn n (Spec.pairs (skipn i sites))), ending)
      /\ (ending = Scraper.completed ->
          firstn n (Spec.pairs (skipn i sites)) = Spec.pairs (skipn i sites)).
Proof.
  induction fuel as [|fuel IH]; intros sites i Hfuel; [lia|].
  rewrite scrapeOffers_loop_S. unfold Spec.batchAt.
  specialize (IH sites (S (S i))). rewrite skipn_SS in IH.
  destruct (skipn i sites) as [|a l].
  - exists 0%nat, Scraper.completed. split; reflexivity.
  - destruct (afterBatch_cases (map (Scraper.startOffers W) (firstn 2 (a :: l)))
                (Scraper.scrapeOffers_loop W fuel sites (S (S i))))
      as [[_ ->] | (ending & Hne & ->)].
    + destruct IH as (n & ending & -> & Hall).
      { destruct l as [|b l]; cbn [skipn length] in *; lia. }
      exists (S n), ending. cbn [option_map fst snd].
      destruct l as [|b l].
      * cbn [skipn Spec.pairs firstn map] in *. rewrite firstn_nil.
        split; reflexivity.
      * cbn [skipn] in *. rewrite pairs_cons2. cbn [firstn map].
        split; [reflexivity|]. intros E. rewrite (Hall E). reflexivity.
    + exists 1%nat, ending. split; [|intros E; contradiction].
      destruct l as [|b l]; reflexivity.
Qed.

End OrchestratorAlways.

(** X15.  Whatever the crawls do, the loop of [scrapeOffers] makes at most
    one pass for each pair of sites and then has completed, has thrown, or
    waits for a batch for ever: the batches it has started are leading pairs
    of the site list, so each holds one or two crawls, and the sites started
    are a leading part of the list, each once and in list order; when the
    run completes they are the whole list. *)
Theorem scrapeOffers_always : forall W sites,
    exists run,
      Scraper.scrapeOffers W sites = Some run
      /\ (exists n, fst run = map (map (Scraper.startOffers W))
                                (firstn n (Spec.pairs sites)))
      /\ Forall (fun batch => (1 <= length batch <= 2)%nat) (fst run)
      /\ Scraper.started run = firstn (length (Scraper.started run)) sites
      /\ (snd run = Scraper.completed -> Scraper.started run = sites).
Proof.
  intros W sites. unfold Scraper.scrapeOffers.
  destruct (scrapeOffers_loop_always W (S (length sites)) sites 0)
    as (n & ending & Hrun & Hall); [cbn [skipn]; lia|].
  cbn [skipn] in *. eexists. split; [exact Hrun|]. cbn [fst snd].
  split; [exists n; reflexivity|]. split; [|split].
  - rewrite Forall_map.
    assert (H : Forall (fun batch : list Scraper.SiteName =>
                          (1 <= length batch <= 2)%nat) (Spec.pairs sites))
      by (apply (pairs_at_most_two (length sites)); lia).
    rewrite Forall_forall in *. intros batch Hb. rewrite length_map.
    apply H. rewrite <- (firstn_skipn n (Spec.pairs sites)).
    apply in_or_app. left; exact Hb.
  - rewrite started_batches.
    destruct (concat_firstn_pairs n sites) as [m ->].
    symmetry. apply firstn_firstn_length.
  - intros E. rewrite started_batches, (Hall E).
    apply (concat_pairs (length sites)). lia.
Qed.

Section OrchestratorMore.
Variable W : Scraper.World.

Lemma scrapeAnnouncements_loop_S : forall fuel sites i,
    Scraper.scrapeAnnouncements_loop W (S fuel) sites i
    = match skipn i sites with
      | [] => Some ([], Scraper.completed)
      | _ :: _ =>
          Scraper.afterBatch (Spec.batchAt (Scraper.startAnnouncements W) sites i)
            (Scraper.scrapeAnnouncements_loop W fuel sites (S i))
      end.
Proof.
  intros fuel sites i. cbn [Scraper.scrapeAnnouncements_loop].
  unfold Spec.batchAt. rewrite (skipn_nth_error sites i).
  destruct (nth_error sites i) as [a|]; [|reflexivity].
  rewrite (skipn_nth_error sites (S i)).
  destruct (nth_error sites (S i)) as [b|]; reflexivity.
Qed.

Lemma skipn_S : forall (sites : list Scraper.SiteName) i,
    skipn (S i) sites = skipn 1 (skipn i sites).
Proof. intros sites i. rewrite skipn_skipn. reflexivity. Qed.

(** the loop of the older revision moves on by one site per batch *)
Lemma scrapeAnnouncements_loop_windows : forall fuel sites i,
    Forall (Props.fulfilsOld W) (skipn i sites) ->
    (length (skipn i sites) < fuel)%nat ->
    Scraper.scrapeAnnouncements_loop W fuel sites i
    = Some (map (map (Scraper.startAnnouncements W))
              (Props.windows (skipn i sites)),
            Scraper.completed).
Proof.
  induction fuel as [|fuel IH]; intros sites i Hall Hfuel; [lia|].
  rewrite scrapeAnnouncements_loop_S. unfold Spec.batchAt.
  specialize (IH sites (S i)). rewrite skipn_S in IH.
  destruct (skipn i sites) as [|a l]; [reflexivity|].
  unfold Scraper.afterBatch. rewrite Promise_all_fulfilled.
  - cbn [skipn] in IH. rewrite IH.
    + destruct l as [|b l]; reflexivity.
    + inversion Hall; assumption.
    + cbn [length] in Hfuel. lia.
  - rewrite Forall_forall in *. intros r Hr.
    apply in_map_iff in Hr. destruct Hr as (site & <- & Hin).
    apply Hall. destruct l as [|b l]; cbn in Hin |- *; intuition.
Qed.

Lemma concat_windows {A} : forall (a : A) rest,
    concat (Props.windows (a :: rest))
    = a :: flat_map (fun x => [x; x]) rest.
Proof.
  intros a rest. revert a. induction rest as [|b rest IH]; intros a.
  - reflexivity.
  - change (Props.windows (a :: b :: rest))
      with ([a; b] :: Props.windows (b :: rest)).
    cbn [concat app flat_map]. rewrite IH. reflexivity.
Qed.

Lemma started_batches_old : forall (batches : list (list Scraper.SiteName)) ending,
    Scraper.started (map (map (Scraper.startAnnouncements W)) batches, ending)
    = concat batches.
Proof.
  intros batches ending. unfold Scraper.started. cbn [fst].
  rewrite <- concat_map, map_map.
  induction (concat batches) as [|x l IH]; [reflexivity|].
  cbn [map]. rewrite IH. reflexivity.
Qed.

(** a start page that never loads makes a crawl that never settles *)
Lemma neverLoads_pending : forall site,
    Props.neverLoads W site ->
    Scraper.isFulfilled (Scraper.startOffers W site) = false
    /\ Scraper.rejection (Scraper.startOffers W site) = [].
Proof.
  intros site [ev Hload].
  unfold Scraper.isFulfilled, Scraper.rejection, Scraper.startOffers,
    Scraper.prepend, Scraper.scrapeSiteOffers.
  rewrite getSiteOffers_is_crawlSite. unfold Props.crawlSite. cbv zeta.
  rewrite Hload. split; reflexivity.
Qed.

(** the loop stops at the first pair that does not settle *)
Lemma scrapeOffers_loop_hangs : forall k fuel sites i,
    Forall (Spec.fulfils W) (firstn (2 * k) (skipn i sites)) ->
    Scraper.Promise_all
      (map (Scraper.startOffers W) (firstn 2 (skipn (2 * k) (skipn i sites))))
    = Scraper.neverSettles ->
    (length (skipn i sites) < fuel)%nat ->
    Scraper.scrapeOffers_loop W fuel sites i
    = Some (map (map (Scraper.startOffers W))
              (Spec.pairs (firstn (2 * k + 2) (skipn i sites))),
            Scraper.hangs).
Proof.
  induction k as [|k IH]; intros fuel sites i Hall Hhang Hfuel;
    (destruct fuel as [|fuel]; [lia|]);
    rewrite scrapeOffers_loop_S; unfold Spec.batchAt.
  - cbn [Nat.mul skipn Nat.add] in *.
    destruct (skipn i sites) as [|a l]; [discriminate|].
    unfold Scraper.afterBatch. rewrite Hhang.
    destruct l as [|b l]; reflexivity.
  - replace (2 * S k)%nat with (S (S (2 * k))) in * by lia.
    specialize (IH fuel sites (S (S i))). rewrite skipn_SS in IH.
    destruct (skipn i sites) as [|a [|b l]].
    + discriminate.
    + cbn [skipn firstn map] in Hhang. discriminate.
    + cbn [skipn firstn] in *.
      unfold Scraper.afterBatch. rewrite Promise_all_fulfilled.
      * rewrite IH.
        -- replace (S (S (2 * k)) + 2)%nat with (S (S (2 * k + 2))) by lia.
           reflexivity.
        -- inversion Hall as [|? ? _ Hl]. inversion Hl. assumption.
        -- exact Hhang.
        -- cbn [length] in Hfuel. lia.
      * inversion Hall as [|? ? Ha Hl]. inversion Hl as [|? ? Hb _].
        constructor; [exact Ha|]. constructor; [exact Hb|]. constructor.
Qed.

End OrchestratorMore.

(** X16.  In the older revision, when every crawl is fulfilled,
    [scrapeAnnouncements] runs as many batches as there are sites, each of a
    site and the one after it, the last site alone: every site but the first
    is crawled twice, [2n - 1] crawls for [n] sites. *)
Theorem scrapeAnnouncements_windows : forall W sites,
    Forall (Props.fulfilsOld W) sites ->
    exists run,
      Scraper.scrapeAnnouncements W sites = Some run
      /\ run = (map (map (Scraper.startAnnouncements W)) (Props.windows sites),
                Scraper.completed)
      /\ length (fst run) = length sites
      /\ Scraper.started run
         = match sites with
           | [] => []
           | first :: rest => first :: flat_map (fun site => [site; site]) rest
           end.
Proof.
  intros W sites Hall.
  exists (map (map (Scraper.startAnnouncements W)) (Props.windows sites),
          Scraper.completed).
  split; [|split; [reflexivity|split]].
  - unfold Scraper.scrapeAnnouncements.
    apply (scrapeAnnouncements_loop_windows W (S (length sites)) sites 0).
    + exact Hall.
    + cbn [skipn]. lia.
  - cbn [fst]. rewrite length_map. clear Hall.
    induction sites as [|a l IH]; [reflexivity|]. cbn [Props.windows length].
    rewrite IH. reflexivity.
  - rewrite started_batches_old. destruct sites as [|a rest]; [reflexivity|].
    apply concat_windows.
Qed.

Lemma scrapeAnnouncements_windows_witness :
  exists run,
    Scraper.scrapeAnnouncements Sample.worldNormal Sample2.olxLast = Some run
    /\ length (fst run) = 5%nat
    /\ Scraper.started run
       = [Sample.otodom; Sample.gratka; Sample.gratka; Sample.olx; Sample.olx;
          Sample.gratka; Sample.gratka; Sample.otodom; Sample.otodom].
Proof.
  destruct (scrapeAnnouncements_windows Sample.worldNormal Sample2.olxLast)
    as (run & Hrun & _ & Hlen & Hstarted).
  - repeat constructor.
  - exists run. split; [exact Hrun|]. split; [exact Hlen | exact Hstarted].
Defined.

(** X17.  When the start page of a site of pair number [k] never loads,
    its sibling is fulfilled or never loads either, and the crawls of the
    pairs before are fulfilled, [scrapeOffers] never returns: it has started
    the sites of the first [k + 1] pairs and waits for that pair for ever, so
    no site of a later pair is crawled. *)
Theorem scrapeOffers_hangs : forall W sites k,
    Forall (Spec.fulfils W) (firstn (2 * k) sites) ->
    Forall (fun site => Spec.fulfils W site \/ Props.neverLoads W site)
      (firstn 2 (skipn (2 * k) sites)) ->
    Exists (Props.neverLoads W) (firstn 2 (skipn (2 * k) sites)) ->
    exists run,
      Scraper.scrapeOffers W sites = Some run
      /\ snd run = Scraper.hangs
      /\ Scraper.started run = firstn (2 * k + 2) sites.
Proof.
  intros W sites k Hbefore Hpair Hdown.
  exists (map (map (Scraper.startOffers W))
            (Spec.pairs (firstn (2 * k + 2) sites)),
          Scraper.hangs).
  split; [|split; [reflexivity|]].
  - unfold Scraper.scrapeOffers.
    apply (scrapeOffers_loop_hangs W k (S (length sites)) sites 0).
    + exact Hbefore.
    + cbn [skipn]. unfold Scraper.Promise_all.
      set (pair := firstn 2 (skipn (2 * k) sites)) in *. clearbody pair.
      assert (Hrej : flat_map Scraper.rejection (map (Scraper.startOffers W) pair) = []).
      { clear Hdown. induction Hpair as [|site l Hs _ IH]; [reflexivity|].
        cbn [map flat_map]. rewrite IH, app_nil_r.
        destruct Hs as [Hf | Hn].
        - apply fulfilled_no_rejection. exact Hf.
        - exact (proj2 (neverLoads_pending W site Hn)). }
      rewrite Hrej.
      assert (Hnot : forallb Scraper.isFulfilled (map (Scraper.startOffers W) pair)
                     = false).
      { clear Hpair Hrej. induction Hdown as [site l Hn | site l _ IH].
        - cbn [map forallb]. rewrite (proj1 (neverLoads_pending W site Hn)).
          reflexivity.
        - cbn [map forallb]. rewrite IH. apply andb_false_r. }
      rewrite Hnot. reflexivity.
    + cbn [skipn]. lia.
  - rewrite started_batches.
    apply (concat_pairs (length (firstn (2 * k + 2) sites))). lia.
Qed.

(** olx is third of five sites and never answers: otodom and gratka are
    crawled, then olx with gratka, and the fifth site never *)
Lemma scrapeOffers_hangs_witness :
  exists run,
    Scraper.scrapeOffers Sample2.worldOlxDown Sample2.olxLast = Some run
    /\ snd run = Scraper.hangs
    /\ Scraper.started run
       = [Sample.otodom; Sample.gratka; Sample.olx; Sample.gratka].
Proof.
  apply (scrapeOffers_hangs Sample2.worldOlxDown Sample2.olxLast 1).
  - repeat constructor.
  - constructor; [right; exists []; reflexivity|].
    constructor; [left; reflexivity | constructor].
  - apply Exists_cons_hd. exists []; reflexivity.
Defined.

(** ** The OLX crawl *)

Lemma wellFormed_stamp : forall u recs,
    forallb (Props.wellFormed u) recs = true ->
    Forall (fun a => Props.stamp a = u) recs.
Proof.
  intros u recs H. apply Forall_forall. intros a Ha.
  rewrite forallb_forall in H. specialize (H a Ha).
  unfold Props.wellFormed in H.
  apply andb_prop in H. destruct H as [H _].
  apply andb_prop in H. destruct H as [H _].
  apply andb_prop in H. destruct H as [H _].
  unfold JSString.eqb in H.
  destruct (list_eq_dec N.eq_dec (Olx.url_ (Olx._debugInfo a)) u);
    [assumption | discriminate].
Qed.

Section OlxCrawlFacts.
Variable env : Olx.Env.
Variable browser : OlxSite.Browser.
Variable Urls_Olx : jstring.

(** one page load: the page is returned and closed; or no page is opened;
    or the page is opened and left open *)
Lemma getOlxPage_cases : forall url st,
    (exists page,
        OlxSite.content browser url = Ok page
        /\ Props.loads browser url
        /\ OlxSite.getOlxPage browser url st
           = ([OlxSite.pageOpened url; OlxSite.fatal_status 200;
               OlxSite.pageClosed url], Ok page, st))
    \/ (exists e, OlxSite.getOlxPage browser url st = ([], Throw e, st))
    \/ (~ Props.loads browser url
        /\ exists e after,
            OlxSite.getOlxPage browser url st
            = (OlxSite.pageOpened url :: after, Throw e, st)
            /\ (after = [] \/ after = [OlxSite.fatal_status 200])).
Proof.
  intros url st. unfold OlxSite.getOlxPage, Props.loads.
  destruct (OlxSite.newPage browser url) as [[]|e0];
    [|right; left; eexists; reflexivity].
  destruct (OlxSite.goto browser url) as [err| |status];
    try (right; right; split;
         [intros (Hg & _); discriminate
         | eexists; exists []; split; [reflexivity | left; reflexivity]]).
  destruct (Z.eqb_spec status 200) as [->|Hne]; cbn [negb].
  - destruct (OlxSite.content browser url) as [page|e1].
    + destruct (OlxSite.close browser url) as [[]|e2].
      * left. exists page. split; [reflexivity|].
        split; [|reflexivity]. split; [reflexivity|]. split; [eauto | reflexivity].
      * right; right. split; [intros (_ & _ & Hc); discriminate|].
        eexists; eexists; split; [reflexivity | right; reflexivity].
    + right; right. split; [intros (_ & (p & Hp) & _); discriminate|].
      eexists; eexists; split; [reflexivity | right; reflexivity].
  - right; right. split; [intros (Hg & _); congruence|].
    eexists; exists []; split; [reflexivity | left; reflexivity].
Qed.

(** extraction of one page: no page is opened or closed, the cell is left
    alone, and the records are stamped with the cell *)
Lemma getOlxPageAds_cases : forall page st,
    (exists recs done ms k,
        OlxSite.getOlxPageAds env page st
        = ([OlxSite.info_parseTime ms], Ok (recs, done),
           {| OlxSite.reads := k; OlxSite.debugUrl := OlxSite.debugUrl st |})
        /\ Forall (fun a => Props.stamp a = OlxSite.debugUrl st) recs
        /\ exists k',
            Olx.parseOlxPageAds (OlxSite.debugUrl st) (Olx.offersTable page) env
              (S (OlxSite.reads st)) = (Ok (recs, done), k'))
    \/ (exists e k,
           OlxSite.getOlxPageAds env page st
           = ([], Throw e,
              {| OlxSite.reads := k; OlxSite.debugUrl := OlxSite.debugUrl st |})).
Proof.
  intros page st. unfold OlxSite.getOlxPageAds. cbv zeta.
  destruct (Olx.parseOlxPageAds (OlxSite.debugUrl st) (Olx.offersTable page) env
              (S (OlxSite.reads st))) as [[[recs done]|e] k] eqn:E.
  - left. exists recs, done. eexists. eexists. split; [reflexivity|].
    split; [|exists k; reflexivity].
    unfold Olx.parseOlxPageAds in E.
    destruct (parseOlxPageAds_loop_adds env _ _ _ _ _ _ _ _ E)
      as (new & -> & _ & _ & _ & _ & Hwf & _).
    apply wellFormed_stamp. exact Hwf.
  - right. eexists. eexists. reflexivity.
Qed.

Lemma pagesKept_quiet : forall ev,
    (forall url, ~ In (OlxSite.pageOpened url) ev) ->
    (forall url, ~ In (OlxSite.pageClosed url) ev) ->
    Props.pagesKept browser ev.
Proof.
  intros ev Ho Hc. split; [|split].
  - intros url Hin. destruct (Ho url Hin).
  - intros url Hin. destruct (Hc url Hin).
  - intros url Hin. destruct (Ho url Hin).
Qed.

(** a page that loaded, then events that open and close nothing *)
Lemma pagesKept_loaded : forall url status quiet,
    Props.loads browser url ->
    (forall u, ~ In (OlxSite.pageOpened u) quiet) ->
    (forall u, ~ In (OlxSite.pageClosed u) quiet) ->
    Props.pagesKept browser (OlxSite.pageOpened url :: OlxSite.fatal_status status
                 :: OlxSite.pageClosed url :: quiet).
Proof.
  intros url status quiet Hl Ho Hc. split; [|split].
  - intros u [E|[E|[E|Hin]]] _; try discriminate.
    + injection E as <-. right; right; left; reflexivity.
    + destruct (Ho u Hin).
  - intros u [E|[E|[E|Hin]]]; try discriminate.
    + injection E as <-. exact Hl.
    + destruct (Hc u Hin).
  - intros u [E|[E|[E|Hin]]] Hn; try discriminate.
    + injection E as <-. contradiction.
    + destruct (Ho u Hin).
Qed.

(** a page that loaded, one line, and then a trace that keeps its pages *)
Lemma pagesKept_after : forall url status line ev,
    Props.loads browser url ->
    (forall u, line <> OlxSite.pageOpened u) ->
    (forall u, line <> OlxSite.pageClosed u) ->
    Props.pagesKept browser ev ->
    Props.pagesKept browser (OlxSite.pageOpened url :: OlxSite.fatal_status status
                 :: OlxSite.pageClosed url :: line :: ev).
Proof.
  intros url status line ev Hl Ho Hc (K1 & K2 & K3). split; [|split].
  - intros u [E|[E|[E|[E|Hin]]]] Hu; try discriminate.
    + injection E as <-. right; right; left; reflexivity.
    + destruct (Ho u E).
    + right; right; right; right. exact (K1 u Hin Hu).
  - intros u [E|[E|[E|[E|Hin]]]]; try discriminate.
    + injection E as <-. exact Hl.
    + destruct (Hc u E).
    + exact (K2 u Hin).
  - intros u [E|[E|[E|[E|Hin]]]] Hn; try discriminate.
    + injection E as <-. contradiction.
    + destruct (Ho u E).
    + destruct (K3 u Hin Hn) as (Hcount & before & after & Hev & Hafter).
      split.
      * unfold Props.opened, Props.closed in *. cbn [filter length].
        destruct line; cbn [filter length];
          try (rewrite Hcount; reflexivity).
        -- destruct (Ho url0 eq_refl).
        -- destruct (Hc url0 eq_refl).
      * exists (OlxSite.pageOpened url :: OlxSite.fatal_status status
                  :: OlxSite.pageClosed url :: line :: before), after.
        split; [rewrite Hev; reflexivity | exact Hafter].
Qed.

(** a page left open ends the trace *)
Lemma pagesKept_leftOpen : forall url after,
    ~ Props.loads browser url ->
    after = [] \/ after = [OlxSite.fatal_status 200] ->
    Props.pagesKept browser (OlxSite.pageOpened url :: after)
    /\ Props.opened (OlxSite.pageOpened url :: after) = 1%nat
    /\ Props.closed (OlxSite.pageOpened url :: after) = 0%nat.
Proof.
  intros url after Hn Hafter.
  assert (Ho : forall u, In (OlxSite.pageOpened u) (OlxSite.pageOpened url :: after)
                         -> u = url).
  { intros u [E|Hin]; [injection E as <-; reflexivity|].
    destruct Hafter as [-> | ->]; [destruct Hin|].
    destruct Hin as [E|[]]; discriminate. }
  assert (Hc : forall u, ~ In (OlxSite.pageClosed u) (OlxSite.pageOpened url :: after)).
  { intros u [E|Hin]; [discriminate|].
    destruct Hafter as [-> | ->]; [destruct Hin|].
    destruct Hin as [E|[]]; discriminate. }
  assert (Hcount : Props.opened (OlxSite.pageOpened url :: after) = 1%nat
                   /\ Props.closed (OlxSite.pageOpened url :: after) = 0%nat)
    by (destruct Hafter as [-> | ->]; split; reflexivity).
  split; [|exact Hcount]. split; [|split].
  - intros u Hin Hu. apply Ho in Hin. subst u. contradiction.
  - intros u Hin. destruct (Hc u Hin).
  - intros u Hin _. apply Ho in Hin. subst u.
    destruct Hcount as [-> ->]. split; [reflexivity|].
    exists [], after. split; [reflexivity | exact Hafter].
Qed.

(** what the loop over the further pages keeps *)
Lemma getOlxAnnouncements_loop_facts : forall pageUrls announcements st ev r st',
    OlxSite.getOlxAnnouncements_loop env browser pageUrls announcements st
    = (ev, r, st') ->
    (Props.opened ev <= length pageUrls)%nat
    /\ (Props.opened ev = Props.closed ev
        \/ (Props.opened ev = S (Props.closed ev) /\ exists e, r = Throw e))
    /\ ((pageUrls = [] /\ OlxSite.debugUrl st' = OlxSite.debugUrl st)
        \/ In (OlxSite.debugUrl st') pageUrls)
    /\ (forall result,
           r = Ok result ->
           (pageUrls = [] \/ (1 <= Props.opened ev)%nat)
           /\ exists later,
               result = announcements ++ later
               /\ Forall (fun a => In (Props.stamp a) pageUrls) later)
    /\ Props.pagesKept browser ev.
Proof.
  induction pageUrls as [|u rest IH]; intros announcements st ev r st' H.
  - cbn in H. injection H as <- <- <-.
    split; [cbn; lia|]. split; [left; reflexivity|].
    split; [left; split; reflexivity|].
    split; [|apply pagesKept_quiet; intros url []].
    intros result E. injection E as <-. split; [left; reflexivity|].
    exists []. rewrite app_nil_r. split; [reflexivity | constructor].
  - cbn [OlxSite.getOlxAnnouncements_loop] in H.
    unfold OlxSite.bind at 1 in H. unfold OlxSite.setDebugUrl at 1 in H.
    unfold OlxSite.bind at 1 in H.
    set (st1 := {| OlxSite.reads := OlxSite.reads st; OlxSite.debugUrl := u |}) in H.
    destruct (getOlxPage_cases u st1)
      as [(page & Hcontent & Hloads & Hp)
         | [(e & Hp) | (Hbad & e & after & Hp & Hafter)]];
      rewrite Hp in H.
    + unfold OlxSite.bind at 1 in H.
      destruct (getOlxPageAds_cases page st1)
        as [(recs & done & ms & k & Ha & Hstamp & _) | (e & k & Ha)];
        rewrite Ha in H.
      * cbn [fst snd] in H. destruct done.
        -- cbn in H. injection H as <- <- <-.
           split; [cbn; lia|]. split; [left; reflexivity|].
           split; [right; left; reflexivity|].
           split.
           { intros result E. injection E as <-.
             split; [right; cbn; lia|]. exists recs.
             split; [reflexivity|].
             eapply Forall_impl; [|exact Hstamp].
             intros a Hs. left. cbn in Hs. symmetry; exact Hs. }
           apply pagesKept_loaded; [exact Hloads | |];
             intros v [E|[]]; discriminate.
        -- destruct (OlxSite.getOlxAnnouncements_loop env browser rest
                       (announcements ++ recs) _) as [[ev2 r2] st2] eqn:E2.
           destruct (IH _ _ _ _ _ E2) as (Hn & Hoc & Hcell & Hres & Hkept).
           injection H as <- <- <-.
           split; [|split; [|split; [|split]]].
           ++ unfold Props.opened in *. cbn [app filter length] in *. lia.
           ++ unfold Props.opened, Props.closed in *. cbn [app filter length] in *.
              destruct Hoc as [Hoc | [Hoc He]];
                [left | right; split; [|exact He]]; lia.
           ++ cbn [OlxSite.debugUrl] in Hcell.
              destruct Hcell as [[_ ->] | Hin];
                right; [left; reflexivity | right; exact Hin].
           ++ intros result E. destruct (Hres result E) as (_ & later & -> & Hlater).
              split; [right; unfold Props.opened in *; cbn [app filter length] in *; lia|].
              exists (recs ++ later). rewrite app_assoc. split; [reflexivity|].
              apply Forall_app. split.
              ** eapply Forall_impl; [|exact Hstamp].
                 intros a Hs. left. cbn in Hs. symmetry; exact Hs.
              ** eapply Forall_impl; [|exact Hlater].
                 intros a Hin. right. exact Hin.
           ++ cbn [app]. apply pagesKept_after;
                [exact Hloads | discriminate | discriminate | exact Hkept].
      * injection H as <- <- <-.
        split; [cbn; lia|]. split; [left; reflexivity|].
        split; [right; left; reflexivity|].
        split; [intros result E; discriminate|].
        cbn [app]. apply pagesKept_loaded; [exact Hloads | |]; intros v [].
    + injection H as <- <- <-.
      split; [cbn; lia|]. split; [left; reflexivity|].
      split; [right; left; reflexivity|].
      split; [intros result E; discriminate|].
      apply pagesKept_quiet; intros url [].
    + injection H as <- <- <-.
      destruct (pagesKept_leftOpen u after Hbad Hafter) as (Hkept & Ho & Hc).
      cbn [app].
      split; [rewrite Ho; cbn; lia|].
      split; [right; rewrite Ho, Hc; split; [reflexivity | eauto]|].
      split; [right; left; reflexivity|].
      split; [intros result E; discriminate | exact Hkept].
Qed.

(** what a whole crawl keeps *)
Lemma getOlxAnnouncements_facts : forall st ev r st',
    OlxSite.getOlxAnnouncements env browser Urls_Olx st = (ev, r, st') ->
    ((Props.opened ev <= 1)%nat
     \/ exists firstPage,
         OlxSite.content browser Urls_Olx = Ok firstPage
         /\ (Props.opened ev
             <= S (length (Olx.getOlxUrlsToNextPages Urls_Olx firstPage)))%nat)
    /\ (Props.opened ev = Props.closed ev
        \/ (Props.opened ev = S (Props.closed ev) /\ exists e, r = Throw e))
    /\ ((2 <= Props.opened ev)%nat ->
        exists firstPage,
          OlxSite.content browser Urls_Olx = Ok firstPage
          /\ In (OlxSite.debugUrl st')
               (Olx.getOlxUrlsToNextPages Urls_Olx firstPage))
    /\ (forall result,
           r = Ok result ->
           exists firstPage first done k later,
             OlxSite.content browser Urls_Olx = Ok firstPage
             /\ Olx.parseOlxPageAds (OlxSite.debugUrl st)
                  (Olx.offersTable firstPage) env
                  (S (OlxSite.reads st)) = (Ok (first, done), k)
             /\ result = first ++ later
             /\ Forall (fun a => Props.stamp a = OlxSite.debugUrl st) first
             /\ Forall (fun a => In (Props.stamp a)
                                   (Olx.getOlxUrlsToNextPages Urls_Olx firstPage))
                  later
             /\ ((Props.opened ev = 1%nat
                  /\ OlxSite.debugUrl st' = OlxSite.debugUrl st)
                 \/ ((2 <= Props.opened ev)%nat
                     /\ In (OlxSite.debugUrl st')
                          (Olx.getOlxUrlsToNextPages Urls_Olx firstPage))))
    /\ Props.pagesKept browser ev.
Proof.
  intros st ev r st' H.
  unfold OlxSite.getOlxAnnouncements, OlxSite.bind in H.
  destruct (getOlxPage_cases Urls_Olx st)
    as [(page & Hcontent & Hloads & Hp)
       | [(e & Hp) | (Hbad & e & after & Hp & Hafter)]];
    rewrite Hp in H.
  - destruct (getOlxPageAds_cases page st)
      as [(recs & done & ms & k & Hq & Hstamp & k1 & Hparse) | (e & k & Hq)];
      rewrite Hq in H; cbn [fst snd] in H.
    + destruct done.
      * cbn in H. injection H as <- <- <-.
        split; [left; cbn; lia|]. split; [left; reflexivity|].
        split; [cbn; lia|].
        split.
        { intros result E. injection E as <-. exists page, recs, true, k1, [].
          rewrite app_nil_r. split; [exact Hcontent|]. split; [exact Hparse|].
          split; [reflexivity|]. split; [exact Hstamp|]. split; [constructor|].
          left. split; reflexivity. }
        apply pagesKept_loaded; [exact Hloads | |];
          intros v [E|[E|[]]]; discriminate.
      * remember (Olx.getOlxUrlsToNextPages Urls_Olx page) as pageUrls eqn:Eurls.
        unfold OlxSite.log, OlxSite.ret in H.
        destruct (length pageUrls =? 0)%nat eqn:Elen.
        -- cbn in H. injection H as <- <- <-.
           split; [left; cbn; lia|]. split; [left; reflexivity|].
           split; [cbn; lia|].
           split.
           { intros result E. injection E as <-. exists page, recs, false, k1, [].
             rewrite app_nil_r. split; [exact Hcontent|]. split; [exact Hparse|].
             split; [reflexivity|]. split; [exact Hstamp|]. split; [constructor|].
             left. split; reflexivity. }
           apply pagesKept_loaded; [exact Hloads | |];
             intros v [E|[E|[E|[]]]]; discriminate.
        -- destruct (OlxSite.getOlxAnnouncements_loop env browser pageUrls recs
                       {| OlxSite.reads := k; OlxSite.debugUrl := OlxSite.debugUrl st |})
             as [[ev2 r2] st2] eqn:E2.
           injection H as <- <- <-.
           destruct (getOlxAnnouncements_loop_facts _ _ _ _ _ _ E2)
             as (Hn & Hoc & Hcell & Hres & Hkept).
           cbn [OlxSite.debugUrl] in Hcell.
           assert (Hne : pageUrls <> []).
           { intros Hnil. rewrite Hnil in Elen. discriminate. }
           assert (Hin : In (OlxSite.debugUrl st2) pageUrls).
           { destruct Hcell as [[Hnil _] | Hin]; [contradiction | exact Hin]. }
           split; [|split; [|split; [|split]]].
           ++ right. exists page. split; [exact Hcontent|]. rewrite <- Eurls.
              unfold Props.opened in *. cbn [app filter length] in *. lia.
           ++ unfold Props.opened, Props.closed in *. cbn [app filter length] in *.
              destruct Hoc as [Hoc | [Hoc Hthrow]];
                [left; lia | right; split; [lia | exact Hthrow]].
           ++ intros _. exists page. rewrite <- Eurls.
              split; [exact Hcontent | exact Hin].
           ++ intros result E.
              destruct (Hres result E) as ([Hnil | Hone] & later & -> & Hlater);
                [contradiction|].
              exists page, recs, false, k1, later. rewrite <- Eurls.
              split; [exact Hcontent|]. split; [exact Hparse|].
              split; [reflexivity|]. split; [exact Hstamp|].
              split; [exact Hlater|].
              right. split; [|exact Hin].
              unfold Props.opened in *. cbn [app filter length] in *. lia.
           ++ cbn [app].
              change (Props.pagesKept browser
                        (OlxSite.pageOpened Urls_Olx :: OlxSite.fatal_status 200
                           :: OlxSite.pageClosed Urls_Olx
                           :: OlxSite.info_parseTime ms
                           :: (OlxSite.debug_pagesNumber (length pageUrls) :: ev2))).
              apply pagesKept_after;
                [exact Hloads | discriminate | discriminate |].
              destruct Hkept as (K1 & K2 & K3). split; [|split].
              ** intros v [E|Hv] Hl; [discriminate|]. right. exact (K1 v Hv Hl).
              ** intros v [E|Hv]; [discriminate|]. exact (K2 v Hv).
              ** intros v [E|Hv] Hl; [discriminate|].
                 destruct (K3 v Hv Hl) as (Hcount & before & after & Hev & Hafter).
                 split; [exact Hcount|].
                 exists (OlxSite.debug_pagesNumber (length pageUrls) :: before), after.
                 split; [rewrite Hev; reflexivity | exact Hafter].
    + injection H as <- <- <-.
      split; [left; cbn; lia|]. split; [left; reflexivity|].
      split; [cbn; lia|].
      split; [intros result E; discriminate|].
      cbn [app]. apply pagesKept_loaded; [exact Hloads | |]; intros v [].
  - injection H as <- <- <-.
    split; [left; cbn; lia|]. split; [left; reflexivity|].
    split; [cbn; lia|].
    split; [intros result E; discriminate|].
    apply pagesKept_quiet; intros url [].
  - injection H as <- <- <-.
    destruct (pagesKept_leftOpen Urls_Olx after Hbad Hafter) as (Hkept & Ho & Hc).
    split; [left; rewrite Ho; lia|].
    split; [right; rewrite Ho, Hc; split; [reflexivity | eauto]|].
    split; [rewrite Ho; lia|].
    split; [intros result E; discriminate | exact Hkept].
Qed.

End OlxCrawlFacts.

Lemma getOlxUrlsToNextPages_pages : forall base page,
    Olx.getOlxUrlsToNextPages base page
    = map (Spec.pageUrlOf base) (seq 2 (Olx.pagerLinks page - 2)).
Proof.
  intros base page. unfold Olx.getOlxUrlsToNextPages. cbv zeta.
  rewrite pagesLoop_seq by lia. reflexivity.
Qed.

(** X18.  A crawl of the OLX listing opens at most the first page and one
    page for each next-page URL.  A page it has opened is closed exactly
    when the response has status 200 and both the reading of the content
    and the closing succeed.  A page opened for which one of these fails is
    left open, no close of it being completed: it is the last page opened,
    the crawl throws there, and one page more has been opened than closed.
    A crawl that returns has closed every page it opened. *)
Theorem getOlxAnnouncements_pages :
  forall env browser Urls_Olx st ev r st',
    OlxSite.getOlxAnnouncements env browser Urls_Olx st = (ev, r, st') ->
    ((Props.opened ev <= 1)%nat
     \/ exists firstPage,
         OlxSite.content browser Urls_Olx = Ok firstPage
         /\ (Props.opened ev <= S (Olx.pagerLinks firstPage - 2))%nat)
    /\ (Props.closed ev <= Props.opened ev <= S (Props.closed ev))%nat
    /\ (forall result, r = Ok result -> Props.opened ev = Props.closed ev)
    /\ (forall url,
          In (OlxSite.pageOpened url) ev ->
          (In (OlxSite.pageClosed url) ev <-> Props.loads browser url))
    /\ (forall url,
          In (OlxSite.pageOpened url) ev ->
          ~ Props.loads browser url ->
          Props.opened ev = S (Props.closed ev)
          /\ (exists e, r = Throw e)
          /\ Props.leftOpen url ev).
Proof.
  intros env browser Urls_Olx st ev r st' H.
  destruct (getOlxAnnouncements_facts env browser Urls_Olx _ _ _ _ H)
    as (Hn & Hoc & _ & _ & K1 & K2 & K3).
  split.
  { destruct Hn as [Hn | (firstPage & Hc & Hn)]; [left; exact Hn | right].
    exists firstPage. split; [exact Hc|].
    rewrite getOlxUrlsToNextPages_pages, length_map, length_seq in Hn. exact Hn. }
  split; [destruct Hoc as [Hoc | [Hoc _]]; lia|].
  split.
  { intros result E. destruct Hoc as [Hoc | [_ [e He]]]; [exact Hoc | congruence]. }
  split.
  { intros url Hin. split; [apply K2 | apply K1; exact Hin]. }
  intros url Hin Hne. destruct (K3 url Hin Hne) as (Hl & Hlast).
  split; [exact Hl|].
  destruct Hoc as [Hoc | [_ Hthrow]]; [lia|].
  split; [exact Hthrow | exact Hlast].
Qed.

(** every page answers with status 200, but the content of the second page
    cannot be read: that page is left open and the crawl throws *)
Lemma getOlxAnnouncements_pages_witness :
  let run :=
    OlxSite.getOlxAnnouncements (Sample.at_ Sample.t_2024_01_10_1030)
      Sample2.olxBrowserFirstOnly Sample.listing Sample2.freshState in
  Props.opened (fst (fst run)) = S (Props.closed (fst (fst run)))
  /\ (exists e, snd (fst run) = Throw e)
  /\ Props.leftOpen Sample2.page2Url (fst (fst run)).
Proof.
  intro run.
  assert (E : run = (fst (fst run), snd (fst run), snd run))
    by (vm_compute; reflexivity).
  apply (proj2 (proj2 (proj2 (proj2
           (getOlxAnnouncements_pages (Sample.at_ Sample.t_2024_01_10_1030)
              Sample2.olxBrowserFirstOnly Sample.listing Sample2.freshState
              (fst (fst run)) (snd (fst run)) (snd run) E))))
           Sample2.page2Url).
  - vm_compute. tauto.
  - intros (_ & (page & Hpage) & _). vm_compute in Hpage. discriminate.
Defined.

Lemma nextPage_urls : forall base page u,
    In u (Olx.getOlxUrlsToNextPages base page) ->
    exists i, (2 <= i < Olx.pagerLinks page)%nat /\ u = Spec.pageUrlOf base i.
Proof.
  intros base page u Hin. rewrite getOlxUrlsToNextPages_pages in Hin.
  apply in_map_iff in Hin. destruct Hin as (i & <- & Hi).
  apply in_seq in Hi. exists i. split; [lia | reflexivity].
Qed.

Lemma pageUrlOf_not_base : forall base i, Spec.pageUrlOf base i <> base.
Proof.
  intros base i H. unfold Spec.pageUrlOf in H.
  rewrite <- (app_nil_r base) in H at 2.
  apply app_inv_head in H. discriminate.
Qed.

(** X19.  When the first page of the listing loads (a page is opened, the
    response has status 200, the content is read and the page closes) and
    its extraction returns, and the extraction met a stale entry or the page
    has at most two pager links, the crawl ends there: one page is opened
    and closed, the result is the records of that page, the cell
    [_debugInfo.url] is left as it was, and the log says which of the two it
    was. *)
Theorem getOlxAnnouncements_first_page_only :
  forall env browser Urls_Olx st firstPage recs done k,
    OlxSite.newPage browser Urls_Olx = Ok tt ->
    OlxSite.goto browser Urls_Olx = Scraper.gotoStatus 200 ->
    OlxSite.content browser Urls_Olx = Ok firstPage ->
    OlxSite.close browser Urls_Olx = Ok tt ->
    Olx.parseOlxPageAds (OlxSite.debugUrl st) (Olx.offersTable firstPage) env
      (S (OlxSite.reads st)) = (Ok (recs, done), k) ->
    done = true \/ (Olx.pagerLinks firstPage <= 2)%nat ->
    OlxSite.getOlxAnnouncements env browser Urls_Olx st
    = ([OlxSite.pageOpened Urls_Olx; OlxSite.fatal_status 200;
        OlxSite.pageClosed Urls_Olx;
        OlxSite.info_parseTime
          (Olx.clock env k - Olx.clock env (OlxSite.reads st))]
       ++ (if done then [OlxSite.debug_endedOnFirstPage]
           else [OlxSite.debug_pagesNumber 0; OlxSite.warn_onlyOnePage]),
       Ok recs,
       {| OlxSite.reads := S k; OlxSite.debugUrl := OlxSite.debugUrl st |}).
Proof.
  intros env browser Urls_Olx st firstPage recs done k
         Hnew Hgoto Hcontent Hclose Hparse Hend.
  unfold OlxSite.getOlxAnnouncements, OlxSite.bind, OlxSite.getOlxPage.
  rewrite Hnew, Hgoto. cbn [Z.eqb Pos.eqb negb]. rewrite Hcontent, Hclose.
  unfold OlxSite.getOlxPageAds. cbv zeta. rewrite Hparse.
  cbn [fst snd].
  destruct done; [reflexivity|].
  destruct Hend as [Habs | Hlinks]; [discriminate|].
  rewrite getOlxUrlsToNextPages_pages.
  replace (Olx.pagerLinks firstPage - 2)%nat with 0%nat by lia.
  reflexivity.
Qed.

Lemma getOlxAnnouncements_first_page_only_witness :
  exists ms,
    OlxSite.getOlxAnnouncements (Sample.at_ Sample.t_2024_01_10_1030)
      Sample2.olxBrowserStale Sample.listing Sample2.freshState
    = ([OlxSite.pageOpened Sample.listing; OlxSite.fatal_status 200;
        OlxSite.pageClosed Sample.listing; OlxSite.info_parseTime ms;
        OlxSite.debug_endedOnFirstPage],
       Ok [],
       {| OlxSite.reads := 4; OlxSite.debugUrl := Sample.listing |}).
Proof.
  eexists.
  apply (getOlxAnnouncements_first_page_only
           (Sample.at_ Sample.t_2024_01_10_1030) Sample2.olxBrowserStale
           Sample.listing Sample2.freshState
           {| Olx.pagerLinks := 4; Olx.offersTable := [Sample.ad3; Sample.ad4] |}
           [] true 3%nat).
  - reflexivity.
  - reflexivity.
  - reflexivity.
  - reflexivity.
  - vm_compute. reflexivity.
  - left. reflexivity.
Defined.

(** X20.  In the result of a crawl the records of the first page come
    first, and each carries in [_debugInfo.url] the value the module-level
    cell had when the crawl began, whatever the URL of the listing; every
    later record carries the URL of one of the next pages, [&page=i] with
    [2 <= i < pagerLinks].  The crawl leaves the cell as it found it when
    it opened one page, and at the URL of one of the next pages
    otherwise. *)
Theorem getOlxAnnouncements_stamps :
  forall env browser Urls_Olx st ev result st',
    OlxSite.getOlxAnnouncements env browser Urls_Olx st = (ev, Ok result, st') ->
    exists firstPage first done k later,
      let isNextPage (u : jstring) :=
        exists i, (2 <= i < Olx.pagerLinks firstPage)%nat
                  /\ u = Spec.pageUrlOf Urls_Olx i in
      OlxSite.content browser Urls_Olx = Ok firstPage
      /\ Olx.parseOlxPageAds (OlxSite.debugUrl st) (Olx.offersTable firstPage) env
           (S (OlxSite.reads st)) = (Ok (first, done), k)
      /\ result = first ++ later
      /\ Forall (fun a => Props.stamp a = OlxSite.debugUrl st) first
      /\ Forall (fun a => isNextPage (Props.stamp a)) later
      /\ ((Props.opened ev = 1%nat /\ OlxSite.debugUrl st' = OlxSite.debugUrl st)
          \/ ((2 <= Props.opened ev)%nat /\ isNextPage (OlxSite.debugUrl st'))).
Proof.
  intros env browser Urls_Olx st ev result st' H.
  destruct (getOlxAnnouncements_facts env browser Urls_Olx _ _ _ _ H)
    as (_ & _ & _ & Hres & _).
  destruct (Hres result eq_refl)
    as (firstPage & first & done & k & later & Hc & Hp & -> & Hf & Hl & Hcell).
  exists firstPage, first, done, k, later. cbv zeta.
  split; [exact Hc|]. split; [exact Hp|]. split; [reflexivity|].
  split; [exact Hf|]. split.
  - eapply Forall_impl; [|exact Hl].
    intros a Hin. apply nextPage_urls in Hin. exact Hin.
  - destruct Hcell as [Hone | [Hmore Hin]]; [left; exact Hone | right].
    split; [exact Hmore|]. apply nextPage_urls in Hin. exact Hin.
Qed.

Lemma getOlxAnnouncements_stamps_witness :
  let run :=
    OlxSite.getOlxAnnouncements (Sample.at_ Sample.t_2024_01_10_1030)
      Sample2.olxBrowser Sample.listing Sample2.usedState in
  exists result first later,
    snd (fst run) = Ok result
    /\ result = first ++ later
    /\ Forall (fun a => Props.stamp a = Sample2.page2Url) first.
Proof.
  intro run.
  assert (E : exists result, run = (fst (fst run), Ok result, snd run))
    by (eexists; vm_compute; reflexivity).
  destruct E as (result & E).
  destruct (getOlxAnnouncements_stamps (Sample.at_ Sample.t_2024_01_10_1030)
              Sample2.olxBrowser Sample.listing Sample2.usedState
              (fst (fst run)) result (snd run) E)
    as (firstPage & first & done & k & later & _ & _ & Hres & Hf & _).
  exists result, first, later.
  split; [rewrite E; reflexivity|]. split; [exact Hres | exact Hf].
Defined.

(** X21.  The cell [_debugInfo.url] outlives a crawl.  After a crawl that
    opened more than one page, however it ended, the next crawl stamps
    every record of its first page with the URL of one of the earlier
    crawl's next pages, never with the URL of the listing the records come
    from. *)
Theorem getOlxAnnouncements_stale_debug_url :
  forall env1 browser1 env2 browser2 Urls_Olx st ev1 r1 st1 ev2 result st2,
    OlxSite.getOlxAnnouncements env1 browser1 Urls_Olx st = (ev1, r1, st1) ->
    (2 <= Props.opened ev1)%nat ->
    OlxSite.getOlxAnnouncements env2 browser2 Urls_Olx st1 = (ev2, Ok result, st2) ->
    exists earlier firstPage i first done k later,
      OlxSite.content browser1 Urls_Olx = Ok earlier
      /\ (2 <= i < Olx.pagerLinks earlier)%nat
      /\ OlxSite.content browser2 Urls_Olx = Ok firstPage
      /\ Olx.parseOlxPageAds (Spec.pageUrlOf Urls_Olx i)
           (Olx.offersTable firstPage) env2
           (S (OlxSite.reads st1)) = (Ok (first, done), k)
      /\ result = first ++ later
      /\ Forall (fun a => Props.stamp a = Spec.pageUrlOf Urls_Olx i
                          /\ Props.stamp a <> Urls_Olx) first.
Proof.
  intros env1 browser1 env2 browser2 Urls_Olx st ev1 r1 st1 ev2 result st2
         H1 Hmore H2.
  destruct (getOlxAnnouncements_facts env1 browser1 Urls_Olx _ _ _ _ H1)
    as (_ & _ & Hcell & _).
  destruct (Hcell Hmore) as (earlier & Hc1 & Hin).
  apply nextPage_urls in Hin. destruct Hin as (i & Hi & Hurl).
  destruct (getOlxAnnouncements_facts env2 browser2 Urls_Olx _ _ _ _ H2)
    as (_ & _ & _ & Hres & _).
  destruct (Hres result eq_refl)
    as (firstPage & first & done & k & later & Hc2 & Hp & -> & Hf & _).
  rewrite Hurl in Hp, Hf.
  exists earlier, firstPage, i, first, done, k, later.
  split; [exact Hc1|]. split; [exact Hi|]. split; [exact Hc2|].
  split; [exact Hp|]. split; [reflexivity|].
  eapply Forall_impl; [|exact Hf].
  intros a Ha. split; [exact Ha|]. rewrite Ha. apply pageUrlOf_not_base.
Qed.

Lemma getOlxAnnouncements_stale_debug_url_witness :
  let env := Sample.at_ Sample.t_2024_01_10_1030 in
  let run1 :=
    OlxSite.getOlxAnnouncements env Sample2.olxBrowser Sample.listing
      Sample2.freshState in
  let run2 :=
    OlxSite.getOlxAnnouncements env Sample2.olxBrowser Sample.listing (snd run1) in
  exists result first later,
    snd (fst run2) = Ok result
    /\ result = first ++ later
    /\ Forall (fun a => Props.stamp a <> Sample.listing) first.
Proof.
  intros env run1 run2.
  assert (E1 : run1 = (fst (fst run1), snd (fst run1), snd run1))
    by (vm_compute; reflexivity).
  assert (E2 : exists result, run2 = (fst (fst run2), Ok result, snd run2))
    by (eexists; vm_compute; reflexivity).
  destruct E2 as (result & E2).
  destruct (getOlxAnnouncements_stale_debug_url env Sample2.olxBrowser env
              Sample2.olxBrowser Sample.listing Sample2.freshState
              (fst (fst run1)) (snd (fst run1)) (snd run1)
              (fst (fst run2)) result (snd run2) E1)
    as (earlier & firstPage & i & first & done & k & later
        & _ & _ & _ & _ & Hres & Hf).
  - vm_compute. lia.
  - exact E2.
  - exists result, first, later.
    split; [rewrite E2; reflexivity|]. split; [exact Hres|].
    eapply Forall_impl; [|exact Hf]. intros a [_ Hne]. exact Hne.
Defined.
